(** * KXSpinnerLikeBehavior: the restartable control loop of a spinner-like widget

    Shallow embedding of [src/kivyx/uix/behavior/spinner.py].

    The mix-in keeps one asynckivy task ([_main]) alive per control.  A Clock
    trigger bound to five properties restarts it; [_main] builds the dropdown
    and its option widgets (re-using the ones of the previous run), applies
    the selection policy, and then loops on "released -> open -> dismissed".

    The Python objects the code mutates are kept in an explicit store: option
    widgets and dropdowns live in two finite maps keyed by object identity,
    the control itself is the rest of the record [world].  The collaborators
    the code calls into (kivy's Widget/DropDown/EventDispatcher/Clock and
    asynckivy's Task) are modelled by the part of their behaviour that the
    code relies on; each such definition says which library call it stands
    for. *)

From stdpp Require Import gmap strings list fin_maps.
From Stdlib Require Import ZArith Lia.

(** ** Data model *)

(** A widget class object, by name. *)
Definition class_id := string.

(** What [option_cls] / [dropdown_cls] may hold: a name (resolved through
    [Factory.get]; the empty string stands for "no class") or a class
    object.  The two properties do not allow [None]. *)
Inductive cls_ref :=
| CName (n : string)
| CClass (c : class_id).

(** Values found in the dictionaries of [option_data]. *)
Inductive value :=
| VNum (z : Z)
| VStr (t : string).

(** One element of [option_data]: the [items()] of the dictionary, in
    iteration order. *)
Definition descriptor := list (string * value).

(** [partial(self._sync_height, dd.container)]: every run builds a new partial
    object, so a handler carries its own identity next to the dropdown whose
    container it closes over. *)
Record handler := { h_id : nat; h_dd : nat }.

#[global] Instance handler_eq_dec : EqDecision handler.
Proof. solve_decision. Defined.

(** An option widget.  [w_on_release] lists the callbacks bound to its
    [on_release] event: each is [partial(self._on_release_item, dd)], recorded
    by its [dd]. *)
Record option_widget := {
  w_class : class_id;
  w_attrs : gmap string value;
  w_on_release : list nat;
  w_parent : option nat;
}.

(** A dropdown together with its [container].  [dd_children] is
    [dd.container.children]; [dd_on_select] counts how many times
    [self._on_dropdown_select] is bound to [on_select]; [dd_attached] says
    whether [attach_to] is set (the dropdown is shown). *)
Record dropdown := {
  dd_class : class_id;
  dd_children : list nat;
  dd_spacing : list Z;
  dd_padding : list Z;
  dd_on_select : nat;
  dd_attached : bool;
}.

(** The state of [self._main_task].  A suspended [_main] is determined by the
    [await] it is parked on and by its two live locals, [dd] and
    [_sync_height]. *)
Inductive task :=
| TDummy                                             (* ak.dummy_task *)
| TFinished                                          (* returned, raised or cancelled *)
| TAwaitRelease (dd : nat) (sh : option handler)     (* line 148 *)
| TAwaitDismiss (dd : nat) (sh : option handler).    (* line 150 *)

(** Calls into the collaborators, in the order they happen. *)
Inductive event :=
| ECancel
| EStart
| ENewDropdown (d : nat)
| EBindForward (d : nat)
| ENewWidget (w : nat)
| ESetattr (w : nat) (name : string) (v : value)
| EBindRelease (w d : nat)
| EAddWidget (d w : nat)
| ESyncHeight (d : nat) (h : Z)
| EBindHeight (h : handler)
| EBindSelect (d : nat)
| EOpen (d : nat)
| EUnbindSelect (d : nat)
| EUnbindHeight (h : handler)
| EStorePool (d : nat) (ws : list nat)
| EClearWidgets (d : nat)
| ERealDismiss (d : nat).

(** The properties that configure a run (lines 42-61) and the [height] of the
    host widget.  [auto_select] is [None] or a number; an integer here. *)
Record config := {
  option_data : list descriptor;
  option_spacing : list Z;
  option_padding : list Z;
  option_cls : cls_ref;
  auto_select : option Z;
  dropdown_cls : cls_ref;
  sync_height : bool;
  height : Z;
}.

(** The control, the objects it created and the Clock trigger.
    [bound_spacing] / [bound_padding] list the dropdowns whose container
    [setter] is bound to [option_spacing] / [option_padding], [bound_height]
    the partials bound to [height].  [res_dropdown] and [res_option_widgets]
    are the two entries of [_previously_used_resources]. *)
Record world := {
  cfg : config;
  selection : option nat;
  bound_spacing : list nat;
  bound_padding : list nat;
  bound_height : list handler;
  main_task : task;
  res_dropdown : option nat;
  res_option_widgets : option (list nat);
  triggered : bool;
  widgets : gmap nat option_widget;
  dropdowns : gmap nat dropdown;
  next_id : nat;
  trace : list event;
}.

(** Field updates. *)
Definition set_option_data (v : list descriptor) (c : config) : config :=
  {| option_data := v; option_spacing := option_spacing c;
     option_padding := option_padding c; option_cls := option_cls c;
     auto_select := auto_select c; dropdown_cls := dropdown_cls c;
     sync_height := sync_height c; height := height c |}.

Definition set_option_spacing (v : list Z) (c : config) : config :=
  {| option_data := option_data c; option_spacing := v;
     option_padding := option_padding c; option_cls := option_cls c;
     auto_select := auto_select c; dropdown_cls := dropdown_cls c;
     sync_height := sync_height c; height := height c |}.

Definition set_option_padding (v : list Z) (c : config) : config :=
  {| option_data := option_data c; option_spacing := option_spacing c;
     option_padding := v; option_cls := option_cls c;
     auto_select := auto_select c; dropdown_cls := dropdown_cls c;
     sync_height := sync_height c; height := height c |}.

Definition set_option_cls (v : cls_ref) (c : config) : config :=
  {| option_data := option_data c; option_spacing := option_spacing c;
     option_padding := option_padding c; option_cls := v;
     auto_select := auto_select c; dropdown_cls := dropdown_cls c;
     sync_height := sync_height c; height := height c |}.

Definition set_auto_select (v : option Z) (c : config) : config :=
  {| option_data := option_data c; option_spacing := option_spacing c;
     option_padding := option_padding c; option_cls := option_cls c;
     auto_select := v; dropdown_cls := dropdown_cls c;
     sync_height := sync_height c; height := height c |}.

Definition set_dropdown_cls (v : cls_ref) (c : config) : config :=
  {| option_data := option_data c; option_spacing := option_spacing c;
     option_padding := option_padding c; option_cls := option_cls c;
     auto_select := auto_select c; dropdown_cls := v;
     sync_height := sync_height c; height := height c |}.

Definition set_sync_height (v : bool) (c : config) : config :=
  {| option_data := option_data c; option_spacing := option_spacing c;
     option_padding := option_padding c; option_cls := option_cls c;
     auto_select := auto_select c; dropdown_cls := dropdown_cls c;
     sync_height := v; height := height c |}.

Definition set_height (v : Z) (c : config) : config :=
  {| option_data := option_data c; option_spacing := option_spacing c;
     option_padding := option_padding c; option_cls := option_cls c;
     auto_select := auto_select c; dropdown_cls := dropdown_cls c;
     sync_height := sync_height c; height := v |}.

Definition set_cfg (v : config) (s : world) : world :=
  {| cfg := v; selection := selection s; bound_spacing := bound_spacing s;
     bound_padding := bound_padding s; bound_height := bound_height s;
     main_task := main_task s; res_dropdown := res_dropdown s;
     res_option_widgets := res_option_widgets s; triggered := triggered s;
     widgets := widgets s; dropdowns := dropdowns s; next_id := next_id s;
     trace := trace s |}.

Definition set_selection (v : option nat) (s : world) : world :=
  {| cfg := cfg s; selection := v; bound_spacing := bound_spacing s;
     bound_padding := bound_padding s; bound_height := bound_height s;
     main_task := main_task s; res_dropdown := res_dropdown s;
     res_option_widgets := res_option_widgets s; triggered := triggered s;
     widgets := widgets s; dropdowns := dropdowns s; next_id := next_id s;
     trace := trace s |}.

Definition set_bound_spacing (v : list nat) (s : world) : world :=
  {| cfg := cfg s; selection := selection s; bound_spacing := v;
     bound_padding := bound_padding s; bound_height := bound_height s;
     main_task := main_task s; res_dropdown := res_dropdown s;
     res_option_widgets := res_option_widgets s; triggered := triggered s;
     widgets := widgets s; dropdowns := dropdowns s; next_id := next_id s;
     trace := trace s |}.

Definition set_bound_padding (v : list nat) (s : world) : world :=
  {| cfg := cfg s; selection := selection s;
     bound_spacing := bound_spacing s; bound_padding := v;
     bound_height := bound_height s; main_task := main_task s;
     res_dropdown := res_dropdown s;
     res_option_widgets := res_option_widgets s; triggered := triggered s;
     widgets := widgets s; dropdowns := dropdowns s; next_id := next_id s;
     trace := trace s |}.

Definition set_bound_height (v : list handler) (s : world) : world :=
  {| cfg := cfg s; selection := selection s;
     bound_spacing := bound_spacing s; bound_padding := bound_padding s;
     bound_height := v; main_task := main_task s;
     res_dropdown := res_dropdown s;
     res_option_widgets := res_option_widgets s; triggered := triggered s;
     widgets := widgets s; dropdowns := dropdowns s; next_id := next_id s;
     trace := trace s |}.

Definition set_main_task (v : task) (s : world) : world :=
  {| cfg := cfg s; selection := selection s;
     bound_spacing := bound_spacing s; bound_padding := bound_padding s;
     bound_height := bound_height s; main_task := v;
     res_dropdown := res_dropdown s;
     res_option_widgets := res_option_widgets s; triggered := triggered s;
     widgets := widgets s; dropdowns := dropdowns s; next_id := next_id s;
     trace := trace s |}.

Definition set_res_dropdown (v : option nat) (s : world) : world :=
  {| cfg := cfg s; selection := selection s;
     bound_spacing := bound_spacing s; bound_padding := bound_padding s;
     bound_height := bound_height s; main_task := main_task s;
     res_dropdown := v; res_option_widgets := res_option_widgets s;
     triggered := triggered s; widgets := widgets s;
     dropdowns := dropdowns s; next_id := next_id s; trace := trace s |}.

Definition set_res_option_widgets (v : option (list nat)) (s : world) : world :=
  {| cfg := cfg s; selection := selection s;
     bound_spacing := bound_spacing s; bound_padding := bound_padding s;
     bound_height := bound_height s; main_task := main_task s;
     res_dropdown := res_dropdown s; res_option_widgets := v;
     triggered := triggered s; widgets := widgets s;
     dropdowns := dropdowns s; next_id := next_id s; trace := trace s |}.

Definition set_triggered (v : bool) (s : world) : world :=
  {| cfg := cfg s; selection := selection s;
     bound_spacing := bound_spacing s; bound_padding := bound_padding s;
     bound_height := bound_height s; main_task := main_task s;
     res_dropdown := res_dropdown s;
     res_option_widgets := res_option_widgets s; triggered := v;
     widgets := widgets s; dropdowns := dropdowns s; next_id := next_id s;
     trace := trace s |}.

Definition set_widgets (v : gmap nat option_widget) (s : world) : world :=
  {| cfg := cfg s; selection := selection s;
     bound_spacing := bound_spacing s; bound_padding := bound_padding s;
     bound_height := bound_height s; main_task := main_task s;
     res_dropdown := res_dropdown s;
     res_option_widgets := res_option_widgets s; triggered := triggered s;
     widgets := v; dropdowns := dropdowns s; next_id := next_id s;
     trace := trace s |}.

Definition set_dropdowns (v : gmap nat dropdown) (s : world) : world :=
  {| cfg := cfg s; selection := selection s;
     bound_spacing := bound_spacing s; bound_padding := bound_padding s;
     bound_height := bound_height s; main_task := main_task s;
     res_dropdown := res_dropdown s;
     res_option_widgets := res_option_widgets s; triggered := triggered s;
     widgets := widgets s; dropdowns := v; next_id := next_id s;
     trace := trace s |}.

Definition set_next_id (v : nat) (s : world) : world :=
  {| cfg := cfg s; selection := selection s;
     bound_spacing := bound_spacing s; bound_padding := bound_padding s;
     bound_height := bound_height s; main_task := main_task s;
     res_dropdown := res_dropdown s;
     res_option_widgets := res_option_widgets s; triggered := triggered s;
     widgets := widgets s; dropdowns := dropdowns s; next_id := v;
     trace := trace s |}.

Definition set_trace (v : list event) (s : world) : world :=
  {| cfg := cfg s; selection := selection s;
     bound_spacing := bound_spacing s; bound_padding := bound_padding s;
     bound_height := bound_height s; main_task := main_task s;
     res_dropdown := res_dropdown s;
     res_option_widgets := res_option_widgets s; triggered := triggered s;
     widgets := widgets s; dropdowns := dropdowns s; next_id := next_id s;
     trace := v |}.


Definition set_w_attrs (v : gmap string value) (W : option_widget) : option_widget :=
  {| w_class := w_class W; w_attrs := v; w_on_release := w_on_release W;
     w_parent := w_parent W |}.

Definition set_w_on_release (v : list nat) (W : option_widget) : option_widget :=
  {| w_class := w_class W; w_attrs := w_attrs W; w_on_release := v;
     w_parent := w_parent W |}.

Definition set_w_parent (v : option nat) (W : option_widget) : option_widget :=
  {| w_class := w_class W; w_attrs := w_attrs W;
     w_on_release := w_on_release W; w_parent := v |}.

Definition set_dd_children (v : list nat) (D : dropdown) : dropdown :=
  {| dd_class := dd_class D; dd_children := v; dd_spacing := dd_spacing D;
     dd_padding := dd_padding D; dd_on_select := dd_on_select D;
     dd_attached := dd_attached D |}.

Definition set_dd_spacing (v : list Z) (D : dropdown) : dropdown :=
  {| dd_class := dd_class D; dd_children := dd_children D; dd_spacing := v;
     dd_padding := dd_padding D; dd_on_select := dd_on_select D;
     dd_attached := dd_attached D |}.

Definition set_dd_padding (v : list Z) (D : dropdown) : dropdown :=
  {| dd_class := dd_class D; dd_children := dd_children D;
     dd_spacing := dd_spacing D; dd_padding := v;
     dd_on_select := dd_on_select D; dd_attached := dd_attached D |}.

Definition set_dd_on_select (v : nat) (D : dropdown) : dropdown :=
  {| dd_class := dd_class D; dd_children := dd_children D;
     dd_spacing := dd_spacing D; dd_padding := dd_padding D;
     dd_on_select := v; dd_attached := dd_attached D |}.

Definition set_dd_attached (v : bool) (D : dropdown) : dropdown :=
  {| dd_class := dd_class D; dd_children := dd_children D;
     dd_spacing := dd_spacing D; dd_padding := dd_padding D;
     dd_on_select := dd_on_select D; dd_attached := v |}.

(** Updating one object of the store in place. *)
Definition upd_widget (w : nat) (f : option_widget → option_widget) (s : world) : world :=
  set_widgets (alter f w (widgets s)) s.

Definition upd_dropdown (d : nat) (f : dropdown → dropdown) (s : world) : world :=
  set_dropdowns (alter f d (dropdowns s)) s.

(** [dd.container.children] *)
Definition children_of (d : nat) (s : world) : list nat :=
  match dropdowns s !! d with
  | Some D => dd_children D
  | None => []
  end.

(** ** Exceptions and the monad of [_main]

    A Python statement may change the store and then either go on or raise;
    what it changed before raising stays changed. *)

Inductive exn :=
| FactoryException (n : string)           (* Factory.get: unknown name *)
| AttributeError (w : nat) (name : string) (* setattr refused *)
| WidgetException (w : nat)               (* add_widget: already has a parent *)
| IndexError                              (* list index out of range *)
| ReferenceError (i : nat).               (* no such object in the store *)

Inductive result (A : Type) :=
| Ok (a : A)
| Raise (e : exn).
Arguments Ok {A} a.
Arguments Raise {A} e.

Definition M (A : Type) : Type := world → world * result A.

#[global] Instance M_ret : MRet M := λ A a s, (s, Ok a).

#[global] Instance M_bind : MBind M := λ A B f m s,
  match m s with
  | (s1, Ok a) => f a s1
  | (s1, Raise e) => (s1, Raise e)
  end.

Definition raise {A : Type} (e : exn) : M A := λ s, (s, Raise e).
Definition lift {A : Type} (r : result A) : M A := λ s, (s, r).
Definition get : M world := λ s, (s, Ok s).
Definition modify (f : world → world) : M unit := λ s, (f s, Ok tt).
Definition log (e : event) : M unit := modify (λ s, set_trace (trace s ++ [e]) s).

(** A new object identity. *)
Definition fresh : M nat := λ s, (set_next_id (S (next_id s)) s, Ok (next_id s)).

(** ** Python helpers *)

(** [not cls]: the empty string is false, a class object is true. *)
Definition falsy (r : cls_ref) : bool :=
  match r with
  | CName n => bool_decide (n = EmptyString)
  | CClass _ => false
  end.

(** [l[k]] with Python's negative indices; [None] stands for IndexError. *)
Definition py_index {A : Type} (l : list A) (k : Z) : option A :=
  let n := Z.of_nat (length l) in
  let k' := if (k <? 0)%Z then (k + n)%Z else k in
  if ((0 <=? k') && (k' <? n))%Z then l !! Z.to_nat k' else None.

(** [unbind] removes the first occurrence of the callback only. *)
Fixpoint remove_first {A : Type} `{EqDecision A} (x : A) (l : list A) : list A :=
  match l with
  | [] => []
  | y :: l' => if decide (x = y) then l' else y :: remove_first x l'
  end.

(** The tuple of line 69: the properties bound to the restart trigger. *)
Definition restart_props : list string :=
  ["option_data"; "option_cls"; "auto_select"; "dropdown_cls"; "sync_height"].

(** ** Collaborators *)

(** [cls()] for a dropdown class: a new [DropDown] with an empty container. *)
Definition new_dropdown (c : class_id) : M nat :=
  d ← fresh;
  modify (λ s, set_dropdowns
    (<[d := {| dd_class := c; dd_children := []; dd_spacing := [];
               dd_padding := []; dd_on_select := 0; dd_attached := false |}]>
       (dropdowns s)) s);;
  log (ENewDropdown d);;
  mret d.

(** [option_cls()]: a new option widget, without a parent. *)
Definition new_widget (c : class_id) : M nat :=
  w ← fresh;
  modify (λ s, set_widgets
    (<[w := {| w_class := c; w_attrs := ∅; w_on_release := [];
               w_parent := None |}]> (widgets s)) s);;
  log (ENewWidget w);;
  mret w.

(** [w.bind(on_release=on_release)] with
    [on_release = partial(self._on_release_item, dd)]. *)
Definition bind_release (w d : nat) : M unit :=
  modify (upd_widget w (λ W, set_w_on_release (w_on_release W ++ [d]) W));;
  log (EBindRelease w d).

(** [dd.add_widget(w)]: [DropDown.add_widget] hands the widget to its
    container, whose [Widget.add_widget] (default [index=0]) refuses a widget
    that has a parent and otherwise sets [w.parent] and puts [w] at the
    front of [children].  The children are therefore kept newest first,
    which is why line 156 reverses them to get the widgets back in the order
    of the descriptors. *)
Definition add_widget (d w : nat) : M unit :=
  s ← get;
  match widgets s !! w with
  | None => raise (ReferenceError w)
  | Some W =>
      match w_parent W with
      | Some _ => raise (WidgetException w)
      | None =>
          modify (upd_widget w (set_w_parent (Some d)));;
          modify (upd_dropdown d (λ D, set_dd_children (w :: dd_children D) D));;
          log (EAddWidget d w)
      end
  end.

(** [dd.clear_widgets()]: every child loses its parent, [children] becomes
    empty. *)
Definition clear_widgets (d : nat) (s : world) : world :=
  let s1 := foldr (λ w, upd_widget w (set_w_parent None)) s (children_of d s) in
  set_trace (trace s1 ++ [EClearWidgets d]) (upd_dropdown d (set_dd_children []) s1).

(** [dd._real_dismiss()]: detach the dropdown. *)
Definition real_dismiss (d : nat) (s : world) : world :=
  set_trace (trace s ++ [ERealDismiss d]) (upd_dropdown d (set_dd_attached false) s).

(** [dd.open(self)] *)
Definition dd_open (d : nat) (s : world) : world :=
  set_trace (trace s ++ [EOpen d]) (upd_dropdown d (set_dd_attached true) s).

(** [_sync_height(container, spinner, height)], lines 160-163. *)
Definition _sync_height (d : nat) (h : Z) (s : world) : world :=
  set_trace (trace s ++ [ESyncHeight d h])
    (foldr (λ c, upd_widget c (λ W, set_w_attrs (<["height" := VNum h]> (w_attrs W)) W))
       s (children_of d s)).

Section Spinner.

(** [Factory.get]: the class registered under a name, if any. *)
Variable Factory_get : string → option class_id.

(** Whether [setattr(w, name, value)] is accepted by a widget of the given
    class; it raises otherwise. *)
Variable setattr_ok : class_id → string → value → bool.

(** Lines 82-85 and 100-103: [Ok None] is the early [return]. *)
Definition resolve (r : cls_ref) : result (option class_id) :=
  if falsy r then Ok None
  else match r with
       | CClass c => Ok (Some c)
       | CName n =>
           match Factory_get n with
           | Some c => Ok (Some c)
           | None => Raise (FactoryException n)
           end
       end.

(** Lines 87-94: a new dropdown, its container configured and the two
    forwarding setters bound on the control. *)
Definition build_dropdown (c : class_id) : M nat :=
  d ← new_dropdown c;
  s ← get;
  modify (upd_dropdown d (set_dd_spacing (option_spacing (cfg s))));;
  modify (upd_dropdown d (set_dd_padding (option_padding (cfg s))));;
  modify (λ s, set_bound_padding (bound_padding s ++ [d])
              (set_bound_spacing (bound_spacing s ++ [d]) s));;
  log (EBindForward d);;
  mret d.

(** Lines 80-96.  [None]: [dropdown_cls] is false, [_main] returns. *)
Definition prepare_dropdown : M (option nat) :=
  s ← get;
  oc ← lift (resolve (dropdown_cls (cfg s)));
  match oc with
  | None => mret None
  | Some c =>
      match res_dropdown s with
      | None => d ← build_dropdown c; mret (Some d)
      | Some d =>
          match dropdowns s !! d with
          | None => raise (ReferenceError d)
          | Some D =>
              if bool_decide (dd_class D = c) then mret (Some d)
              else d' ← build_dropdown c; mret (Some d')
          end
      end
  end.

(** Lines 106-112: the pooled widgets that [itertools.chain] puts in front of
    the factory; the empty list when only the factory is used. *)
Definition widget_source (c : class_id) : M (list nat) :=
  s ← get;
  match res_option_widgets s with
  | Some (w0 :: ws) =>
      match widgets s !! w0 with
      | None => raise (ReferenceError w0)
      | Some W => if bool_decide (w_class W = c) then mret (w0 :: ws) else mret []
      end
  | _ => mret []
  end.

(** [next(option_widgets)]: the next pooled widget, or [option_cls()] once the
    pooled ones are used up.  Returns the widget and what is left of the
    pooled ones. *)
Definition next_widget (c : class_id) (src : list nat) : M (nat * list nat) :=
  match src with
  | w :: src' => mret (w, src')
  | [] => w ← new_widget c; mret (w, [])
  end.

(** [setattr_(w, name, value)] *)
Definition setattr_ (w : nat) (name : string) (v : value) : M unit :=
  s ← get;
  match widgets s !! w with
  | None => raise (ReferenceError w)
  | Some W =>
      if setattr_ok (w_class W) name v then
        modify (upd_widget w (λ W, set_w_attrs (<[name := v]> (w_attrs W)) W));;
        log (ESetattr w name v)
      else raise (AttributeError w name)
  end.

(** Lines 118-119 *)
Fixpoint apply_props (w : nat) (props : descriptor) : M unit :=
  match props with
  | [] => mret tt
  | (name, v) :: props' => setattr_ w name v;; apply_props w props'
  end.

(** Lines 117-121.  [zip] asks [option_widgets] for its next element before it
    asks [option_data], so one more widget is taken (and built, when it comes
    from the factory) after the last descriptor.  The result lists the
    widgets [w] the loop body ran on, in order. *)
Fixpoint populate (c : class_id) (d : nat) (src : list nat) (data : list descriptor)
  : M (list nat) :=
  match data with
  | [] => next_widget c src;; mret []
  | props :: data' =>
      '(w, src') ← next_widget c src;
      apply_props w props;;
      bind_release w d;;
      add_widget d w;;
      ws ← populate c d src' data';
      mret (w :: ws)
  end.

(** Lines 124-129.  The result is the local [_sync_height]. *)
Definition setup_sync_height (d : nat) : M (option handler) :=
  s ← get;
  if sync_height (cfg s) then
    i ← fresh;
    let h := {| h_id := i; h_dd := d |} in
    modify (_sync_height d (height (cfg s)));;
    modify (λ s, set_bound_height (bound_height s ++ [h]) s);;
    log (EBindHeight h);;
    mret (Some h)
  else mret None.

(** Lines 132-140 *)
Definition select_policy (d : nat) : M unit :=
  s ← get;
  let auto := auto_select (cfg s) in
  let cs := children_of d s in
  if match selection s with
     | Some w => bool_decide (w ∈ cs)
     | None => false
     end
  then mret tt
  else match auto with
       | None => modify (set_selection None)
       | Some a =>
           if (Z.of_nat (length cs) <=? a)%Z then modify (set_selection None)
           else match py_index cs (- (a + 1)) with
                | Some w => modify (set_selection (Some w))
                | None => raise IndexError
                end
       end.

(** What [_main] holds when it reaches [try]: [dd], [_sync_height] and, for
    reference, the widgets populated by this run in descriptor order. *)
Record frame := { f_dd : nat; f_sync_height : option handler; f_widgets : list nat }.

(** Lines 77-140: everything before [try].  [None] is an early [return]. *)
Definition main_setup : M (option frame) :=
  od ← prepare_dropdown;
  match od with
  | None => mret None
  | Some d =>
      s ← get;
      oc ← lift (resolve (option_cls (cfg s)));
      match oc with
      | None => mret None
      | Some c =>
          src ← widget_source c;
          s ← get;
          ws ← populate c d src (option_data (cfg s));
          sh ← setup_sync_height d;
          select_policy d;;
          mret (Some {| f_dd := d; f_sync_height := sh; f_widgets := ws |})
      end
  end.

(** Lines 152-158: the [finally] block. *)
Definition cleanup (d : nat) (sh : option handler) (s : world) : world :=
  let s1 := set_trace (trace s ++ [EUnbindSelect d])
              (upd_dropdown d (λ D, set_dd_on_select (pred (dd_on_select D)) D) s) in
  let s2 := match sh with
            | Some h => set_trace (trace s1 ++ [EUnbindHeight h])
                          (set_bound_height (remove_first h (bound_height s1)) s1)
            | None => s1
            end in
  let pool := rev (children_of d s2) in
  let s3 := set_trace (trace s2 ++ [EStorePool d pool])
              (set_res_option_widgets (Some pool) (set_res_dropdown (Some d) s2)) in
  real_dismiss d (clear_widgets d s3).

(** [Task.cancel()]: a task parked on an [await] is closed on the spot, which
    runs its [finally] block before [cancel] returns; a task that is not
    running any more (or [dummy_task]) is left alone. *)
Definition cancel (s : world) : world :=
  let s0 := set_trace (trace s ++ [ECancel]) s in
  match main_task s with
  | TAwaitRelease d sh | TAwaitDismiss d sh => set_main_task TFinished (cleanup d sh s0)
  | TDummy | TFinished => s0
  end.

(** [ak.start(self._main())]: runs [_main] up to its first [await] (line 148),
    or to its end.  An exception raised on the way comes out of [start]. *)
Definition start_main : M task :=
  log EStart;;
  r ← main_setup;
  match r with
  | None => mret TFinished
  | Some f =>
      modify (upd_dropdown (f_dd f) (λ D, set_dd_on_select (S (dd_on_select D)) D));;
      log (EBindSelect (f_dd f));;
      mret (TAwaitRelease (f_dd f) (f_sync_height f))
  end.

(** Lines 72-74.  When [start] raises, the assignment does not happen and
    [_main_task] keeps naming the cancelled task. *)
Definition _restart : M unit :=
  modify cancel;;
  t ← start_main;
  modify (set_main_task t).

End Spinner.

(** ** The host side: property changes, the Clock and the events *)

(** A change of one of the control's properties.  Kivy calls the observers of
    a property when its value changes; a mutation here is such a change. *)
Inductive mutation :=
| SetOptionData (v : list descriptor)
| SetOptionCls (v : cls_ref)
| SetAutoSelect (v : option Z)
| SetDropdownCls (v : cls_ref)
| SetSyncHeight (v : bool)
| SetOptionSpacing (v : list Z)
| SetOptionPadding (v : list Z)
| SetHeight (v : Z).

Definition prop_name (m : mutation) : string :=
  match m with
  | SetOptionData _ => "option_data"
  | SetOptionCls _ => "option_cls"
  | SetAutoSelect _ => "auto_select"
  | SetDropdownCls _ => "dropdown_cls"
  | SetSyncHeight _ => "sync_height"
  | SetOptionSpacing _ => "option_spacing"
  | SetOptionPadding _ => "option_padding"
  | SetHeight _ => "height"
  end.

(** Lines 69-70: whether the trigger is bound to the property. *)
Definition observed (m : mutation) : bool :=
  bool_decide (prop_name m ∈ restart_props).

(** The new value is stored in the property. *)
Definition store (m : mutation) (c : config) : config :=
  match m with
  | SetOptionData v => set_option_data v c
  | SetOptionCls v => set_option_cls v c
  | SetAutoSelect v => set_auto_select v c
  | SetDropdownCls v => set_dropdown_cls v c
  | SetSyncHeight v => set_sync_height v c
  | SetOptionSpacing v => set_option_spacing v c
  | SetOptionPadding v => set_option_padding v c
  | SetHeight v => set_height v c
  end.

(** Calling the object made by [Clock.create_trigger]: the callback is
    scheduled for the next frame unless it already is. *)
Definition trigger (s : world) : world := set_triggered true s.

(** The callbacks bound to the property, other than the trigger: the
    container setters of lines 91-94 and the partials of line 127. *)
Definition forward (m : mutation) (s : world) : world :=
  match m with
  | SetOptionSpacing v =>
      foldr (λ d, upd_dropdown d (set_dd_spacing v)) s (bound_spacing s)
  | SetOptionPadding v =>
      foldr (λ d, upd_dropdown d (set_dd_padding v)) s (bound_padding s)
  | SetHeight v =>
      foldl (λ s h, _sync_height (h_dd h) v s) s (bound_height s)
  | _ => s
  end.

(** Setting a property to a new value: store it, then run its observers. *)
Definition mutate (m : mutation) (s : world) : world :=
  let s1 := set_cfg (store m (cfg s)) s in
  let s2 := if observed m then trigger s1 else s1 in
  forward m s2.

Section Host.

Variable Factory_get : string → option class_id.
Variable setattr_ok : class_id → string → value → bool.

(** One Clock frame: a scheduled trigger fires once, calling [_restart]. *)
Definition tick : M unit := λ s,
  if triggered s then _restart Factory_get setattr_ok (set_triggered false s)
  else (s, Ok tt).

End Host.

(** The control's [on_release]: the task parked on line 148 goes on to
    [dd_open(self)] and parks on line 150. *)
Definition released (s : world) : world :=
  match main_task s with
  | TAwaitRelease d sh => set_main_task (TAwaitDismiss d sh) (dd_open d s)
  | _ => s
  end.

(** The [on_dismiss] of dropdown [d]: the task parked on it on line 150 goes
    round the loop and parks on line 148. *)
Definition dismissed (d : nat) (s : world) : world :=
  match main_task s with
  | TAwaitDismiss d' sh =>
      if bool_decide (d = d') then set_main_task (TAwaitRelease d' sh) s else s
  | _ => s
  end.

(** The [on_release] of option widget [w]: each bound
    [_on_release_item(dd, w)] calls [dd.select(w)], which runs
    [_on_dropdown_select] once per binding on [dd] (lines 165-171).  The
    [dismiss()] it ends with is what later makes the dropdown fire
    [on_dismiss]. *)
Definition option_released (w : nat) (s : world) : world :=
  match widgets s !! w with
  | None => s
  | Some W =>
      foldl (λ s d,
               match dropdowns s !! d with
               | Some D => if dd_on_select D is O then s else set_selection (Some w) s
               | None => s
               end) s (w_on_release W)
  end.

(** [__init__] (lines 63-70) on a control configured by [c]: the properties
    are set before the trigger is bound, so nothing is scheduled yet. *)
Definition init (c : config) : world :=
  {| cfg := c; selection := None; bound_spacing := []; bound_padding := [];
     bound_height := []; main_task := TDummy; res_dropdown := None;
     res_option_widgets := None; triggered := false; widgets := ∅;
     dropdowns := ∅; next_id := 0; trace := [] |}.

(** The property defaults of lines 39-61. *)
Definition default_config : config :=
  {| option_data := []; option_spacing := [0; 0]%Z; option_padding := [0; 0; 0; 0]%Z;
     option_cls := CClass "SpinnerOption"; auto_select := None;
     dropdown_cls := CClass "DropDown"; sync_height := false; height := 100%Z |}.


(** * Specification vocabulary *)

(** ** What a run of the monad may do to the world

    [preserves R m]: whatever [m] returns or raises, the world it leaves is
    related by [R] to the one it started from. *)

Definition preserves {A : Type} (R : relation world) (m : M A) : Prop :=
  ∀ s, R s (m s).1.

(** ** Updates of the store

    Updating widgets or dropdowns in place leaves the control itself alone. *)

Record same_control (s s' : world) : Prop := {
  sc_cfg : cfg s' = cfg s;
  sc_selection : selection s' = selection s;
  sc_bound_spacing : bound_spacing s' = bound_spacing s;
  sc_bound_padding : bound_padding s' = bound_padding s;
  sc_bound_height : bound_height s' = bound_height s;
  sc_main_task : main_task s' = main_task s;
  sc_res_dropdown : res_dropdown s' = res_dropdown s;
  sc_res_option_widgets : res_option_widgets s' = res_option_widgets s;
  sc_triggered : triggered s' = triggered s;
  sc_next_id : next_id s' = next_id s;
  sc_trace : trace s' = trace s;
}.

(** ** The frame of the setup

    The events of lines 77-140 and what those lines leave alone. *)

Definition is_setup_event (e : event) : bool :=
  match e with
  | ENewDropdown _ | EBindForward _ | ENewWidget _ | ESetattr _ _ _
  | EBindRelease _ _ | EAddWidget _ _ | ESyncHeight _ _ | EBindHeight _ => true
  | _ => false
  end.

Definition extends_trace (P : event → bool) (s s' : world) : Prop :=
  ∃ l, trace s' = trace s ++ l ∧ Forall (λ e, P e = true) l.

Record setup_frame (s s' : world) : Prop := {
  sf_cfg : cfg s' = cfg s;
  sf_task : main_task s' = main_task s;
  sf_res_dropdown : res_dropdown s' = res_dropdown s;
  sf_res_option_widgets : res_option_widgets s' = res_option_widgets s;
  sf_triggered : triggered s' = triggered s;
  sf_next_id : next_id s ≤ next_id s';
  sf_trace : extends_trace is_setup_event s s';
}.


(** ** Runs and their events *)

(** The events of the [finally] block, lines 152-158. *)
Definition is_cleanup_event (e : event) : bool :=
  match e with
  | EUnbindSelect _ | EUnbindHeight _ | EStorePool _ _ | EClearWidgets _
  | ERealDismiss _ => true
  | _ => false
  end.

(** The events of a run before its first [await]: the setup and line 144. *)
Definition is_run_event (e : event) : bool :=
  is_setup_event e || match e with EBindSelect _ => true | _ => false end.

(** What the [finally] block of a run on [d] does, [cs] being the children of
    the dropdown when it starts. *)
Definition cleanup_events (d : nat) (sh : option handler) (cs : list nat) : list event :=
  EUnbindSelect d
    :: match sh with Some h => [EUnbindHeight h] | None => [] end
    ++ [EStorePool d (rev cs); EClearWidgets d; ERealDismiss d].

Definition is_start (e : event) : bool :=
  match e with EStart => true | _ => false end.

(** How many times [_main] was started. *)
Definition starts (l : list event) : nat :=
  length (filter (λ e, is_start e = true) l).

Definition is_open (e : event) : bool :=
  match e with EOpen _ => true | _ => false end.

(** How many times the dropdown was opened. *)
Definition opens (l : list event) : nat :=
  length (filter (λ e, is_open e = true) l).

(** The task is parked in the loop of lines 147-150. *)
Definition live_on (s : world) (d : nat) (sh : option handler) : Prop :=
  main_task s = TAwaitRelease d sh ∨ main_task s = TAwaitDismiss d sh.

(** Several property changes in a row, within one frame. *)
Definition batch (ms : list mutation) (s : world) : world :=
  foldl (λ s m, mutate m s) s ms.

(** One activation followed by the dismissal of dropdown [d]. *)
Definition cycle (d : nat) (s : world) : world := dismissed d (released s).

(** The cleanup block, field by field. *)
Record cleaned (d : nat) (sh : option handler) (s s' : world) : Prop := {
  cl_trace : trace s' = trace s ++ cleanup_events d sh (children_of d s);
  cl_cfg : cfg s' = cfg s;
  cl_selection : selection s' = selection s;
  cl_bound_spacing : bound_spacing s' = bound_spacing s;
  cl_bound_padding : bound_padding s' = bound_padding s;
  cl_bound_height :
    bound_height s' = match sh with
                      | Some h => remove_first h (bound_height s)
                      | None => bound_height s
                      end;
  cl_main_task : main_task s' = main_task s;
  cl_triggered : triggered s' = triggered s;
  cl_next_id : next_id s' = next_id s;
  cl_res_dropdown : res_dropdown s' = Some d;
  cl_res_option_widgets : res_option_widgets s' = Some (rev (children_of d s));
  cl_children : children_of d s' = [];
}.

(** What [start] leaves alone, and what it logs. *)
Record started (s s' : world) : Prop := {
  st_cfg : cfg s' = cfg s;
  st_task : main_task s' = main_task s;
  st_res_dropdown : res_dropdown s' = res_dropdown s;
  st_res_option_widgets : res_option_widgets s' = res_option_widgets s;
  st_triggered : triggered s' = triggered s;
  st_trace : ∃ l, trace s' = trace s ++ EStart :: l
                  ∧ Forall (λ e, is_run_event e = true) l;
}.

(** ** Frames of the build phase

    [same_on f]: the part [f] of the world is the same before and after. *)
Definition same_on {A : Type} (f : world → A) : relation world :=
  λ s s', f s' = f s.

(** A relation that does not look at the store, the identity counter, the
    trace or the two lists of forwarding setters: what lines 80-121 change. *)
Class BuildFrame (R : relation world) : Prop := {
  bf_preorder :: PreOrder R;
  bf_trace : ∀ v s, R s (set_trace v s);
  bf_next_id : ∀ v s, R s (set_next_id v s);
  bf_widgets : ∀ v s, R s (set_widgets v s);
  bf_dropdowns : ∀ v s, R s (set_dropdowns v s);
  bf_bound_spacing : ∀ v s, R s (set_bound_spacing v s);
  bf_bound_padding : ∀ v s, R s (set_bound_padding v s);
}.

(** ** A small scenario

    A control with the default classes, three options and a registry that
    knows the two default class names. *)

Definition demo_factory (n : string) : option class_id :=
  if bool_decide (n = "DropDown") then Some "DropDown"
  else if bool_decide (n = "SpinnerOption") then Some "SpinnerOption"
  else None.

(** Every attribute may be set. *)
Definition accept_all (c : class_id) (name : string) (v : value) : bool := true.

(** Only [text] may be set. *)
Definition text_only (c : class_id) (name : string) (v : value) : bool :=
  bool_decide (name = "text").

Definition opt_A : descriptor := [("text", VStr "A")].
Definition opt_B : descriptor := [("text", VStr "B")].
Definition opt_C : descriptor := [("text", VStr "C")].

(** The control after its first run on [[A; B; C]] has started. *)
Definition demo_live : world :=
  (tick demo_factory accept_all
     (mutate (SetOptionData [opt_A; opt_B; opt_C]) (init default_config))).1.

(** The [text] of an option widget. *)
Definition text_of (s : world) (w : nat) : option value :=
  W ← widgets s !! w; w_attrs W !! "text".

(** The default control with options [[A; B; C]] and a given [auto_select]. *)
Definition demo_cfg (auto : option Z) : config :=
  set_auto_select auto (set_option_data [opt_A; opt_B; opt_C] default_config).

(** The setup of its first run. *)
Abbreviation demo_setup auto :=
  (main_setup demo_factory accept_all (init (demo_cfg auto))).

(** What that setup hands to the loop: dropdown 0, no height handler, and
    the widgets 1, 2, 3 made for A, B, C. *)
Definition demo_frame : frame :=
  {| f_dd := 0; f_sync_height := None; f_widgets := [1; 2; 3] |}.

(** A control whose [option_cls] is the empty string. *)
Definition no_option_cls : world :=
  init (set_option_cls (CName EmptyString) default_config).

(** A descriptor with a field that [text_only] refuses. *)
Definition opt_bogus : descriptor := [("text", VStr "B"); ("bogus", VNum 1)].

(** A control with options [[A; B]] whose widgets accept [text] only, after
    its first run has started. *)
Definition strict_live : world :=
  (tick demo_factory text_only
     (mutate (SetOptionData [opt_A; opt_B]) (init default_config))).1.

(** The frame after [option_data] became [[A; bogus]]: the restart raises. *)
Definition strict_aborted : world :=
  (tick demo_factory text_only
     (mutate (SetOptionData [opt_A; opt_bogus]) strict_live)).1.

(** The frame after [option_data] was put back to [[A; B]]. *)
Definition strict_retried : world :=
  (tick demo_factory text_only
     (mutate (SetOptionData [opt_A; opt_B]) strict_aborted)).1.

(** ** Bindings of a run *)

(** How many times [_on_dropdown_select] is bound on dropdown [d]. *)
Definition on_select_of (d : nat) (s : world) : nat :=
  match dropdowns s !! d with
  | Some D => dd_on_select D
  | None => 0
  end.

(** Identities are handed out in increasing order: what is in the store or
    among the height handlers is older than the next identity. *)
Definition wf_ids (s : world) : Prop :=
  (∀ d, is_Some (dropdowns s !! d) → d < next_id s)
  ∧ (∀ h, h ∈ bound_height s → h_id h < next_id s).

(** The world after [n] rounds of the loop on [d] and, when [opened], one
    more activation. *)
Definition parked_after (n : nat) (opened : bool) (d : nat) (s : world) : world :=
  let s' := Nat.iter n (cycle d) s in
  if opened then released s' else s'.

(** The loop touches neither the bindings nor the children. *)
Record same_bindings (s s' : world) : Prop := {
  sb_bound_spacing : bound_spacing s' = bound_spacing s;
  sb_bound_padding : bound_padding s' = bound_padding s;
  sb_bound_height : bound_height s' = bound_height s;
  sb_on_select : ∀ d, on_select_of d s' = on_select_of d s;
  sb_children : ∀ d, children_of d s' = children_of d s;
  sb_widgets : widgets s' = widgets s;
}.

(** ** Pooled widgets *)

(** [w.__class__] *)
Definition class_of (s : world) (w : nat) : option class_id :=
  w_class <$> widgets s !! w.

(** A widget that can be added to a dropdown: it exists, is of class [c] and
    has no parent. *)
Definition addable (c : class_id) (s : world) (w : nat) : Prop :=
  ∃ W, widgets s !! w = Some W ∧ w_class W = c ∧ w_parent W = None.

(** Once of class [c], always of class [c]. *)
Definition keeps_class (c : class_id) : relation world :=
  λ s s', ∀ w, class_of s w = Some c → class_of s' w = Some c.

(** [setattr] accepts every field of every descriptor on a widget of class
    [c]. *)
Definition accepted (setattr_ok : class_id → string → value → bool)
    (c : class_id) (data : list descriptor) : Prop :=
  ∀ props name v, props ∈ data → (name, v) ∈ props → setattr_ok c name v = true.

(** The scenario after [option_cls] became another class, [Other]. *)
Definition demo_other_cls : world :=
  mutate (SetOptionCls (CClass "Other")) demo_live.

(** The strict scenario after the aborted setup, once [option_cls] is
    [Other] and the descriptors are [[A; B]] again, and one frame later. *)
Definition strict_other : world :=
  (tick demo_factory text_only
     (mutate (SetOptionCls (CClass "Other"))
        (mutate (SetOptionData [opt_A; opt_B]) strict_aborted))).1.

(** ** The life of a control *)

(** What can happen to a control: one of its properties gets a new value, a
    Clock frame passes, the control is released, a dropdown is dismissed, an
    option widget is released. *)
Inductive host_event :=
| HMutate (m : mutation)
| HTick
| HRelease
| HDismiss (d : nat)
| HOptionRelease (w : nat).

Section HostRun.

Variable Factory_get : string → option class_id.
Variable setattr_ok : class_id → string → value → bool.

(** An exception that comes out of [_restart] goes to the caller of the
    Clock callback; the control is left as the frame left it. *)
Definition host_step (e : host_event) (s : world) : world :=
  match e with
  | HMutate m => mutate m s
  | HTick => (tick Factory_get setattr_ok s).1
  | HRelease => released s
  | HDismiss d => dismissed d s
  | HOptionRelease w => option_released w s
  end.

Definition host_run (evs : list host_event) (s : world) : world :=
  foldl (λ s e, host_step e s) s evs.

End HostRun.

(** An event that does not call the restart trigger. *)
Definition quiet (e : host_event) : bool :=
  match e with
  | HMutate m => negb (observed m)
  | _ => true
  end.

(** [w.height] and the like. *)
Definition attr_of (name : string) (s : world) (w : nat) : option value :=
  W ← widgets s !! w; w_attrs W !! name.

(** The callbacks bound to the [on_release] of an option widget. *)
Definition on_release_of (s : world) (w : nat) : list nat :=
  match widgets s !! w with
  | Some W => w_on_release W
  | None => []
  end.

(** The widgets a change of [height] reaches: the children of the containers
    that the bound partials close over. *)
Definition height_synced (s : world) (w : nat) : Prop :=
  Exists (λ h, w ∈ children_of (h_dd h) s) (bound_height s).

(** Identities are handed out in increasing order, for the widgets too. *)
Definition wf_store (s : world) : Prop :=
  wf_ids s ∧ ∀ w, is_Some (widgets s !! w) → w < next_id s.

(** The dropdown of the run that is parked in the loop, if one is. *)
Definition parked_dropdown (s : world) : option nat :=
  match main_task s with
  | TAwaitRelease d _ | TAwaitDismiss d _ => Some d
  | TDummy | TFinished => None
  end.

(** [_on_dropdown_select] is bound once on the dropdown of the parked run
    and on no other dropdown. *)
Definition select_bound_on_parked (s : world) : Prop :=
  ∀ d, on_select_of d s = if bool_decide (parked_dropdown s = Some d) then 1 else 0.

(** Every dropdown that was built has its two container setters bound, and
    its container has the spacing and the padding of the control. *)
Definition forwarding_ok (s : world) : Prop :=
  ∀ d D, dropdowns s !! d = Some D →
         d ∈ bound_spacing s ∧ d ∈ bound_padding s
         ∧ dd_spacing D = option_spacing (cfg s)
         ∧ dd_padding D = option_padding (cfg s).

Definition good (s : world) : Prop := wf_store s ∧ forwarding_ok s.

(** A step that keeps a good world good and binds or releases no
    [on_select] callback. *)
Definition stable (s s' : world) : Prop :=
  good s → good s' ∧ ∀ d, on_select_of d s' = on_select_of d s.

(** The scenario with [sync_height] set, after its first run has started. *)
Definition sync_live : world :=
  (tick demo_factory accept_all
     (mutate (SetSyncHeight true)
        (mutate (SetOptionData [opt_A; opt_B; opt_C]) (init default_config)))).1.

(** The scenario after its run was cancelled and [dropdown_cls] became
    another class. *)
Definition demo_other_dropdown : world :=
  mutate (SetDropdownCls (CClass "OtherDropDown")) (cancel demo_live).

(** What holds of a control at any time. *)
Definition inv (s : world) : Prop := good s ∧ select_bound_on_parked s.

(** [w.parent] *)
Definition parent_of (s : world) (w : nat) : option nat :=
  W ← widgets s !! w; w_parent W.

(** [m] never raises [e]. *)
Definition never_raises {A : Type} (e : exn) (m : M A) : Prop :=
  ∀ s, (m s).2 ≠ Raise e.

(** * Properties *)

(** ** Running monadic code *)

Lemma bind_run {A B : Type} (m : M A) (f : A → M B) s :
  (m ≫= f) s = match m s with
               | (s1, Ok a) => f a s1
               | (s1, Raise e) => (s1, Raise e)
               end.
Proof. reflexivity. Qed.

Lemma bind_ok {A B : Type} (m : M A) (f : A → M B) s s1 a :
  m s = (s1, Ok a) → (m ≫= f) s = f a s1.
Proof. intros H. rewrite bind_run, H. reflexivity. Qed.

Lemma bind_ok_inv {A B : Type} (m : M A) (f : A → M B) s s' b :
  (m ≫= f) s = (s', Ok b) → ∃ s1 a, m s = (s1, Ok a) ∧ f a s1 = (s', Ok b).
Proof.
  rewrite bind_run. destruct (m s) as [s1 [a|e]]; intros H.
  - eauto.
  - discriminate.
Qed.

(** ** What a run of the monad may do to the world *)

Section Preserves.
Context (R : relation world) `{!PreOrder R}.

Lemma preserves_ret {A : Type} (a : A) : preserves R (mret a).
Proof. intros s. simpl. reflexivity. Qed.

Lemma preserves_raise {A : Type} (e : exn) : preserves R (raise e : M A).
Proof. intros s. simpl. reflexivity. Qed.

Lemma preserves_lift {A : Type} (r : result A) : preserves R (lift r).
Proof. intros s. simpl. reflexivity. Qed.

Lemma preserves_get : preserves R get.
Proof. intros s. simpl. reflexivity. Qed.

Lemma preserves_modify (f : world → world) :
  (∀ s, R s (f s)) → preserves R (modify f).
Proof. intros H s. apply H. Qed.

Lemma preserves_bind {A B : Type} (m : M A) (f : A → M B) :
  preserves R m → (∀ a, preserves R (f a)) → preserves R (m ≫= f).
Proof.
  intros Hm Hf s. rewrite bind_run. specialize (Hm s).
  destruct (m s) as [s1 [a|e]]; simpl in *.
  - etrans; [exact Hm | apply Hf].
  - exact Hm.
Qed.

End Preserves.

(** ** Updates of the store *)

#[global] Instance same_control_preorder : PreOrder same_control.
Proof.
  split.
  - intros s. by split.
  - intros s1 s2 s3 [] []. split; congruence.
Qed.

Lemma upd_widget_same_control w f s : same_control s (upd_widget w f s).
Proof. by split. Qed.

Lemma upd_dropdown_same_control d f s : same_control s (upd_dropdown d f s).
Proof. by split. Qed.

Lemma foldr_same_control {A : Type} (g : A → world → world) (l : list A) s :
  (∀ a s, same_control s (g a s)) → same_control s (foldr g s l).
Proof.
  intros Hg. induction l as [|a l IH]; simpl.
  - reflexivity.
  - etrans; [exact IH | apply Hg].
Qed.

Lemma foldr_upd_widget_same_control (f : nat → option_widget → option_widget) l s :
  same_control s (foldr (λ w, upd_widget w (f w)) s l).
Proof. apply foldr_same_control. intros. apply upd_widget_same_control. Qed.

Lemma foldr_upd_widget_dropdowns (f : nat → option_widget → option_widget) l s :
  dropdowns (foldr (λ w, upd_widget w (f w)) s l) = dropdowns s.
Proof. induction l as [|a l IH]; simpl; [done | exact IH]. Qed.

Ltac preserves_step :=
  lazymatch goal with
  | |- preserves _ (mret _) => apply preserves_ret; try apply _
  | |- preserves _ (raise _) => apply preserves_raise; try apply _
  | |- preserves _ (lift _) => apply preserves_lift; try apply _
  | |- preserves _ get => apply preserves_get; try apply _
  | |- preserves _ (modify _) => apply preserves_modify; intros ?
  | |- preserves _ (_ ≫= _) => apply preserves_bind; [try apply _ | | intros ?]
  | |- preserves _ (match ?x with _ => _ end) => destruct x
  end.

(** ** The frame of the setup *)

#[global] Instance extends_trace_preorder P : PreOrder (extends_trace P).
Proof.
  split.
  - intros s. exists []. split; [by rewrite app_nil_r | constructor].
  - intros s1 s2 s3 (l1 & H1 & F1) (l2 & H2 & F2). exists (l1 ++ l2). split.
    + by rewrite H2, H1, app_assoc.
    + by apply Forall_app.
Qed.

#[global] Instance setup_frame_preorder : PreOrder setup_frame.
Proof.
  split.
  - intros s. split; try reflexivity.
  - intros s1 s2 s3 [] []. split; try congruence; try lia.
    by etrans.
Qed.

Lemma extends_trace_same P s s' : trace s' = trace s → extends_trace P s s'.
Proof. intros H. exists []. split; [by rewrite app_nil_r | constructor]. Qed.

Lemma extends_trace_one P s s' e :
  trace s' = trace s ++ [e] → P e = true → extends_trace P s s'.
Proof. intros H He. exists [e]. split; [done | by constructor]. Qed.

Ltac frame_modify :=
  split; simpl; try reflexivity; try lia;
  first [ by apply extends_trace_same
        | by eapply extends_trace_one ].

Ltac frame_auto lemmas :=
  repeat first [ preserves_step | frame_modify | lemmas ].

Lemma log_frame e : is_setup_event e = true → preserves setup_frame (log e).
Proof. intros He. unfold log. preserves_step. frame_modify. Qed.

Lemma fresh_frame : preserves setup_frame fresh.
Proof. intros s. simpl. frame_modify. Qed.

Lemma new_dropdown_frame c : preserves setup_frame (new_dropdown c).
Proof.
  unfold new_dropdown.
  frame_auto ltac:(first [apply fresh_frame | by apply log_frame]).
Qed.

Lemma new_widget_frame c : preserves setup_frame (new_widget c).
Proof.
  unfold new_widget.
  frame_auto ltac:(first [apply fresh_frame | by apply log_frame]).
Qed.

Lemma bind_release_frame w d : preserves setup_frame (bind_release w d).
Proof. unfold bind_release. frame_auto ltac:(by apply log_frame). Qed.

Lemma add_widget_frame d w : preserves setup_frame (add_widget d w).
Proof. unfold add_widget. frame_auto ltac:(by apply log_frame). Qed.

Section SetupFrame.
Variable Factory_get : string → option class_id.
Variable setattr_ok : class_id → string → value → bool.

Lemma build_dropdown_frame c : preserves setup_frame (build_dropdown c).
Proof.
  unfold build_dropdown.
  frame_auto ltac:(first [apply new_dropdown_frame | by apply log_frame]).
Qed.

Lemma prepare_dropdown_frame : preserves setup_frame (prepare_dropdown Factory_get).
Proof.
  unfold prepare_dropdown.
  frame_auto ltac:(apply build_dropdown_frame).
Qed.

Lemma widget_source_frame c : preserves setup_frame (widget_source c).
Proof. unfold widget_source. frame_auto fail. Qed.

Lemma next_widget_frame c src : preserves setup_frame (next_widget c src).
Proof. unfold next_widget. frame_auto ltac:(apply new_widget_frame). Qed.

Lemma setattr_frame w name v : preserves setup_frame (setattr_ setattr_ok w name v).
Proof. unfold setattr_. frame_auto ltac:(by apply log_frame). Qed.

Lemma apply_props_frame w props : preserves setup_frame (apply_props setattr_ok w props).
Proof.
  induction props as [|[name v] props IH]; simpl.
  - frame_auto fail.
  - frame_auto ltac:(first [apply setattr_frame | apply IH]).
Qed.

Lemma populate_frame c d src data :
  preserves setup_frame (populate setattr_ok c d src data).
Proof.
  revert src. induction data as [|props data IH]; intros src; simpl.
  - frame_auto ltac:(apply next_widget_frame).
  - frame_auto ltac:(first [ apply next_widget_frame | apply apply_props_frame
                           | apply bind_release_frame | apply add_widget_frame
                           | apply IH ]).
Qed.

Lemma sync_height_frame d h s : setup_frame s (_sync_height d h s).
Proof.
  unfold _sync_height.
  destruct (foldr_upd_widget_same_control
              (λ _ W, set_w_attrs (<["height" := VNum h]> (w_attrs W)) W)
              (children_of d s) s).
  split; simpl; try congruence; try lia.
  eapply extends_trace_one; [by f_equal | done].
Qed.

Lemma setup_sync_height_frame d : preserves setup_frame (setup_sync_height d).
Proof.
  unfold setup_sync_height.
  frame_auto ltac:(first [ apply fresh_frame | apply sync_height_frame
                         | by apply log_frame ]).
Qed.

Lemma select_policy_frame d : preserves setup_frame (select_policy d).
Proof. unfold select_policy. frame_auto fail. Qed.

Lemma main_setup_frame : preserves setup_frame (main_setup Factory_get setattr_ok).
Proof.
  unfold main_setup.
  frame_auto ltac:(first [ apply prepare_dropdown_frame | apply widget_source_frame
                         | apply populate_frame | apply setup_sync_height_frame
                         | apply select_policy_frame ]).
Qed.

End SetupFrame.

(** ** The cleanup block and cancellation *)

Lemma foldr_rel {A : Type} (R : relation world) `{!PreOrder R}
    (g : A → world → world) (l : list A) s :
  (∀ a s, R s (g a s)) → R s (foldr g s l).
Proof.
  intros Hg. induction l as [|a l IH]; simpl.
  - reflexivity.
  - etrans; [exact IH | apply Hg].
Qed.

Lemma children_of_upd_dropdown d d' f s :
  (∀ D, dd_children (f D) = dd_children D) →
  children_of d (upd_dropdown d' f s) = children_of d s.
Proof.
  intros Hf. unfold children_of, upd_dropdown. simpl.
  rewrite lookup_alter. case_decide as Hd; [|done].
  subst d'. destruct (dropdowns s !! d); simpl; [apply Hf | done].
Qed.

Lemma children_of_dropdowns d s s' :
  dropdowns s' = dropdowns s → children_of d s' = children_of d s.
Proof. unfold children_of. by intros ->. Qed.

Lemma clear_widgets_same_control d s :
  same_control (set_trace (trace s ++ [EClearWidgets d]) s) (clear_widgets d s).
Proof.
  unfold clear_widgets.
  destruct (foldr_upd_widget_same_control (λ _, set_w_parent None) (children_of d s) s).
  split; simpl; congruence.
Qed.

Lemma clear_widgets_children d s : children_of d (clear_widgets d s) = [].
Proof.
  unfold clear_widgets, children_of, upd_dropdown. simpl.
  rewrite lookup_alter. rewrite decide_True by done.
  by destruct (dropdowns _ !! d).
Qed.

Lemma cleanup_cleaned d sh s : cleaned d sh s (cleanup d sh s).
Proof.
  unfold cleanup, real_dismiss.
  set (s1 := set_trace _ (upd_dropdown d _ s)).
  set (s2 := match sh with Some h => _ | None => s1 end).
  set (s3 := set_trace _ (set_res_option_widgets _ _)).
  assert (Hcs : children_of d s2 = children_of d s).
  { transitivity (children_of d s1).
    - subst s2. by destruct sh.
    - subst s1. unfold children_of. simpl. rewrite lookup_alter.
      rewrite decide_True by done. by destruct (dropdowns s !! d). }
  assert (Ht2 : trace s2 = trace s ++ EUnbindSelect d
                  :: match sh with Some h => [EUnbindHeight h] | None => [] end).
  { subst s2 s1. destruct sh; simpl; [|done]. by rewrite <- app_assoc. }
  destruct (clear_widgets_same_control d s3).
  pose proof (clear_widgets_children d s3) as Hcl.
  set (s4 := clear_widgets d s3) in *. clearbody s4.
  split; simpl.
  - rewrite sc_trace0. subst s3. simpl. rewrite Hcs, Ht2. unfold cleanup_events.
    rewrite <- !app_assoc. simpl. by destruct sh.
  - rewrite sc_cfg0. subst s3 s2 s1. by destruct sh.
  - rewrite sc_selection0. subst s3 s2 s1. by destruct sh.
  - rewrite sc_bound_spacing0. subst s3 s2 s1. by destruct sh.
  - rewrite sc_bound_padding0. subst s3 s2 s1. by destruct sh.
  - rewrite sc_bound_height0. subst s3 s2 s1. by destruct sh.
  - rewrite sc_main_task0. subst s3 s2 s1. by destruct sh.
  - rewrite sc_triggered0. subst s3 s2 s1. by destruct sh.
  - rewrite sc_next_id0. subst s3 s2 s1. by destruct sh.
  - rewrite sc_res_dropdown0. by subst s3.
  - rewrite sc_res_option_widgets0. subst s3. simpl. by rewrite Hcs.
  - rewrite <- Hcl. apply (children_of_upd_dropdown d d (set_dd_attached false) s4). done.
Qed.

(** [cancel] on a parked task: the cleanup block has run when it returns. *)
Lemma cancel_live s d sh :
  live_on s d sh →
  cancel s = set_main_task TFinished
               (cleanup d sh (set_trace (trace s ++ [ECancel]) s)).
Proof. unfold cancel. by intros [-> | ->]. Qed.


(** ** Starting and restarting *)

Lemma is_setup_is_run e : is_setup_event e = true → is_run_event e = true.
Proof. unfold is_run_event. by intros ->. Qed.

Lemma is_run_not_cleanup e : is_run_event e = true → is_cleanup_event e = false.
Proof. by destruct e. Qed.

Lemma is_run_not_start e : is_run_event e = true → is_start e = false.
Proof. by destruct e. Qed.

Lemma starts_app l1 l2 : starts (l1 ++ l2) = starts l1 + starts l2.
Proof. unfold starts. by rewrite filter_app, length_app. Qed.

Lemma starts_none l : Forall (λ e, is_start e = false) l → starts l = 0.
Proof.
  unfold starts. induction 1 as [|e l He _ IH]; [done|].
  rewrite filter_cons_False; [done | congruence].
Qed.

Lemma cleanup_events_no_start d sh cs : starts (cleanup_events d sh cs) = 0.
Proof. by destruct sh. Qed.

Section Restart.
Variable Factory_get : string → option class_id.
Variable setattr_ok : class_id → string → value → bool.

Local Abbreviation setup := (main_setup Factory_get setattr_ok).
Local Abbreviation start := (start_main Factory_get setattr_ok).
Local Abbreviation restart := (_restart Factory_get setattr_ok).
Local Abbreviation next_frame := (tick Factory_get setattr_ok).

Lemma start_main_started s : started s (start s).1.
Proof.
  unfold start. rewrite bind_run. simpl.
  set (s0 := set_trace (trace s ++ [EStart]) s).
  rewrite bind_run.
  destruct (main_setup_frame Factory_get setattr_ok s0)
    as [Hc Ht Hd Hw Hg _ (l & Hl & Fl)].
  destruct (setup s0) as [s1 [[f|]|e]]; simpl in *.
  - split; simpl; try done.
    exists (l ++ [EBindSelect (f_dd f)]). split.
    + rewrite Hl. by rewrite <- !app_assoc.
    + apply Forall_app. split; [|by repeat constructor].
      eapply Forall_impl; [exact Fl | apply is_setup_is_run].
  - split; simpl; try done.
    exists l. split; [by rewrite Hl, <- app_assoc|].
    eapply Forall_impl; [exact Fl | apply is_setup_is_run].
  - split; simpl; try done.
    exists l. split; [by rewrite Hl, <- app_assoc|].
    eapply Forall_impl; [exact Fl | apply is_setup_is_run].
Qed.

Lemma restart_unfold s :
  restart s = (t ← start; modify (set_main_task t)) (cancel s).
Proof. reflexivity. Qed.

Lemma restart_started s : started (cancel s) (set_main_task (main_task (cancel s)) (restart s).1).
Proof.
  rewrite restart_unfold, bind_run.
  pose proof (start_main_started (cancel s)) as [].
  destruct (start (cancel s)) as [s2 [t|e]]; simpl in *.
  - by split.
  - split; simpl; try done.
Qed.

Lemma cancel_cases s :
  cancel s = set_trace (trace s ++ [ECancel]) s
  ∨ ∃ d sh c, live_on s d sh ∧ cancel s = set_main_task TFinished c
              ∧ cleaned d sh (set_trace (trace s ++ [ECancel]) s) c.
Proof.
  unfold cancel, live_on. destruct (main_task s) as [| |d sh|d sh]; eauto;
    right; exists d, sh, (cleanup d sh (set_trace (trace s ++ [ECancel]) s));
    eauto using cleanup_cleaned.
Qed.

Lemma cancel_triggered s : triggered (cancel s) = triggered s.
Proof.
  destruct (cancel_cases s) as [-> | (d & sh & c & _ & -> & [])]; simpl; [done|].
  by rewrite cl_triggered0.
Qed.

Lemma cancel_starts s : starts (trace (cancel s)) = starts (trace s).
Proof.
  destruct (cancel_cases s) as [-> | (d & sh & c & _ & -> & [])]; simpl.
  - rewrite starts_app. unfold starts at 2. simpl. lia.
  - rewrite cl_trace0. simpl. rewrite !starts_app, cleanup_events_no_start.
    unfold starts at 2. simpl. lia.
Qed.

Lemma restart_triggered s : triggered (restart s).1 = triggered s.
Proof.
  pose proof (restart_started s) as []. simpl in *.
  by rewrite st_triggered0, cancel_triggered.
Qed.

Lemma restart_starts s : starts (trace (restart s).1) = S (starts (trace s)).
Proof.
  pose proof (restart_started s) as [_ _ _ _ _ (l & Hl & Fl)]. simpl in *.
  rewrite Hl, starts_app, cancel_starts. change (EStart :: l) with ([EStart] ++ l).
  rewrite starts_app, (starts_none l).
  - unfold starts. simpl. lia.
  - eapply Forall_impl; [exact Fl | apply is_run_not_start].
Qed.

End Restart.

(** * The restart contract *)

Section RestartContract.
Variable Factory_get : string → option class_id.
Variable setattr_ok : class_id → string → value → bool.

Local Abbreviation start := (start_main Factory_get setattr_ok).
Local Abbreviation restart := (_restart Factory_get setattr_ok).
Local Abbreviation next_frame := (tick Factory_get setattr_ok).

Lemma cancel_live_cleaned s d sh :
  live_on s d sh →
  ∃ c, cancel s = set_main_task TFinished c
       ∧ cleaned d sh (set_trace (trace s ++ [ECancel]) s) c.
Proof.
  intros H. exists (cleanup d sh (set_trace (trace s ++ [ECancel]) s)).
  split; [by apply cancel_live | apply cleanup_cleaned].
Qed.

(** C2.  A restart requested while a run is parked in its loop: [cancel]
    runs the whole [finally] block of the old run (unbind [on_select], unbind
    the height handler if there is one, store the dropdown and its children,
    reversed, in the pool, clear the dropdown, close it) and only then is the
    new [_main] started; the new run begins in the world the cleanup left,
    and none of its events is a cleanup event. *)
Theorem restart_runs_cleanup_before_setup s d sh :
  live_on s d sh →
  let s1 := cancel s in
  trace s1 = trace s ++ ECancel :: cleanup_events d sh (children_of d s)
  ∧ res_dropdown s1 = Some d
  ∧ res_option_widgets s1 = Some (rev (children_of d s))
  ∧ children_of d s1 = []
  ∧ main_task s1 = TFinished
  ∧ restart s = (t ← start; modify (set_main_task t)) s1
  ∧ ∃ l, trace (restart s).1 = trace s1 ++ EStart :: l
         ∧ Forall (λ e, is_run_event e = true) l
         ∧ Forall (λ e, is_cleanup_event e = false) l.
Proof.
  intros Hlive. cbv zeta.
  pose proof (restart_started Factory_get setattr_ok s) as [_ _ _ _ _ (l & Hl & Fl)].
  destruct (cancel_live_cleaned s d sh Hlive) as (c & Hc & Hcl).
  assert (Hr : restart s = (t ← start; modify (set_main_task t)) (cancel s))
    by apply restart_unfold.
  revert Hl Hr. generalize (restart s). intros r Hl Hr.
  rewrite Hc in *. clear Hc.
  destruct Hcl as [Htr _ _ _ _ _ _ _ _ Hrd Hrw Hch].
  change (children_of d (set_trace (trace s ++ [ECancel]) s))
    with (children_of d s) in *.
  change (trace (set_trace (trace s ++ [ECancel]) s)) with (trace s ++ [ECancel]) in *.
  change (trace (set_main_task TFinished c)) with (trace c) in *.
  change (res_dropdown (set_main_task TFinished c)) with (res_dropdown c).
  change (res_option_widgets (set_main_task TFinished c)) with (res_option_widgets c).
  change (children_of d (set_main_task TFinished c)) with (children_of d c).
  change (main_task (set_main_task TFinished c)) with TFinished.
  split; [by rewrite Htr, <- app_assoc|].
  split; [done|]. split; [done|]. split; [done|]. split; [done|].
  split; [done|].
  exists l. split; [done|]. split; [done|].
  eapply Forall_impl; [exact Fl | apply is_run_not_cleanup].
Qed.

(** C3.  Any number (at least one) of changes of the five observed
    properties within one frame schedules the trigger once: the next frame
    starts [_main] exactly once, and the frame after that does nothing. *)
Theorem mutations_in_one_tick_restart_once ms s :
  ms ≠ [] →
  Forall (λ m, observed m = true) ms →
  let s1 := batch ms s in
  let s2 := (next_frame s1).1 in
  triggered s1 = true
  ∧ starts (trace s1) = starts (trace s)
  ∧ starts (trace s2) = S (starts (trace s))
  ∧ triggered s2 = false
  ∧ next_frame s2 = (s2, Ok tt).
Proof.
  intros Hne Hobs s1 s2.
  assert (Hstep : ∀ m s0, observed m = true →
            triggered (mutate m s0) = true ∧ trace (mutate m s0) = trace s0).
  { intros m s0 Hm. unfold mutate. rewrite Hm. by destruct m. }
  assert (H1 : ∀ s0, triggered (batch ms s0) = true ∧ trace (batch ms s0) = trace s0).
  { clear s1 s2. unfold batch.
    induction Hobs as [|m ms Hm Hms IH]; [done|]. intros s0. simpl.
    destruct (Hstep m s0 Hm) as [Ht Htr].
    destruct ms as [|m' ms'].
    - simpl. done.
    - destruct (IH ltac:(done) (mutate m s0)) as [IH1 IH2].
      split; [exact IH1 | by rewrite IH2]. }
  destruct (H1 s) as [Ht Htr]. fold s1 in Ht, Htr.
  assert (Hs2 : s2 = (restart (set_triggered false s1)).1).
  { subst s2. unfold tick. by rewrite Ht. }
  assert (Htrig2 : triggered s2 = false).
  { rewrite Hs2. by rewrite restart_triggered. }
  repeat split; try done.
  - by rewrite Htr.
  - rewrite Hs2, restart_starts. simpl. by rewrite Htr.
  - unfold tick. by rewrite Htrig2.
Qed.

End RestartContract.

(** A run that is parked in its loop exists: the scenario. *)
Lemma demo_live_is_live : live_on demo_live 0 None.
Proof. left. vm_compute. reflexivity. Qed.

Lemma restart_runs_cleanup_before_setup_witness :
  live_on demo_live 0 None
  ∧ trace (cancel demo_live)
    = trace demo_live ++ ECancel :: cleanup_events 0 None (children_of 0 demo_live).
Proof.
  split; [exact demo_live_is_live|].
  exact (proj1 (restart_runs_cleanup_before_setup demo_factory accept_all
                  demo_live 0 None demo_live_is_live)).
Defined.

Lemma mutations_in_one_tick_restart_once_witness :
  starts (trace (tick demo_factory accept_all
                   (batch [SetAutoSelect (Some 1%Z); SetSyncHeight true;
                           SetOptionData [opt_A]] demo_live)).1)
  = S (starts (trace demo_live)).
Proof.
  refine (proj1 (proj2 (proj2
    (mutations_in_one_tick_restart_once demo_factory accept_all
       [SetAutoSelect (Some 1%Z); SetSyncHeight true; SetOptionData [opt_A]]
       demo_live _ _)))).
  - discriminate.
  - repeat constructor.
Defined.

(** * The steady-state loop *)

Lemma released_awaiting s d sh :
  main_task s = TAwaitRelease d sh →
  released s = set_main_task (TAwaitDismiss d sh) (dd_open d s).
Proof. unfold released. by intros ->. Qed.

Lemma cycle_awaiting s d sh :
  main_task s = TAwaitRelease d sh →
  main_task (cycle d s) = TAwaitRelease d sh
  ∧ trace (cycle d s) = trace s ++ [EOpen d].
Proof.
  intros H. unfold cycle. rewrite (released_awaiting _ _ _ H).
  unfold dismissed. simpl. by rewrite bool_decide_true.
Qed.

(** C9.  While the task waits for the activation, an activation opens the
    dropdown once and the task then waits for the dismissal; a further
    activation in that state opens nothing; the dismissal brings the task
    back to waiting for the activation without opening anything; and so on,
    for any number of rounds. *)
Theorem open_close_cycle s d sh n :
  main_task s = TAwaitRelease d sh →
  (main_task (released s) = TAwaitDismiss d sh
   ∧ trace (released s) = trace s ++ [EOpen d])
  ∧ released (released s) = released s
  ∧ (main_task (dismissed d (released s)) = TAwaitRelease d sh
     ∧ trace (dismissed d (released s)) = trace (released s))
  ∧ dismissed d s = s
  ∧ (main_task (Nat.iter n (cycle d) s) = TAwaitRelease d sh
     ∧ trace (Nat.iter n (cycle d) s) = trace s ++ replicate n (EOpen d)).
Proof.
  intros H.
  assert (Hiter : ∀ k, main_task (Nat.iter k (cycle d) s) = TAwaitRelease d sh
                      ∧ trace (Nat.iter k (cycle d) s)
                        = trace s ++ replicate k (EOpen d)).
  { induction k as [|k [IHt IHtr]]; simpl; [by rewrite app_nil_r|].
    destruct (cycle_awaiting _ _ _ IHt) as [-> ->]. split; [done|].
    rewrite IHtr, <- app_assoc. f_equal.
    change (EOpen d :: replicate k (EOpen d)) with (replicate (S k) (EOpen d)).
    by rewrite replicate_S_end. }
  rewrite (released_awaiting _ _ _ H).
  split; [by split|].
  split; [done|].
  split; [unfold dismissed; simpl; by rewrite bool_decide_true|].
  split; [unfold dismissed; by rewrite H|].
  apply Hiter.
Qed.

Lemma open_close_cycle_witness :
  main_task demo_live = TAwaitRelease 0 None
  ∧ opens (trace (Nat.iter 3 (cycle 0) demo_live)) = 3.
Proof.
  assert (H : main_task demo_live = TAwaitRelease 0 None)
    by (vm_compute; reflexivity).
  split; [exact H|].
  rewrite (proj2 (proj2 (proj2 (proj2 (proj2
             (open_close_cycle demo_live 0 None 3 H)))))).
  vm_compute. reflexivity.
Defined.

(** * Spacing and padding *)

Lemma foldr_upd_dropdown_lookup (f : dropdown → dropdown) l s d :
  (∀ D, f (f D) = f D) →
  dropdowns (foldr (λ d, upd_dropdown d f) s l) !! d
  = if bool_decide (d ∈ l) then f <$> dropdowns s !! d else dropdowns s !! d.
Proof.
  intros Hf. induction l as [|a l IH]; [done|].
  change (foldr (λ d, upd_dropdown d f) s (a :: l))
    with (upd_dropdown a f (foldr (λ d, upd_dropdown d f) s l)).
  unfold upd_dropdown at 1.
  change (dropdowns (set_dropdowns ?m _)) with m.
  rewrite lookup_alter.
  destruct (decide (a = d)) as [->|Hne].
  - rewrite (bool_decide_true (d ∈ d :: l)) by set_solver.
    rewrite IH. case_bool_decide; [|done].
    destruct (dropdowns s !! d); simpl; by rewrite ?Hf.
  - rewrite IH.
    rewrite (bool_decide_ext (d ∈ a :: l) (d ∈ l)); [done|].
    rewrite elem_of_cons. split; [intros [?|?]; [congruence|done] | by right].
Qed.

Lemma foldr_upd_dropdown_same_control (f : dropdown → dropdown) l s :
  same_control s (foldr (λ d, upd_dropdown d f) s l).
Proof. apply foldr_same_control. intros. apply upd_dropdown_same_control. Qed.

Section Forwarding.
Variable Factory_get : string → option class_id.
Variable setattr_ok : class_id → string → value → bool.

(** Line 87-94: constructing a dropdown is what binds the two setters. *)
Lemma build_dropdown_binds c s :
  let d := next_id s in
  let s' := (build_dropdown c s).1 in
  (build_dropdown c s).2 = Ok d
  ∧ bound_spacing s' = bound_spacing s ++ [d]
  ∧ bound_padding s' = bound_padding s ++ [d]
  ∧ (dd_spacing <$> dropdowns s' !! d) = Some (option_spacing (cfg s))
  ∧ (dd_padding <$> dropdowns s' !! d) = Some (option_padding (cfg s)).
Proof.
  simpl. repeat split; simpl; unfold upd_dropdown; simpl;
    by rewrite ?lookup_alter, ?decide_True, ?lookup_insert_eq by done.
Qed.

(** C10.  A change of [option_spacing] or [option_padding] is not observed
    by the restart trigger: nothing is scheduled, the task is not touched,
    the next frame does nothing on its account.  The new value reaches
    exactly the containers whose setter is bound to the property, and that
    binding is made where a dropdown is constructed (lines 87-94). *)
Theorem spacing_padding_do_not_restart m s :
  prop_name m = "option_spacing" ∨ prop_name m = "option_padding" →
  observed m = false
  ∧ triggered (mutate m s) = triggered s
  ∧ main_task (mutate m s) = main_task s
  ∧ trace (mutate m s) = trace s
  ∧ (triggered s = false →
     tick Factory_get setattr_ok (mutate m s) = (mutate m s, Ok tt))
  ∧ (∀ v d, m = SetOptionSpacing v →
       dropdowns (mutate m s) !! d
       = if bool_decide (d ∈ bound_spacing s)
         then set_dd_spacing v <$> dropdowns s !! d else dropdowns s !! d)
  ∧ (∀ v d, m = SetOptionPadding v →
       dropdowns (mutate m s) !! d
       = if bool_decide (d ∈ bound_padding s)
         then set_dd_padding v <$> dropdowns s !! d else dropdowns s !! d)
  ∧ (∀ c s0,
       let d := next_id s0 in
       let s1 := (build_dropdown c s0).1 in
       (build_dropdown c s0).2 = Ok d
       ∧ bound_spacing s1 = bound_spacing s0 ++ [d]
       ∧ bound_padding s1 = bound_padding s0 ++ [d]
       ∧ (dd_spacing <$> dropdowns s1 !! d) = Some (option_spacing (cfg s0))
       ∧ (dd_padding <$> dropdowns s1 !! d) = Some (option_padding (cfg s0))).
Proof.
  intros Hm.
  assert (Hobs : observed m = false) by (by destruct m, Hm).
  assert (Hsc : same_control (set_cfg (store m (cfg s)) s) (mutate m s)).
  { unfold mutate. rewrite Hobs.
    destruct m, Hm; try discriminate; simpl;
      apply foldr_upd_dropdown_same_control. }
  split; [done|].
  split; [exact (sc_triggered _ _ Hsc)|].
  split; [exact (sc_main_task _ _ Hsc)|].
  split; [exact (sc_trace _ _ Hsc)|].
  split.
  { intros Ht. unfold tick. rewrite (sc_triggered _ _ Hsc). simpl. by rewrite Ht. }
  split.
  { intros v d ->. unfold mutate. simpl.
    by rewrite foldr_upd_dropdown_lookup. }
  split.
  { intros v d ->. unfold mutate. simpl.
    by rewrite foldr_upd_dropdown_lookup. }
  apply build_dropdown_binds.
Qed.

End Forwarding.

Lemma spacing_padding_do_not_restart_witness :
  main_task (mutate (SetOptionSpacing [4; 4]%Z) demo_live) = main_task demo_live
  ∧ (dd_spacing <$> dropdowns (mutate (SetOptionSpacing [4; 4]%Z) demo_live) !! 0)
    = Some [4; 4]%Z.
Proof.
  pose proof (spacing_padding_do_not_restart demo_factory accept_all
                (SetOptionSpacing [4; 4]%Z) demo_live (or_introl eq_refl))
    as (_ & _ & Ht & _ & _ & Hs & _).
  split; [exact Ht|].
  rewrite (Hs _ 0 eq_refl). vm_compute. reflexivity.
Defined.

(** ** What the build phase leaves alone *)

#[global] Instance same_on_preorder {A : Type} (f : world → A) : PreOrder (same_on f).
Proof. unfold same_on. split; [by intros s | intros s1 s2 s3; congruence]. Qed.

#[global] Instance same_on_selection : BuildFrame (same_on selection).
Proof. by split; [apply _|..]. Qed.

#[global] Instance same_on_bound_height : BuildFrame (same_on bound_height).
Proof. by split; [apply _|..]. Qed.

Ltac build_modify :=
  simpl; unfold upd_widget, upd_dropdown;
  repeat first
    [ reflexivity
    | (etrans; [| first [ apply bf_trace | apply bf_next_id | apply bf_widgets
                        | apply bf_dropdowns | apply bf_bound_spacing
                        | apply bf_bound_padding ] ]) ].

Ltac build_auto lemmas :=
  repeat first [ preserves_step | lemmas | progress build_modify ].

Section BuildFrames.
Context (R : relation world) `{!BuildFrame R}.
Variable Factory_get : string → option class_id.
Variable setattr_ok : class_id → string → value → bool.

Lemma log_build e : preserves R (log e).
Proof. unfold log. build_auto fail. Qed.

Lemma fresh_build : preserves R fresh.
Proof. intros s. build_modify. Qed.

Lemma new_dropdown_build c : preserves R (new_dropdown c).
Proof. unfold new_dropdown. build_auto ltac:(first [apply fresh_build | apply log_build]). Qed.

Lemma new_widget_build c : preserves R (new_widget c).
Proof. unfold new_widget. build_auto ltac:(first [apply fresh_build | apply log_build]). Qed.

Lemma bind_release_build w d : preserves R (bind_release w d).
Proof. unfold bind_release. build_auto ltac:(apply log_build). Qed.

Lemma add_widget_build d w : preserves R (add_widget d w).
Proof. unfold add_widget. build_auto ltac:(apply log_build). Qed.

Lemma build_dropdown_build c : preserves R (build_dropdown c).
Proof.
  unfold build_dropdown.
  build_auto ltac:(first [apply new_dropdown_build | apply log_build]).
Qed.

Lemma prepare_dropdown_build : preserves R (prepare_dropdown Factory_get).
Proof. unfold prepare_dropdown. build_auto ltac:(apply build_dropdown_build). Qed.

Lemma next_widget_build c src : preserves R (next_widget c src).
Proof. unfold next_widget. build_auto ltac:(apply new_widget_build). Qed.

Lemma setattr_build w name v : preserves R (setattr_ setattr_ok w name v).
Proof. unfold setattr_. build_auto ltac:(apply log_build). Qed.

Lemma apply_props_build w props : preserves R (apply_props setattr_ok w props).
Proof.
  induction props as [|[name v] props IH]; simpl.
  - build_auto fail.
  - build_auto ltac:(first [apply setattr_build | apply IH]).
Qed.

Lemma populate_build c d src data : preserves R (populate setattr_ok c d src data).
Proof.
  revert src. induction data as [|props data IH]; intros src; simpl.
  - build_auto ltac:(apply next_widget_build).
  - build_auto ltac:(first [ apply next_widget_build | apply apply_props_build
                           | apply bind_release_build | apply add_widget_build
                           | apply IH ]).
Qed.

End BuildFrames.

(** ** The steps of the setup, one by one *)

Lemma get_inv s s' (x : world) : get s = (s', Ok x) → s' = s ∧ x = s.
Proof. unfold get. intros [= <- <-]. done. Qed.

Lemma lift_inv {A : Type} (r : result A) s s' a :
  lift r s = (s', Ok a) → s' = s ∧ r = Ok a.
Proof. unfold lift. intros [= <- <-]. done. Qed.

(** [dd.add_widget(w)] that did not raise put [w] in front. *)
Lemma add_widget_inv d w s s' :
  add_widget d w s = (s', Ok tt) →
  dropdowns s' = alter (λ D, set_dd_children (w :: dd_children D) D) d (dropdowns s)
  ∧ ∃ W, widgets s !! w = Some W ∧ w_parent W = None
         ∧ widgets s' = alter (set_w_parent (Some d)) w (widgets s).
Proof.
  unfold add_widget. rewrite bind_run. simpl.
  destruct (widgets s !! w) as [W|] eqn:HW; [|discriminate].
  destruct (w_parent W) eqn:HP; [discriminate|].
  intros [= <-]. simpl. split; [done|]. exists W. done.
Qed.

Lemma bind_release_run w d s :
  ∃ s', bind_release w d s = (s', Ok tt)
        ∧ dropdowns s' = dropdowns s
        ∧ widgets s' = alter (λ W, set_w_on_release (w_on_release W ++ [d]) W) w (widgets s)
        ∧ next_id s' = next_id s.
Proof. eexists. split; [reflexivity|]. done. Qed.

Lemma new_widget_run c s :
  ∃ s', new_widget c s = (s', Ok (next_id s))
        ∧ dropdowns s' = dropdowns s
        ∧ widgets s' = <[next_id s := {| w_class := c; w_attrs := ∅; w_on_release := [];
                                        w_parent := None |}]> (widgets s)
        ∧ next_id s' = S (next_id s).
Proof. eexists. split; [reflexivity|]. done. Qed.

Section Steps.
Variable Factory_get : string → option class_id.
Variable setattr_ok : class_id → string → value → bool.

Lemma setattr_inv w name v s s' :
  setattr_ setattr_ok w name v s = (s', Ok tt) →
  dropdowns s' = dropdowns s
  ∧ next_id s' = next_id s
  ∧ widgets s' = alter (λ W, set_w_attrs (<[name := v]> (w_attrs W)) W) w (widgets s).
Proof.
  unfold setattr_. rewrite bind_run. simpl.
  destruct (widgets s !! w) as [W|]; [|discriminate].
  destruct (setattr_ok (w_class W) name v); [|discriminate].
  intros [= <-]. done.
Qed.

Lemma apply_props_dropdowns w props s s' :
  apply_props setattr_ok w props s = (s', Ok tt) → dropdowns s' = dropdowns s.
Proof.
  revert s. induction props as [|[name v] props IH]; intros s; simpl.
  - by intros [= <-].
  - intros H. apply bind_ok_inv in H as (s1 & [] & H1 & H2).
    apply setattr_inv in H1 as (Hd & _). rewrite <- Hd. by apply IH.
Qed.

Lemma next_widget_dropdowns c src s s' r :
  next_widget c src s = (s', Ok r) → dropdowns s' = dropdowns s.
Proof.
  destruct src as [|w src]; simpl.
  - intros H. apply bind_ok_inv in H as (s1 & w & H1 & H2).
    destruct (new_widget_run c s) as (s1' & Hn & Hd & _).
    rewrite Hn in H1. injection H1 as <- <-. by injection H2 as <- <-.
  - by intros [= <- <-].
Qed.

(** The loop of lines 117-121 that did not raise: the widgets it ran on are
    in front of the children that were there, last one first, and there is
    one per descriptor. *)
Lemma populate_inv c d src data s s' ws :
  populate setattr_ok c d src data s = (s', Ok ws) →
  dropdowns s' = alter (λ D, set_dd_children (rev ws ++ dd_children D) D) d (dropdowns s)
  ∧ length ws = length data.
Proof.
  revert src s s' ws. induction data as [|props data IH]; intros src s s' ws; simpl.
  - intros H. apply bind_ok_inv in H as (s1 & r & H1 & H2).
    apply next_widget_dropdowns in H1. injection H2 as <- <-.
    split; [|done]. rewrite H1. simpl.
    symmetry. apply alter_id. by intros [].
  - intros H. apply bind_ok_inv in H as (s1 & [w src'] & H1 & H).
    apply next_widget_dropdowns in H1.
    apply bind_ok_inv in H as (s2 & [] & H2 & H).
    apply apply_props_dropdowns in H2.
    apply bind_ok_inv in H as (s3 & [] & H3 & H).
    destruct (bind_release_run w d s2) as (s3' & Hb & Hd3 & _).
    rewrite Hb in H3. injection H3 as <-.
    apply bind_ok_inv in H as (s4 & [] & H4 & H).
    apply add_widget_inv in H4 as (Hd4 & _).
    apply bind_ok_inv in H as (s5 & ws' & H5 & H).
    apply IH in H5 as (Hd5 & Hlen). injection H as <- <-.
    split; [|by rewrite <- Hlen].
    rewrite Hd5, Hd4, Hd3, H2, H1.
    rewrite alter_alter_eq. apply alter_ext.
    intros D _. unfold set_dd_children. simpl. by rewrite <- app_assoc.
Qed.

End Steps.


Lemma children_of_populated d ws s s' :
  dropdowns s' = alter (λ D, set_dd_children (rev ws ++ dd_children D) D) d (dropdowns s) →
  is_Some (dropdowns s !! d) →
  children_of d s' = rev ws ++ children_of d s.
Proof.
  intros H [D HD]. unfold children_of. rewrite H, lookup_alter_eq, HD. done.
Qed.

(** [cs[-(a + 1)]] for an index within range counts from the end. *)
Lemma py_index_from_end {A : Type} (l : list A) (a : Z) :
  (0 ≤ a < Z.of_nat (length l))%Z →
  py_index l (- (a + 1)) = l !! (length l - 1 - Z.to_nat a).
Proof.
  intros Ha. unfold py_index.
  assert ((- (a + 1) <? 0)%Z = true) as -> by (apply Z.ltb_lt; lia).
  assert ((0 <=? - (a + 1) + Z.of_nat (length l))%Z = true) as ->
    by (apply Z.leb_le; lia).
  assert ((- (a + 1) + Z.of_nat (length l) <? Z.of_nat (length l))%Z = true) as ->
    by (apply Z.ltb_lt; lia).
  simpl. f_equal. lia.
Qed.

Lemma rev_lookup_from_end {A : Type} (l : list A) (i : nat) :
  i < length l → rev l !! (length (rev l) - 1 - i) = l !! i.
Proof.
  intros Hi. rewrite length_rev, rev_alt.
  change (rev_append l []) with (reverse l).
  rewrite reverse_lookup by lia. f_equal. lia.
Qed.

Section SetupInversion.
Variable Factory_get : string → option class_id.
Variable setattr_ok : class_id → string → value → bool.

Lemma build_dropdown_run c s :
  ∃ s', build_dropdown c s = (s', Ok (next_id s))
        ∧ children_of (next_id s) s' = []
        ∧ (dd_class <$> dropdowns s' !! next_id s) = Some c
        ∧ (∀ d, d ≠ next_id s → dropdowns s' !! d = dropdowns s !! d)
        ∧ widgets s' = widgets s
        ∧ next_id s' = S (next_id s)
        ∧ bound_spacing s' = bound_spacing s ++ [next_id s]
        ∧ bound_padding s' = bound_padding s ++ [next_id s]
        ∧ bound_height s' = bound_height s
        ∧ selection s' = selection s
        ∧ res_option_widgets s' = res_option_widgets s
        ∧ res_dropdown s' = res_dropdown s
        ∧ main_task s' = main_task s
        ∧ (dd_on_select <$> dropdowns s' !! next_id s) = Some 0
        ∧ trace s' = trace s ++ [ENewDropdown (next_id s); EBindForward (next_id s)].
Proof.
  eexists. split; [reflexivity|]. simpl. unfold children_of, upd_dropdown. simpl.
  rewrite <- !app_assoc.
  rewrite !lookup_alter_eq, lookup_insert_eq. simpl.
  repeat split; try done.
  intros d Hd. by rewrite !lookup_alter_ne, lookup_insert_ne.
Qed.

(** Lines 80-96: the dropdown of the run is the pooled one, untouched, or a
    new, empty one. *)
Lemma prepare_dropdown_inv s s1 d :
  prepare_dropdown Factory_get s = (s1, Ok (Some d)) →
  (s1 = s ∧ res_dropdown s = Some d ∧ is_Some (dropdowns s !! d))
  ∨ (∃ c, build_dropdown c s = (s1, Ok d) ∧ d = next_id s).
Proof.
  unfold prepare_dropdown. rewrite bind_run. simpl. rewrite bind_run. unfold lift.
  destruct (resolve Factory_get (dropdown_cls (cfg s))) as [[c|]|e]; try discriminate.
  assert (Hb : ∀ r, (d' ← build_dropdown c; mret (Some d')) s = (s1, Ok (Some d)) →
               r ∨ (∃ c, build_dropdown c s = (s1, Ok d) ∧ d = next_id s)).
  { intros r H. right. exists c.
    destruct (build_dropdown_run c s) as (s' & Hrun & _).
    rewrite (bind_ok _ _ _ _ _ Hrun) in H. injection H as <- <-. done. }
  destruct (res_dropdown s) as [d0|] eqn:Hres; [|apply Hb].
  destruct (dropdowns s !! d0) as [D|] eqn:HD; [|discriminate].
  case_bool_decide; [|apply Hb].
  intros [= <- <-]. left. eauto.
Qed.

Lemma widget_source_state c s s' src :
  widget_source c s = (s', Ok src) → s' = s.
Proof.
  unfold widget_source. rewrite bind_run. simpl.
  destruct (res_option_widgets s) as [[|w0 ws]|]; try by intros [= <-].
  destruct (widgets s !! w0) as [W|]; [|discriminate].
  by case_bool_decide; intros [= <-].
Qed.

Lemma sync_height_same_control d h s :
  same_control (set_trace (trace s ++ [ESyncHeight d h]) s) (_sync_height d h s)
  ∧ dropdowns (_sync_height d h s) = dropdowns s.
Proof.
  unfold _sync_height.
  pose proof (foldr_upd_widget_same_control
                (λ _ W, set_w_attrs (<["height" := VNum h]> (w_attrs W)) W)
                (children_of d s) s) as Hsc.
  pose proof (foldr_upd_widget_dropdowns
                (λ _ W, set_w_attrs (<["height" := VNum h]> (w_attrs W)) W)
                (children_of d s) s) as Hd.
  set (s1 := foldr _ s _) in *. clearbody s1. destruct Hsc.
  split; [split|]; simpl; congruence.
Qed.

Lemma setup_sync_height_run d s :
  ∃ s' sh, setup_sync_height d s = (s', Ok sh)
    ∧ dropdowns s' = dropdowns s
    ∧ selection s' = selection s
    ∧ cfg s' = cfg s
    ∧ bound_spacing s' = bound_spacing s
    ∧ bound_padding s' = bound_padding s
    ∧ res_option_widgets s' = res_option_widgets s
    ∧ (if sync_height (cfg s)
       then sh = Some {| h_id := next_id s; h_dd := d |}
            ∧ bound_height s' = bound_height s ++ [{| h_id := next_id s; h_dd := d |}]
       else sh = None ∧ s' = s).
Proof.
  destruct (sync_height (cfg s)) eqn:Hs.
  - set (h := {| h_id := next_id s; h_dd := d |}).
    set (s1 := _sync_height d (height (cfg s)) (set_next_id (S (next_id s)) s)).
    exists (set_trace (trace s1 ++ [EBindHeight h])
              (set_bound_height (bound_height s1 ++ [h]) s1)), (Some h).
    split.
    { unfold setup_sync_height. rewrite bind_run. simpl. rewrite Hs. reflexivity. }
    destruct (sync_height_same_control d (height (cfg s))
                (set_next_id (S (next_id s)) s)) as [Hsc Hd].
    fold s1 in Hsc, Hd. clearbody s1. destruct Hsc. simpl in *.
    repeat split; try done; congruence.
  - exists s, None.
    split; [unfold setup_sync_height; rewrite bind_run; simpl; by rewrite Hs|].
    done.
Qed.

Lemma select_policy_inv d s s' :
  select_policy d s = (s', Ok tt) →
  dropdowns s' = dropdowns s ∧ widgets s' = widgets s
  ∧ bound_spacing s' = bound_spacing s ∧ bound_padding s' = bound_padding s
  ∧ bound_height s' = bound_height s.
Proof.
  unfold select_policy. rewrite bind_run. simpl.
  destruct (match selection s with Some w => _ | None => _ end).
  { by intros [= <-]. }
  destruct (auto_select (cfg s)) as [a|]; [|by intros [= <-]].
  destruct (_ <=? _)%Z; [by intros [= <-]|].
  destruct (py_index _ _); [by intros [= <-] | discriminate].
Qed.

(** Line 134-135: a selection that is among the children stays. *)
Lemma select_policy_keep d s w :
  selection s = Some w → w ∈ children_of d s → select_policy d s = (s, Ok tt).
Proof.
  intros Hs Hw. unfold select_policy. rewrite bind_run. simpl.
  rewrite Hs. by rewrite bool_decide_true.
Qed.

(** Lines 136-139, when the selection is not among the children. *)
Lemma select_policy_auto d s a :
  (∀ w, selection s = Some w → w ∉ children_of d s) →
  auto_select (cfg s) = Some a →
  select_policy d s
  = if (Z.of_nat (length (children_of d s)) <=? a)%Z then (set_selection None s, Ok tt)
    else match py_index (children_of d s) (- (a + 1)) with
         | Some w => (set_selection (Some w) s, Ok tt)
         | None => (s, Raise IndexError)
         end.
Proof.
  intros Hs Ha. unfold select_policy. rewrite bind_run. simpl. rewrite Ha.
  assert (match selection s with
          | Some w => bool_decide (w ∈ children_of d s)
          | None => false
          end = false) as ->.
  { destruct (selection s) as [w|]; [|done]. apply bool_decide_false. by apply Hs. }
  destruct (_ <=? _)%Z; [done|]. by destruct (py_index _ _).
Qed.

(** Lines 77-140 reaching [try], taken apart. *)
Lemma main_setup_inv s s' f :
  main_setup Factory_get setattr_ok s = (s', Ok (Some f)) →
  ∃ s1 c src s2 s3,
    prepare_dropdown Factory_get s = (s1, Ok (Some (f_dd f)))
    ∧ resolve Factory_get (option_cls (cfg s1)) = Ok (Some c)
    ∧ widget_source c s1 = (s1, Ok src)
    ∧ populate setattr_ok c (f_dd f) src (option_data (cfg s1)) s1
      = (s2, Ok (f_widgets f))
    ∧ setup_sync_height (f_dd f) s2 = (s3, Ok (f_sync_height f))
    ∧ select_policy (f_dd f) s3 = (s', Ok tt).
Proof.
  unfold main_setup. intros H.
  apply bind_ok_inv in H as (s1 & [d|] & H1 & H); [|discriminate].
  apply bind_ok_inv in H as (? & ? & [-> ->]%get_inv & H).
  apply bind_ok_inv in H as (? & [c|] & [-> Hc]%lift_inv & H); [|discriminate].
  apply bind_ok_inv in H as (s1' & src & Hsrc & H).
  pose proof (widget_source_state _ _ _ _ Hsrc) as ->.
  apply bind_ok_inv in H as (? & ? & [-> ->]%get_inv & H).
  apply bind_ok_inv in H as (s2 & ws & Hpop & H).
  apply bind_ok_inv in H as (s3 & sh & Hsh & H).
  apply bind_ok_inv in H as (s4 & [] & Hpol & H).
  injection H as <- <-. simpl.
  exists s1, c, src, s2, s3. done.
Qed.

End SetupInversion.

(** * The selection policy *)

Section SelectionPolicy.
Variable Factory_get : string → option class_id.
Variable setattr_ok : class_id → string → value → bool.

Local Abbreviation setup := (main_setup Factory_get setattr_ok).

(** The selection is not touched before line 131. *)
Lemma setup_selection_before_policy s s1 d c src s2 ws s3 sh :
  prepare_dropdown Factory_get s = (s1, Ok (Some d)) →
  populate setattr_ok c d src (option_data (cfg s1)) s1 = (s2, Ok ws) →
  setup_sync_height d s2 = (s3, Ok sh) →
  selection s3 = selection s ∧ cfg s3 = cfg s.
Proof.
  intros Hprep Hpop Hsh.
  pose proof (prepare_dropdown_build (same_on selection) Factory_get s) as H1.
  pose proof (populate_build (same_on selection) setattr_ok c d src
                (option_data (cfg s1)) s1) as H2.
  pose proof (sf_cfg _ _ (prepare_dropdown_frame Factory_get s)) as C1.
  pose proof (sf_cfg _ _ (populate_frame setattr_ok c d src
                            (option_data (cfg s1)) s1)) as C2.
  rewrite Hprep in H1, C1. rewrite Hpop in H2, C2.
  unfold same_on in *. simpl in *.
  destruct (setup_sync_height_run d s2) as (s3' & sh' & Hrun & _ & Hsel & Hcfg & _).
  rewrite Hrun in Hsh. injection Hsh as <- <-.
  split; congruence.
Qed.

(** C8.  When the widget the selection refers to is among the children of
    the dropdown after the setup, the setup has left the selection as it
    was, whatever [auto_select] says. *)
Theorem selection_survives s s' f w :
  setup s = (s', Ok (Some f)) →
  selection s = Some w →
  w ∈ children_of (f_dd f) s' →
  selection s' = selection s.
Proof.
  intros H Hsel Hin.
  apply main_setup_inv in H
    as (s1 & c & src & s2 & s3 & Hprep & Hc & Hsrc & Hpop & Hsh & Hpol).
  destruct (setup_selection_before_policy _ _ _ _ _ _ _ _ _ Hprep Hpop Hsh)
    as [Hsel3 _].
  pose proof (select_policy_inv _ _ _ Hpol) as (Hd & _).
  rewrite (children_of_dropdowns _ _ _ Hd) in Hin.
  rewrite (select_policy_keep (f_dd f) s3 w) in Hpol by congruence.
  injection Hpol as <-. done.
Qed.

(** The children of the run's dropdown at line 131: the widgets the run
    populated, newest first, in front of the children the dropdown had when
    the setup began.  A dropdown that was just built has none; a re-used one
    has those it was left with. *)
Lemma setup_children s s' f :
  setup s = (s', Ok (Some f)) →
  ∃ s3 stale,
    select_policy (f_dd f) s3 = (s', Ok tt)
    ∧ (stale = [] ∨ res_dropdown s = Some (f_dd f) ∧ stale = children_of (f_dd f) s)
    ∧ children_of (f_dd f) s3 = rev (f_widgets f) ++ stale
    ∧ children_of (f_dd f) s' = rev (f_widgets f) ++ stale
    ∧ length (f_widgets f) = length (option_data (cfg s))
    ∧ selection s3 = selection s
    ∧ cfg s3 = cfg s.
Proof.
  intros H.
  apply main_setup_inv in H
    as (s1 & c & src & s2 & s3 & Hprep & Hc & Hsrc & Hpop & Hsh & Hpol).
  destruct (setup_selection_before_policy _ _ _ _ _ _ _ _ _ Hprep Hpop Hsh)
    as [Hsel3 Hcfg3].
  pose proof (sf_cfg _ _ (prepare_dropdown_frame Factory_get s)) as Hcfg1.
  rewrite Hprep in Hcfg1. simpl in Hcfg1.
  assert (Hd1 : (children_of (f_dd f) s1 = []
                 ∨ res_dropdown s = Some (f_dd f)
                   ∧ children_of (f_dd f) s1 = children_of (f_dd f) s)
                ∧ is_Some (dropdowns s1 !! f_dd f)).
  { apply prepare_dropdown_inv in Hprep as [(-> & Hres & Hsome)|(c0 & Hb & Hd)].
    - split; [by right | done].
    - destruct (build_dropdown_run c0 s) as (s1' & Hrun & Hch & Hcl & _).
      rewrite Hrun in Hb. injection Hb as <- Hdd. rewrite <- Hdd in *.
      split; [by left|]. destruct (dropdowns s1' !! next_id s); [done|discriminate]. }
  destruct Hd1 as [Hch1 Hsome1].
  apply populate_inv in Hpop as [Hd2 Hlen]. rewrite Hcfg1 in Hlen.
  pose proof (children_of_populated _ _ _ _ Hd2 Hsome1) as Hch2.
  destruct (setup_sync_height_run (f_dd f) s2) as (s3' & sh' & Hrun & Hd3 & _).
  rewrite Hrun in Hsh. injection Hsh as -> _.
  pose proof (children_of_dropdowns (f_dd f) _ _ Hd3) as Hch3. rewrite Hch2 in Hch3.
  pose proof (select_policy_inv _ _ _ Hpol) as (Hd' & _).
  pose proof (children_of_dropdowns (f_dd f) _ _ Hd') as Hch'. rewrite Hch3 in Hch'.
  exists s3, (children_of (f_dd f) s1).
  split; [done|]. split; [|done].
  destruct Hch1 as [->|[Hres ->]]; [by left | by right].
Qed.

(** C1, as the code has it.  The children of a dropdown are kept newest
    first: after the setup they are the widgets of the descriptors, last
    descriptor first, followed by the children [stale] that a re-used
    dropdown still had (none when it was built by this run or left empty by
    a cleanup).  Line 139 counts the index from the end of that list.  With
    no selection surviving, index [i] therefore selects position [i] of
    [rev stale ++ f_widgets f]: without stale children the widget of the
    descriptor at position [i], not the one at [n - 1 - i]; an index at or
    beyond the number of children clears the selection. *)
Theorem auto_select_indexing s s' f i :
  setup s = (s', Ok (Some f)) →
  (∀ w, selection s = Some w → w ∉ children_of (f_dd f) s') →
  auto_select (cfg s) = Some i →
  (0 ≤ i)%Z →
  let n := length (option_data (cfg s)) in
  ∃ stale,
    (stale = [] ∨ res_dropdown s = Some (f_dd f) ∧ stale = children_of (f_dd f) s)
    ∧ length (f_widgets f) = n
    ∧ children_of (f_dd f) s' = rev (f_widgets f) ++ stale
    ∧ ((i < Z.of_nat (n + length stale))%Z →
       selection s' = (rev stale ++ f_widgets f) !! Z.to_nat i
       ∧ selection s' = children_of (f_dd f) s' !! (n + length stale - 1 - Z.to_nat i)
       ∧ is_Some (selection s'))
    ∧ ((Z.of_nat (n + length stale) ≤ i)%Z → selection s' = None)
    ∧ (stale = [] →
       ((i < Z.of_nat n)%Z → selection s' = f_widgets f !! Z.to_nat i)
       ∧ ((Z.of_nat n ≤ i)%Z → selection s' = None)).
Proof.
  intros H Hsel Hauto Hi n.
  destruct (setup_children s s' f H)
    as (s3 & stale & Hpol & Hst & Hch3 & Hch' & Hlen & Hsel3 & Hcfg3).
  fold n in Hlen.
  rewrite (select_policy_auto (f_dd f) s3 i) in Hpol; cycle 1.
  { intros w Hw. rewrite Hch3, <- Hch'. apply Hsel. congruence. }
  { by rewrite Hcfg3. }
  rewrite Hch3 in Hpol.
  assert (Hlen3 : length (rev (f_widgets f) ++ stale) = n + length stale)
    by (by rewrite length_app, length_rev, Hlen).
  rewrite Hlen3 in Hpol.
  assert (Hmain : ((i < Z.of_nat (n + length stale))%Z →
                   selection s' = (rev stale ++ f_widgets f) !! Z.to_nat i
                   ∧ selection s'
                     = children_of (f_dd f) s' !! (n + length stale - 1 - Z.to_nat i)
                   ∧ is_Some (selection s'))
                  ∧ ((Z.of_nat (n + length stale) ≤ i)%Z → selection s' = None)).
  { destruct (Z.leb_spec (Z.of_nat (n + length stale)) i) as [Hge|Hlt].
    - injection Hpol as <-. split; [lia | done].
    - split; [|lia]. intros _.
      rewrite py_index_from_end in Hpol by (rewrite Hlen3; lia).
      rewrite Hlen3 in Hpol.
      assert (Hlk : (rev (f_widgets f) ++ stale) !! (n + length stale - 1 - Z.to_nat i)
                    = (rev stale ++ f_widgets f) !! Z.to_nat i).
      { assert (Hrev : rev (rev stale ++ f_widgets f) = rev (f_widgets f) ++ stale)
          by (by rewrite rev_app_distr, rev_involutive).
        rewrite <- Hrev.
        replace (n + length stale)
          with (length (rev (rev stale ++ f_widgets f)))
          by (rewrite Hrev; exact Hlen3).
        apply rev_lookup_from_end.
        rewrite length_app, length_rev, Hlen. lia. }
      rewrite Hch'. rewrite Hlk in *.
      destruct ((rev stale ++ f_widgets f) !! Z.to_nat i) as [w|] eqn:Hw.
      + injection Hpol as <-. done.
      + apply lookup_ge_None in Hw.
        rewrite length_app, length_rev, Hlen in Hw. lia. }
  destruct Hmain as [Hlt Hge].
  exists stale. split; [done|]. split; [done|]. split; [done|].
  split; [done|]. split; [done|].
  intros ->. simpl in *. rewrite Nat.add_0_r in *. split.
  - intros Hin. by destruct (Hlt Hin) as [-> _].
  - done.
Qed.

End SelectionPolicy.

Lemma demo_setup_result auto :
  auto = Some 0%Z ∨ auto = Some 1%Z ∨ auto = Some 5%Z →
  demo_setup auto = ((demo_setup auto).1, Ok (Some demo_frame)).
Proof. intros [-> | [-> | ->]]; vm_compute; reflexivity. Qed.

(** The three cases of the test: index 0 selects the widget of A, index 1
    the widget of B, index 5 nothing. *)
Lemma auto_select_examples :
  (selection (demo_setup (Some 0%Z)).1 ≫= text_of (demo_setup (Some 0%Z)).1)
  = Some (VStr "A")
  ∧ (selection (demo_setup (Some 1%Z)).1 ≫= text_of (demo_setup (Some 1%Z)).1)
    = Some (VStr "B")
  ∧ selection (demo_setup (Some 5%Z)).1 = None.
Proof. vm_compute. done. Qed.

(** C1 as stated fails: with options [[A; B; C]] and index 0 the selected
    widget is the first of the three, the one carrying A, not the last. *)
Lemma auto_select_zero_not_last :
  ∃ s' f,
    demo_setup (Some 0%Z) = (s', Ok (Some f))
    ∧ length (f_widgets f) = 3
    ∧ selection s' = f_widgets f !! 0
    ∧ selection s' ≠ f_widgets f !! (3 - 1 - 0)
    ∧ (selection s' ≫= text_of s') = Some (VStr "A")
    ∧ (f_widgets f !! 2 ≫= text_of s') = Some (VStr "C").
Proof.
  exists (demo_setup (Some 0%Z)).1, demo_frame.
  split; [apply demo_setup_result; by left|].
  vm_compute. repeat split; congruence.
Qed.

Lemma auto_select_indexing_witness :
  selection (demo_setup (Some 1%Z)).1 = Some 2.
Proof.
  assert (H : demo_setup (Some 1%Z) = ((demo_setup (Some 1%Z)).1, Ok (Some demo_frame)))
    by (vm_compute; reflexivity).
  assert (Hsel : ∀ w, selection (init (demo_cfg (Some 1%Z))) = Some w →
                      w ∉ children_of (f_dd demo_frame) (demo_setup (Some 1%Z)).1)
    by (intros w; discriminate).
  pose proof (auto_select_indexing demo_factory accept_all _ _ _ 1%Z
                H Hsel eq_refl ltac:(lia)) as Hthm.
  destruct Hthm as (stale & Hst & _ & _ & _ & _ & Hempty).
  assert (Hnil : stale = []) by (by destruct Hst as [?|[? _]]).
  destruct (Hempty Hnil) as [-> _]; [vm_compute; reflexivity | reflexivity].
Defined.

Lemma selection_survives_witness :
  let s := set_cfg (demo_cfg (Some 1%Z)) (cancel demo_live) in
  selection (main_setup demo_factory accept_all (set_selection (Some 1) s)).1 = Some 1.
Proof.
  set (s := set_selection (Some 1) (set_cfg (demo_cfg (Some 1%Z)) (cancel demo_live))).
  assert (H : main_setup demo_factory accept_all s
              = ((main_setup demo_factory accept_all s).1, Ok (Some demo_frame)))
    by (vm_compute; reflexivity).
  assert (Hin : 1 ∈ children_of (f_dd demo_frame) (main_setup demo_factory accept_all s).1).
  { assert (children_of (f_dd demo_frame) (main_setup demo_factory accept_all s).1
            = [3; 2; 1]) as -> by (vm_compute; reflexivity).
    clear. rewrite !elem_of_cons. tauto. }
  exact (selection_survives demo_factory accept_all s _ demo_frame 1 H eq_refl Hin).
Defined.

(** * Early returns and failures of the setup *)

Lemma cancel_not_parked s :
  main_task (cancel s) = TDummy ∨ main_task (cancel s) = TFinished.
Proof.
  unfold cancel. destruct (main_task s) eqn:E.
  - left. exact E.
  - right. exact E.
  - right. reflexivity.
  - right. reflexivity.
Qed.

Lemma not_parked_cancel s :
  main_task s = TDummy ∨ main_task s = TFinished →
  cancel s = set_trace (trace s ++ [ECancel]) s.
Proof. unfold cancel. by intros [-> | ->]. Qed.

Section Failures.
Variable Factory_get : string → option class_id.
Variable setattr_ok : class_id → string → value → bool.

Local Abbreviation setup := (main_setup Factory_get setattr_ok).
Local Abbreviation start := (start_main Factory_get setattr_ok).
Local Abbreviation restart := (_restart Factory_get setattr_ok).

(** C5, as the code has it.  The descriptors are applied before [try] is
    entered, so when [setattr] raises, the exception leaves [_restart] with
    no step of the [finally] block run for the aborted run; the task it
    leaves behind is not parked, so the [cancel] of the next restart runs no
    cleanup either, and the pool is the one the previous run left. *)
Theorem setattr_failure_skips_cleanup s s' w name :
  restart s = (s', Raise (AttributeError w name)) →
  (main_task s' = TDummy ∨ main_task s' = TFinished)
  ∧ (∃ l, trace s' = trace (cancel s) ++ EStart :: l
          ∧ Forall (λ e, is_cleanup_event e = false) l)
  ∧ cancel s' = set_trace (trace s' ++ [ECancel]) s'
  ∧ res_dropdown s' = res_dropdown (cancel s)
  ∧ res_option_widgets s' = res_option_widgets (cancel s).
Proof.
  intros H. rewrite restart_unfold, bind_run in H.
  pose proof (start_main_started Factory_get setattr_ok (cancel s)) as Hst.
  destruct (start (cancel s)) as [s2 [t|e]]; [discriminate|].
  injection H as <- _. simpl in Hst.
  destruct Hst as [_ Ht Hd Hw _ (l & Hl & Fl)].
  assert (Htask : main_task s2 = TDummy ∨ main_task s2 = TFinished).
  { rewrite Ht. apply cancel_not_parked. }
  split; [exact Htask|].
  split.
  { exists l. split; [exact Hl|].
    eapply Forall_impl; [exact Fl | apply is_run_not_cleanup]. }
  split; [by apply not_parked_cancel|].
  split; [exact Hd | exact Hw].
Qed.

Lemma resolve_falsy r : falsy r = true → resolve Factory_get r = Ok None.
Proof. unfold resolve. by intros ->. Qed.

Lemma setup_without_dropdown_cls s :
  falsy (dropdown_cls (cfg s)) = true → setup s = (s, Ok None).
Proof.
  intros H. unfold main_setup, prepare_dropdown.
  rewrite !bind_run. simpl. rewrite !bind_run. unfold lift.
  by rewrite (resolve_falsy _ H).
Qed.

Lemma setup_without_option_cls s s1 d :
  prepare_dropdown Factory_get s = (s1, Ok (Some d)) →
  falsy (option_cls (cfg s)) = true →
  setup s = (s1, Ok None).
Proof.
  intros Hprep H. unfold main_setup.
  rewrite (bind_ok _ _ _ _ _ Hprep). rewrite !bind_run. simpl.
  rewrite !bind_run. unfold lift.
  pose proof (sf_cfg _ _ (prepare_dropdown_frame Factory_get s)) as Hcfg.
  rewrite Hprep in Hcfg. simpl in Hcfg. rewrite Hcfg.
  by rewrite (resolve_falsy _ H).
Qed.

(** Lines 80-96 go through when the dropdown class resolves. *)
Lemma prepare_dropdown_ok s c :
  resolve Factory_get (dropdown_cls (cfg s)) = Ok (Some c) →
  (∀ d, res_dropdown s = Some d → is_Some (dropdowns s !! d)) →
  ∃ s1 d, prepare_dropdown Factory_get s = (s1, Ok (Some d)).
Proof.
  intros Hc Hpool. unfold prepare_dropdown.
  rewrite bind_run. simpl. rewrite bind_run. unfold lift. rewrite Hc.
  destruct (build_dropdown_run c s) as (sb & Hb & _).
  destruct (res_dropdown s) as [d|] eqn:Hres.
  - destruct (Hpool d eq_refl) as [D HD]. rewrite HD.
    case_bool_decide; [by eexists _, _|].
    rewrite (bind_ok _ _ _ _ _ Hb). by eexists _, _.
  - rewrite (bind_ok _ _ _ _ _ Hb). by eexists _, _.
Qed.

Lemma prepare_dropdown_reuse s d D :
  res_dropdown s = Some d →
  dropdowns s !! d = Some D →
  resolve Factory_get (dropdown_cls (cfg s)) = Ok (Some (dd_class D)) →
  prepare_dropdown Factory_get s = (s, Ok (Some d)).
Proof.
  intros Hres HD Hc. unfold prepare_dropdown.
  rewrite bind_run. simpl. rewrite bind_run. unfold lift. rewrite Hc, Hres, HD.
  by rewrite bool_decide_true.
Qed.

Lemma start_returns s s' :
  setup (set_trace (trace s ++ [EStart]) s) = (s', Ok None) →
  start s = (s', Ok TFinished).
Proof.
  intros H. unfold start_main. rewrite bind_run. simpl.
  by rewrite (bind_ok _ _ _ _ _ H).
Qed.

(** C6, as the code has it.  With no dropdown class, or with no option
    class once the dropdown class has resolved, [_main] returns without
    raising and without entering its loop; the pool, the selection, the
    option widgets and the height handlers are as before.  Nothing at all
    has changed when it is the dropdown class that is missing or when the
    pooled dropdown is re-used; otherwise the dropdown constructed on the way
    stays in the store with its two forwarding setters bound. *)
Theorem abort_on_missing_class s :
  falsy (dropdown_cls (cfg s)) = true
  ∨ ((∃ c, resolve Factory_get (dropdown_cls (cfg s)) = Ok (Some c))
     ∧ (∀ d, res_dropdown s = Some d → is_Some (dropdowns s !! d))
     ∧ falsy (option_cls (cfg s)) = true) →
  let s0 := set_trace (trace s ++ [EStart]) s in
  ∃ s',
    start s = (s', Ok TFinished)
    ∧ main_task s' = main_task s
    ∧ selection s' = selection s
    ∧ res_dropdown s' = res_dropdown s
    ∧ res_option_widgets s' = res_option_widgets s
    ∧ bound_height s' = bound_height s
    ∧ widgets s' = widgets s
    ∧ (falsy (dropdown_cls (cfg s)) = true → s' = s0)
    ∧ (∀ d D, res_dropdown s = Some d → dropdowns s !! d = Some D →
         resolve Factory_get (dropdown_cls (cfg s)) = Ok (Some (dd_class D)) →
         s' = s0)
    ∧ (s' = s0
       ∨ (bound_spacing s' = bound_spacing s ++ [next_id s]
          ∧ bound_padding s' = bound_padding s ++ [next_id s]
          ∧ is_Some (dropdowns s' !! next_id s)
          ∧ trace s' = trace s ++ [EStart; ENewDropdown (next_id s);
                                   EBindForward (next_id s)])).
Proof.
  intros [Hdd | ((c & Hc) & Hpool & Hopt)] s0.
  - exists s0. split.
    { apply start_returns. by apply setup_without_dropdown_cls. }
    repeat split; try done. by left.
  - destruct (prepare_dropdown_ok s0 c Hc Hpool) as (s1 & d & Hprep).
    exists s1. split.
    { apply start_returns. by apply (setup_without_option_cls s0 s1 d). }
    assert (Hno : falsy (dropdown_cls (cfg s)) = true → s1 = s0).
    { intros Hf. rewrite (resolve_falsy _ Hf) in Hc. discriminate. }
    assert (Hreuse : ∀ d0 D, res_dropdown s = Some d0 → dropdowns s !! d0 = Some D →
              resolve Factory_get (dropdown_cls (cfg s)) = Ok (Some (dd_class D)) →
              s1 = s0).
    { intros d0 D Hres HD HcD.
      pose proof (prepare_dropdown_reuse s0 d0 D Hres HD HcD) as Hr.
      rewrite Hr in Hprep. by injection Hprep as <- _. }
    apply prepare_dropdown_inv in Hprep as [(-> & _ & _)|(c0 & Hb & Hd)].
    + repeat split; try done. by left.
    + destruct (build_dropdown_run c0 s0)
        as (sb & Hrun & _ & Hcl & _ & Hw & _ & Hbs & Hbp & Hbh & Hsel & Hrw & Hrd
            & Hmt & _ & Htr).
      rewrite Hrun in Hb. injection Hb as <- _.
      repeat split; try done. right.
      split; [exact Hbs|]. split; [exact Hbp|].
      split.
      { change (next_id s0) with (next_id s) in Hcl.
        destruct (dropdowns sb !! next_id s); [done|discriminate]. }
      rewrite Htr. simpl. by rewrite <- app_assoc.
Qed.

End Failures.

(** C6 as stated fails: a control with the default dropdown class and no
    option class.  Its first start returns without raising, and leaves a new
    dropdown whose two forwarding setters are bound on the control. *)
Lemma abort_leaves_forwarding_bound :
  ∃ s', _restart demo_factory accept_all no_option_cls = (s', Ok tt)
        ∧ main_task s' = TFinished
        ∧ bound_spacing no_option_cls = [] ∧ bound_padding no_option_cls = []
        ∧ bound_spacing s' = [0] ∧ bound_padding s' = [0]
        ∧ trace s' = [ECancel; EStart; ENewDropdown 0; EBindForward 0].
Proof.
  exists (_restart demo_factory accept_all no_option_cls).1.
  vm_compute. done.
Qed.

Lemma abort_on_missing_class_witness :
  ∃ s', start_main demo_factory accept_all no_option_cls = (s', Ok TFinished)
        ∧ selection s' = None ∧ res_dropdown s' = None.
Proof.
  assert (H : falsy (dropdown_cls (cfg no_option_cls)) = true
          ∨ ((∃ c, resolve demo_factory (dropdown_cls (cfg no_option_cls)) = Ok (Some c))
             ∧ (∀ d, res_dropdown no_option_cls = Some d →
                     is_Some (dropdowns no_option_cls !! d))
             ∧ falsy (option_cls (cfg no_option_cls)) = true)).
  { right. split; [by exists "DropDown"|]. split; [intros d; discriminate | reflexivity]. }
  destruct (abort_on_missing_class demo_factory accept_all no_option_cls H)
    as (s' & Hs & _ & Hsel & Hrd & _).
  exists s'. split; [exact Hs|]. split; [exact Hsel | exact Hrd].
Defined.

(** C5 as stated fails: after a first run on [[A; B]], the descriptors
    become [[A; bogus]].  The restart runs the cleanup of the first run,
    re-uses widget 1 and raises on widget 2; nothing of the [finally] block
    follows.  When the descriptors become [[A; B]] again, the restart runs no
    cleanup: widget 1 is still in the dropdown and adding it raises. *)
Lemma aborted_setup_is_never_cleaned_up :
  (tick demo_factory text_only
     (mutate (SetOptionData [opt_A; opt_bogus]) strict_live)).2
  = Raise (AttributeError 2 "bogus")
  ∧ drop (length (trace strict_live)) (trace strict_aborted)
    = [ECancel; EUnbindSelect 0; EStorePool 0 [1; 2]; EClearWidgets 0;
       ERealDismiss 0; EStart; ESetattr 1 "text" (VStr "A"); EBindRelease 1 0;
       EAddWidget 0 1; ESetattr 2 "text" (VStr "B")]
  ∧ children_of 0 strict_aborted = [1]
  ∧ main_task strict_aborted = TFinished
  ∧ (tick demo_factory text_only
       (mutate (SetOptionData [opt_A; opt_B]) strict_aborted)).2
    = Raise (WidgetException 1)
  ∧ drop (length (trace strict_aborted)) (trace strict_retried)
    = [ECancel; EStart; ESetattr 1 "text" (VStr "A"); EBindRelease 1 0]
  ∧ children_of 0 strict_retried = [1].
Proof. vm_compute. done. Qed.

Lemma setattr_failure_skips_cleanup_witness :
  cancel strict_aborted = set_trace (trace strict_aborted ++ [ECancel]) strict_aborted.
Proof.
  assert (H : _restart demo_factory text_only
                (set_triggered false (mutate (SetOptionData [opt_A; opt_bogus]) strict_live))
              = (strict_aborted, Raise (AttributeError 2 "bogus")))
    by (vm_compute; reflexivity).
  exact (proj1 (proj2 (proj2 (setattr_failure_skips_cleanup demo_factory text_only
                                 _ _ _ _ H)))).
Defined.

(** * The bindings of a run *)

Lemma remove_first_app_fresh {A : Type} `{EqDecision A} (x : A) (l : list A) :
  x ∉ l → remove_first x (l ++ [x]) = l.
Proof.
  induction l as [|y l IH]; simpl; intros Hx.
  - by rewrite decide_True.
  - rewrite decide_False by (intros ->; apply Hx; by left).
    f_equal. apply IH. intros H. apply Hx. by right.
Qed.

Lemma on_select_of_dropdowns d s s' :
  dropdowns s' = dropdowns s → on_select_of d s' = on_select_of d s.
Proof. unfold on_select_of. by intros ->. Qed.

Lemma on_select_of_alter d d' f s s' :
  dropdowns s' = alter f d' (dropdowns s) →
  (∀ D, dd_on_select (f D) = dd_on_select D) →
  on_select_of d s' = on_select_of d s.
Proof.
  intros H Hf. unfold on_select_of. rewrite H, lookup_alter.
  case_decide as Hd; [|done]. subst d'.
  destruct (dropdowns s !! d); simpl; [apply Hf | done].
Qed.

Lemma cleanup_dropdowns d sh s :
  dropdowns (cleanup d sh s)
  = alter (set_dd_attached false) d
      (alter (set_dd_children []) d
         (alter (λ D, set_dd_on_select (pred (dd_on_select D)) D) d (dropdowns s))).
Proof.
  unfold cleanup, real_dismiss, clear_widgets, upd_dropdown.
  change (dropdowns (set_trace ?t ?x)) with (dropdowns x).
  change (dropdowns (set_dropdowns ?m ?x)) with m.
  change (dropdowns (set_trace ?t ?x)) with (dropdowns x).
  change (dropdowns (set_dropdowns ?m ?x)) with m.
  rewrite foldr_upd_widget_dropdowns.
  destruct sh; reflexivity.
Qed.

Lemma cleanup_on_select d sh s :
  on_select_of d (cleanup d sh s) = pred (on_select_of d s).
Proof.
  unfold on_select_of. rewrite cleanup_dropdowns, !lookup_alter_eq.
  by destruct (dropdowns s !! d).
Qed.

Lemma cleanup_dropdowns_dom d sh s d' :
  is_Some (dropdowns (cleanup d sh s) !! d') ↔ is_Some (dropdowns s !! d').
Proof.
  by rewrite cleanup_dropdowns, !lookup_alter_is_Some.
Qed.

#[global] Instance same_bindings_preorder : PreOrder same_bindings.
Proof.
  split.
  - intros s. by split.
  - intros s1 s2 s3 H1 H2. split;
      try (intros d; etrans; [| apply H1]; apply H2);
      (etrans; [apply H2 | apply H1]).
Qed.

Lemma released_same_bindings s : same_bindings s (released s).
Proof.
  unfold released. destruct (main_task s) as [| |d sh|d sh]; try reflexivity.
  split; try done.
  - intros d'. apply (on_select_of_alter d' d (set_dd_attached true) s); done.
  - intros d'. apply (children_of_upd_dropdown d' d (set_dd_attached true) s). done.
Qed.

Lemma dismissed_same_bindings d s : same_bindings s (dismissed d s).
Proof.
  unfold dismissed. destruct (main_task s) as [| |d' sh|d' sh]; try reflexivity.
  case_bool_decide; [|reflexivity]. by split.
Qed.

Lemma parked_after_spec n opened d sh s :
  main_task s = TAwaitRelease d sh →
  live_on (parked_after n opened d s) d sh
  ∧ same_bindings s (parked_after n opened d s).
Proof.
  intros H. unfold parked_after.
  assert (Hn : main_task (Nat.iter n (cycle d) s) = TAwaitRelease d sh
               ∧ same_bindings s (Nat.iter n (cycle d) s)).
  { induction n as [|n [IH1 IH2]]; simpl; [done|].
    split; [by apply cycle_awaiting|].
    etrans; [exact IH2|]. unfold cycle.
    etrans; [apply released_same_bindings | apply dismissed_same_bindings]. }
  destruct Hn as [Ht Hb]. destruct opened.
  - split.
    + right. rewrite (released_awaiting _ _ _ Ht). done.
    + etrans; [exact Hb | apply released_same_bindings].
  - split; [by left | done].
Qed.

(** What the cleanup of a parked run does to the bindings. *)
Lemma cancel_live_bindings s d sh :
  live_on s d sh →
  on_select_of d (cancel s) = pred (on_select_of d s)
  ∧ bound_height (cancel s)
    = match sh with
      | Some h => remove_first h (bound_height s)
      | None => bound_height s
      end
  ∧ bound_spacing (cancel s) = bound_spacing s
  ∧ bound_padding (cancel s) = bound_padding s
  ∧ main_task (cancel s) = TFinished.
Proof.
  intros Hlive. rewrite (cancel_live s d sh Hlive).
  pose proof (cleanup_cleaned d sh (set_trace (trace s ++ [ECancel]) s)) as Hcl.
  pose proof (cleanup_on_select d sh (set_trace (trace s ++ [ECancel]) s)) as Hco.
  revert Hcl Hco. generalize (cleanup d sh (set_trace (trace s ++ [ECancel]) s)).
  intros c [_ _ _ Hcs Hcp Hch _ _ _ _ _ _] Hco.
  split; [exact Hco|]. split; [exact Hch|]. split; [exact Hcs|].
  split; [exact Hcp | reflexivity].
Qed.

Section RunBindings.
Variable Factory_get : string → option class_id.
Variable setattr_ok : class_id → string → value → bool.

Local Abbreviation setup := (main_setup Factory_get setattr_ok).
Local Abbreviation start := (start_main Factory_get setattr_ok).

(** A start that reaches the loop: the setup went through and line 144 bound
    [on_select]. *)
Lemma start_inv s s1 d sh :
  start s = (s1, Ok (TAwaitRelease d sh)) →
  ∃ sp f, setup (set_trace (trace s ++ [EStart]) s) = (sp, Ok (Some f))
          ∧ f_dd f = d ∧ f_sync_height f = sh
          ∧ s1 = set_trace (trace sp ++ [EBindSelect d])
                   (upd_dropdown d (λ D, set_dd_on_select (S (dd_on_select D)) D) sp).
Proof.
  unfold start_main. rewrite bind_run. simpl. rewrite bind_run.
  destruct (setup _) as [sp [[f|]|e]]; try discriminate.
  intros H. exists sp, f. split; [done|].
  rewrite !bind_run in H. simpl in H. injection H as <- <- <-. done.
Qed.

(** What the setup does to the bindings of the control and of its dropdown. *)
Lemma setup_bindings s sp f :
  (∀ d, is_Some (dropdowns s !! d) → d < next_id s) →
  setup s = (sp, Ok (Some f)) →
  on_select_of (f_dd f) sp = on_select_of (f_dd f) s
  ∧ is_Some (dropdowns sp !! f_dd f)
  ∧ ∃ i, next_id s ≤ i
         ∧ bound_height sp
           = bound_height s ++ match f_sync_height f with Some h => [h] | None => [] end
         ∧ ∀ h, f_sync_height f = Some h → h_id h = i.
Proof.
  intros Hwf H.
  apply main_setup_inv in H
    as (sA & c & src & sB & sC & Hprep & Hc & Hsrc & Hpop & Hsh & Hpol).
  pose proof (prepare_dropdown_build (same_on bound_height) Factory_get s) as HA.
  pose proof (sf_next_id _ _ (prepare_dropdown_frame Factory_get s)) as NA.
  rewrite Hprep in HA, NA. unfold same_on in HA. simpl in HA, NA.
  pose proof (populate_build (same_on bound_height) setattr_ok c (f_dd f) src
                (option_data (cfg sA)) sA) as HB.
  pose proof (sf_next_id _ _ (populate_frame setattr_ok c (f_dd f) src
                                (option_data (cfg sA)) sA)) as NB.
  rewrite Hpop in HB, NB. unfold same_on in HB. simpl in HB, NB.
  assert (HdA : on_select_of (f_dd f) sA = on_select_of (f_dd f) s
                ∧ is_Some (dropdowns sA !! f_dd f)).
  { apply prepare_dropdown_inv in Hprep as [(-> & _ & Hsome)|(c0 & Hb & Hd)]; [done|].
    destruct (build_dropdown_run c0 s)
      as (sb & Hrun & _ & _ & _ & _ & _ & _ & _ & _ & _ & _ & _ & _ & Hos & _).
    rewrite Hrun in Hb. injection Hb as <- _. rewrite Hd.
    unfold on_select_of.
    destruct (dropdowns sb !! next_id s) as [D|]; [|discriminate].
    injection Hos as ->. split; [|done].
    destruct (dropdowns s !! next_id s) as [D0|] eqn:E; [|done].
    pose proof (Hwf (next_id s) ltac:(by rewrite E)). lia. }
  destruct HdA as [HoA HsA].
  apply populate_inv in Hpop as [HdB _].
  pose proof (on_select_of_alter (f_dd f) _ _ _ _ HdB ltac:(done)) as HoB.
  assert (HsB : is_Some (dropdowns sB !! f_dd f))
    by (by rewrite HdB, lookup_alter_is_Some).
  destruct (setup_sync_height_run (f_dd f) sB)
    as (sC' & sh' & Hrun & HdC & _ & _ & _ & _ & _ & Hh).
  rewrite Hrun in Hsh. injection Hsh as -> ->.
  pose proof (select_policy_inv _ _ _ Hpol) as (Hdp & _ & _ & _ & Hhp).
  split; [|split].
  - rewrite (on_select_of_dropdowns _ _ _ Hdp), (on_select_of_dropdowns _ _ _ HdC).
    congruence.
  - by rewrite Hdp, HdC.
  - exists (next_id sB). split; [lia|]. rewrite Hhp.
    destruct (sync_height (cfg sB)).
    + destruct Hh as [-> ->]. split; [congruence|]. by intros h [= <-].
    + destruct Hh as [-> ->]. split; [by rewrite app_nil_r; congruence | done].
Qed.

(** C4, as the code has it, for a run whose setup completes and which parks
    in the loop.  Starting it binds [on_select] on the dropdown once and,
    when height synchronisation is on, one height handler; of the bindings
    the run made, its cleanup releases these two, after any number of
    rounds of the loop: the [on_select] count and the height handlers are
    then what they were before the start.  The cleanup leaves the two lists
    of forwarding setters as they are: the setters stay bound. *)
Theorem cleanup_releases_select_and_height s0 s1 d sh n opened :
  wf_ids s0 →
  start s0 = (s1, Ok (TAwaitRelease d sh)) →
  let parked := parked_after n opened d (set_main_task (TAwaitRelease d sh) s1) in
  let s2 := cancel parked in
  on_select_of d s1 = S (on_select_of d s0)
  ∧ on_select_of d s2 = on_select_of d s0
  ∧ bound_height s1
    = bound_height s0 ++ match sh with Some h => [h] | None => [] end
  ∧ bound_height s2 = bound_height s0
  ∧ bound_spacing s2 = bound_spacing s1
  ∧ bound_padding s2 = bound_padding s1
  ∧ main_task s2 = TFinished.
Proof.
  intros [Hwd Hwh] Hstart. cbv zeta.
  apply start_inv in Hstart as (sp & f & Hsetup & <- & <- & Hs1).
  destruct (setup_bindings (set_trace (trace s0 ++ [EStart]) s0) sp f Hwd Hsetup)
    as (Hos & Hsome & i & Hi & Hbh & Hid).
  change (on_select_of (f_dd f) (set_trace (trace s0 ++ [EStart]) s0))
    with (on_select_of (f_dd f) s0) in Hos.
  change (bound_height (set_trace (trace s0 ++ [EStart]) s0))
    with (bound_height s0) in Hbh.
  change (next_id (set_trace (trace s0 ++ [EStart]) s0)) with (next_id s0) in Hi.
  assert (Hos1 : on_select_of (f_dd f) s1 = S (on_select_of (f_dd f) s0)).
  { rewrite <- Hos. rewrite Hs1. unfold on_select_of, upd_dropdown.
    change (dropdowns (set_trace ?t ?x)) with (dropdowns x).
    change (dropdowns (set_dropdowns ?m ?x)) with m.
    rewrite lookup_alter_eq. destruct Hsome as [D ->]. done. }
  assert (Hbh1 : bound_height s1 = bound_height sp) by (by rewrite Hs1).
  clear Hs1 Hsetup.
  destruct (parked_after_spec n opened (f_dd f) (f_sync_height f)
              (set_main_task (TAwaitRelease (f_dd f) (f_sync_height f)) s1) eq_refl)
    as [Hlive Hsame].
  revert Hlive Hsame. generalize (parked_after n opened (f_dd f)
    (set_main_task (TAwaitRelease (f_dd f) (f_sync_height f)) s1)).
  intros parked Hlive [Hss Hsp Hsh Hso _ _].
  destruct (cancel_live_bindings parked _ _ Hlive) as (Hco & Hch & Hcs & Hcp & Hct).
  specialize (Hso (f_dd f)).
  change (bound_spacing (set_main_task ?t s1)) with (bound_spacing s1) in Hss.
  change (bound_padding (set_main_task ?t s1)) with (bound_padding s1) in Hsp.
  change (bound_height (set_main_task ?t s1)) with (bound_height s1) in Hsh.
  change (on_select_of (f_dd f) (set_main_task ?t s1))
    with (on_select_of (f_dd f) s1) in Hso.
  split; [exact Hos1|].
  split; [rewrite Hco, Hso, Hos1; done|].
  split; [by rewrite Hbh1|].
  split.
  { rewrite Hch, Hsh, Hbh1, Hbh.
    destruct (f_sync_height f) as [h|]; [|by rewrite app_nil_r].
    apply remove_first_app_fresh. intros Hin.
    pose proof (Hwh h Hin). pose proof (Hid h eq_refl). lia. }
  split; [by rewrite Hcs, Hss|].
  split; [by rewrite Hcp, Hsp|].
  exact Hct.
Qed.

End RunBindings.

Lemma wf_ids_init c : wf_ids (init c).
Proof.
  split.
  - intros d [D HD]. simpl in HD. by rewrite lookup_empty in HD.
  - intros h Hh. by apply elem_of_nil in Hh.
Qed.

(** C4 as stated fails: the forwarding setters bound by the first run of
    the scenario, and the release handler bound on its widgets, are still
    there when the run has been cancelled and its cleanup is over. *)
Lemma forwarding_outlives_run :
  bound_spacing (init default_config) = []
  ∧ bound_spacing demo_live = [0]
  ∧ main_task (cancel demo_live) = TFinished
  ∧ bound_spacing (cancel demo_live) = [0]
  ∧ bound_padding (cancel demo_live) = [0]
  ∧ (w_on_release <$> widgets (cancel demo_live) !! 1) = Some [0].
Proof. vm_compute. done. Qed.

Lemma cleanup_releases_select_and_height_witness :
  ∃ s1,
    start_main demo_factory accept_all
      (init (set_sync_height true (demo_cfg None)))
    = (s1, Ok (TAwaitRelease 0 (Some {| h_id := 5; h_dd := 0 |})))
    ∧ bound_height s1 = [{| h_id := 5; h_dd := 0 |}]
    ∧ bound_height
        (cancel (parked_after 2 true 0
                   (set_main_task (TAwaitRelease 0 (Some {| h_id := 5; h_dd := 0 |})) s1)))
      = [].
Proof.
  exists (start_main demo_factory accept_all
            (init (set_sync_height true (demo_cfg None)))).1.
  assert (H : start_main demo_factory accept_all
                (init (set_sync_height true (demo_cfg None)))
              = ((start_main demo_factory accept_all
                    (init (set_sync_height true (demo_cfg None)))).1,
                 Ok (TAwaitRelease 0 (Some {| h_id := 5; h_dd := 0 |}))))
    by (vm_compute; reflexivity).
  split; [exact H|].
  destruct (cleanup_releases_select_and_height demo_factory accept_all _ _ _ _ 2 true
              (wf_ids_init _) H) as (_ & _ & H1 & H2 & _).
  split; [exact H1 | exact H2].
Defined.

(** * Re-use of the pooled widgets *)

#[global] Instance keeps_class_preorder c : PreOrder (keeps_class c).
Proof. split; [by intros s w | intros s1 s2 s3 H1 H2 w Hw; by apply H2, H1]. Qed.

Lemma keeps_class_widgets c s s' :
  widgets s' = widgets s → keeps_class c s s'.
Proof. intros H w. unfold class_of. by rewrite H. Qed.

Lemma keeps_class_alter c s s' w f :
  widgets s' = alter f w (widgets s) →
  (∀ W, w_class (f W) = w_class W) →
  keeps_class c s s'.
Proof.
  intros H Hf w'. unfold class_of. rewrite H, lookup_alter.
  case_decide as Hw; [|done]. subst w'.
  destruct (widgets s !! w); simpl; [by rewrite Hf | done].
Qed.

Lemma foldr_alter_lookup {A : Type} (f : A → A) (l : list nat) (m : gmap nat A) k :
  (∀ x, f (f x) = f x) →
  foldr (λ i, alter f i) m l !! k
  = if bool_decide (k ∈ l) then f <$> m !! k else m !! k.
Proof.
  intros Hf. induction l as [|a l IH]; [done|]. simpl.
  rewrite lookup_alter.
  destruct (decide (a = k)) as [->|Hne].
  - rewrite (bool_decide_true (k ∈ k :: l)) by (by left).
    rewrite IH. case_bool_decide; [|done].
    destruct (m !! k); simpl; by rewrite ?Hf.
  - rewrite IH. rewrite (bool_decide_ext (k ∈ a :: l) (k ∈ l)); [done|].
    rewrite elem_of_cons. split; [intros [?|?]; [congruence|done] | by right].
Qed.

Lemma foldr_upd_widget_widgets (f : option_widget → option_widget) l s :
  widgets (foldr (λ w, upd_widget w f) s l) = foldr (λ w, alter f w) (widgets s) l.
Proof. induction l as [|a l IH]; [done|]. simpl. by rewrite IH. Qed.

(** The widgets after the cleanup: the children of the dropdown have lost
    their parent, nothing else has changed. *)
Lemma cleanup_widgets d sh s w :
  widgets (cleanup d sh s) !! w
  = if bool_decide (w ∈ children_of d s)
    then set_w_parent None <$> widgets s !! w else widgets s !! w.
Proof.
  unfold cleanup, real_dismiss, clear_widgets, upd_dropdown.
  change (widgets (set_trace ?t ?x)) with (widgets x).
  change (widgets (set_dropdowns ?m ?x)) with (widgets x).
  change (widgets (set_trace ?t ?x)) with (widgets x).
  change (widgets (set_dropdowns ?m ?x)) with (widgets x).
  rewrite foldr_upd_widget_widgets.
  rewrite foldr_alter_lookup by done.
  destruct sh; simpl; unfold children_of; simpl;
    rewrite lookup_alter_eq; by destruct (dropdowns s !! d).
Qed.

Section Populate.
Variable setattr_ok : class_id → string → value → bool.

Lemma setattr_run w name v s W :
  widgets s !! w = Some W →
  setattr_ok (w_class W) name v = true →
  ∃ s', setattr_ setattr_ok w name v s = (s', Ok tt)
        ∧ widgets s' = alter (λ W, set_w_attrs (<[name := v]> (w_attrs W)) W) w (widgets s)
        ∧ next_id s' = next_id s.
Proof.
  intros HW Hok. unfold setattr_. rewrite bind_run. simpl. rewrite HW, Hok.
  eexists. split; [reflexivity|]. done.
Qed.

(** Lines 118-119 go through on a widget that accepts the fields. *)
Lemma apply_props_ok w props s W :
  widgets s !! w = Some W →
  (∀ name v, (name, v) ∈ props → setattr_ok (w_class W) name v = true) →
  ∃ s' W', apply_props setattr_ok w props s = (s', Ok tt)
           ∧ widgets s' !! w = Some W'
           ∧ w_class W' = w_class W ∧ w_parent W' = w_parent W
           ∧ (∀ w', w' ≠ w → widgets s' !! w' = widgets s !! w')
           ∧ next_id s' = next_id s.
Proof.
  revert s W. induction props as [|[name v] props IH]; intros s W HW Hok; simpl.
  - exists s, W. done.
  - destruct (setattr_run w name v s W HW) as (s1 & Hrun & Hw1 & Hn1).
    { apply Hok. by left. }
    assert (HW1 : widgets s1 !! w
                  = Some (set_w_attrs (<[name := v]> (w_attrs W)) W))
      by (by rewrite Hw1, lookup_alter_eq, HW).
    destruct (IH s1 _ HW1) as (s' & W' & Hrun' & HW' & Hc & Hp & Hother & Hn').
    { intros n0 v0 Hin. apply Hok. by right. }
    exists s', W'. rewrite (bind_ok _ _ _ _ _ Hrun).
    repeat split; try done; try congruence.
    intros w' Hne. rewrite (Hother w' Hne), Hw1. by rewrite lookup_alter_ne.
Qed.

(** The body of the loop on an addable widget. *)
Lemma populate_step_ok c d w props s :
  addable c s w →
  (∀ name v, (name, v) ∈ props → setattr_ok c name v = true) →
  ∃ s',
    (∀ (B : Type) (k : M B),
       (apply_props setattr_ok w props;; bind_release w d;; add_widget d w;; k) s
       = k s')
    ∧ class_of s' w = Some c
    ∧ (∀ w', w' ≠ w → widgets s' !! w' = widgets s !! w')
    ∧ next_id s' = next_id s.
Proof.
  intros (W & HW & Hc & Hp) Hok.
  destruct (apply_props_ok w props s W HW) as (s1 & W1 & Hrun1 & HW1 & Hc1 & Hp1 & Ho1 & Hn1).
  { by rewrite Hc. }
  destruct (bind_release_run w d s1) as (s2 & Hrun2 & _ & Hw2 & Hn2).
  assert (HW2 : widgets s2 !! w = Some (set_w_on_release (w_on_release W1 ++ [d]) W1))
    by (by rewrite Hw2, lookup_alter_eq, HW1).
  assert (Hrun3 : ∃ s3, add_widget d w s2 = (s3, Ok tt)
                        ∧ widgets s3 = alter (set_w_parent (Some d)) w (widgets s2)
                        ∧ next_id s3 = next_id s2).
  { unfold add_widget. rewrite bind_run. simpl. rewrite HW2. simpl. rewrite Hp1, Hp.
    eexists. split; [reflexivity|]. done. }
  destruct Hrun3 as (s3 & Hrun3 & Hw3 & Hn3).
  exists s3. split.
  { intros B k. rewrite (bind_ok _ _ _ _ _ Hrun1). rewrite (bind_ok _ _ _ _ _ Hrun2).
    by rewrite (bind_ok _ _ _ _ _ Hrun3). }
  split.
  { unfold class_of. rewrite Hw3, lookup_alter_eq, HW2. simpl. congruence. }
  split; [|congruence].
  intros w' Hne. rewrite Hw3, lookup_alter_ne by done.
  rewrite Hw2, lookup_alter_ne by done. by apply Ho1.
Qed.

Lemma new_widget_keeps_class c : preserves (keeps_class c) (new_widget c).
Proof.
  intros s. destruct (new_widget_run c s) as (s' & Hrun & _ & Hw & _).
  rewrite Hrun. simpl. intros w. unfold class_of. rewrite Hw.
  destruct (decide (w = next_id s)) as [->|Hne].
  - by rewrite lookup_insert_eq.
  - by rewrite lookup_insert_ne.
Qed.

Ltac class_modify :=
  first [ by apply keeps_class_widgets
        | by (eapply keeps_class_alter; [reflexivity | done]) ].

Ltac class_auto lemmas :=
  repeat first [ preserves_step | lemmas | class_modify ].

Lemma log_keeps_class c e : preserves (keeps_class c) (log e).
Proof. unfold log. class_auto fail. Qed.

Lemma setattr_keeps_class c w name v :
  preserves (keeps_class c) (setattr_ setattr_ok w name v).
Proof.
  unfold setattr_. class_auto ltac:(apply log_keeps_class).
Qed.

Lemma apply_props_keeps_class c w props :
  preserves (keeps_class c) (apply_props setattr_ok w props).
Proof.
  induction props as [|[name v] props IH]; simpl.
  - class_auto fail.
  - class_auto ltac:(first [apply setattr_keeps_class | apply IH]).
Qed.

Lemma bind_release_keeps_class c w d : preserves (keeps_class c) (bind_release w d).
Proof. unfold bind_release. class_auto ltac:(apply log_keeps_class). Qed.

Lemma add_widget_keeps_class c d w : preserves (keeps_class c) (add_widget d w).
Proof. unfold add_widget. class_auto ltac:(apply log_keeps_class). Qed.

Lemma next_widget_keeps_class c src : preserves (keeps_class c) (next_widget c src).
Proof. unfold next_widget. class_auto ltac:(apply new_widget_keeps_class). Qed.

Lemma populate_keeps_class c d src data :
  preserves (keeps_class c) (populate setattr_ok c d src data).
Proof.
  revert src. induction data as [|props data IH]; intros src; simpl.
  - class_auto ltac:(apply next_widget_keeps_class).
  - class_auto ltac:(first [ apply next_widget_keeps_class
                           | apply apply_props_keeps_class
                           | apply bind_release_keeps_class
                           | apply add_widget_keeps_class | apply IH ]).
Qed.

(** Lines 117-121 go through when the pooled widgets are addable and the
    descriptors accepted: the loop runs on the pooled widgets first, in
    order, and then on new ones. *)
Lemma populate_ok c d src data s :
  NoDup src →
  (∀ w, w ∈ src → addable c s w) →
  accepted setattr_ok c data →
  ∃ s' ws,
    populate setattr_ok c d src data s = (s', Ok ws)
    ∧ ws = take (length data) src ++ seq (next_id s) (length data - length src)
    ∧ (∀ w, w ∈ ws → class_of s' w = Some c).
Proof.
  revert src s. induction data as [|props data IH]; intros src s Hnd Hsrc Hacc.
  - simpl. destruct src as [|w src]; simpl.
    + destruct (new_widget_run c s) as (s1 & Hrun & _).
      exists s1, []. rewrite (bind_ok _ _ _ _ _ (bind_ok _ _ _ _ _ Hrun)).
      split; [done|]. split; [done|]. intros w Hw. by apply elem_of_nil in Hw.
    + exists s, []. split; [done|]. split; [done|].
      intros w0 Hw. by apply elem_of_nil in Hw.
  - assert (Hprops : ∀ name v, (name, v) ∈ props → setattr_ok c name v = true).
    { intros name v Hin. apply (Hacc props name v); [by left | done]. }
    assert (Hacc' : accepted setattr_ok c data).
    { intros p name v Hp Hin. apply (Hacc p name v); [by right | done]. }
    assert (Hnext : ∃ s1 w src',
              next_widget c src s = (s1, Ok (w, src'))
              ∧ addable c s1 w ∧ NoDup src'
              ∧ (∀ w', w' ∈ src' → addable c s1 w' ∧ w' ≠ w)
              ∧ w :: take (length data) src'
                  ++ seq (next_id s1) (length data - length src')
                = take (S (length data)) src
                  ++ seq (next_id s) (S (length data) - length src)).
    { destruct src as [|w src'].
      - destruct (new_widget_run c s) as (s1 & Hrun & _ & Hw & Hn).
        exists s1, (next_id s), []. split.
        { simpl. by rewrite (bind_ok _ _ _ _ _ Hrun). }
        split.
        { eexists. rewrite Hw, lookup_insert_eq. done. }
        split; [constructor|]. split.
        { intros w' Hw'. by apply elem_of_nil in Hw'. }
        rewrite Hn, !take_nil. simpl length. rewrite !Nat.sub_0_r. done.
      - exists s, w, src'. split; [done|].
        apply NoDup_cons in Hnd as [Hnotin Hnd'].
        split; [apply Hsrc; by left|]. split; [done|]. split; [|done].
        intros w' Hw'. split; [apply Hsrc; by right|].
        intros ->. done. }
    destruct Hnext as (s1 & w & src' & Hrun1 & Hadd & Hnd' & Hsrc' & Hws).
    destruct (populate_step_ok c d w props s1 Hadd Hprops)
      as (s2 & Hrun2 & Hcls & Hother & Hn2).
    destruct (IH src' s2 Hnd') as (s' & ws & Hrun3 & Hws' & Hcls'); [|done|].
    { intros w' Hw'. destruct (Hsrc' w' Hw') as [(W & HW & Hc & Hp) Hne].
      exists W. by rewrite (Hother w' Hne). }
    exists s', (w :: ws). split.
    { simpl. rewrite (bind_ok _ _ _ _ _ Hrun1). simpl. rewrite Hrun2.
      by rewrite (bind_ok _ _ _ _ _ Hrun3). }
    split.
    { rewrite Hws', Hn2. exact Hws. }
    intros w0 [->|Hin]%elem_of_cons; [|by apply Hcls'].
    pose proof (populate_keeps_class c d src' data s2) as Hk.
    rewrite Hrun3 in Hk. by apply Hk.
Qed.

End Populate.

Lemma sync_height_keeps_class c d h s : keeps_class c s (_sync_height d h s).
Proof.
  unfold _sync_height.
  etrans; [|by apply keeps_class_widgets].
  apply (foldr_rel (A:=nat) (keeps_class c)). intros w s0.
  by eapply keeps_class_alter; [reflexivity|].
Qed.

Lemma setup_sync_height_keeps_class c d :
  preserves (keeps_class c) (setup_sync_height d).
Proof.
  assert (Hfresh : preserves (keeps_class c) fresh).
  { intros s. by apply keeps_class_widgets. }
  unfold setup_sync_height.
  repeat first [ preserves_step
               | apply Hfresh
               | apply log_keeps_class
               | apply sync_height_keeps_class
               | by apply keeps_class_widgets ].
Qed.

(** Lines 132-140 go through when [auto_select] is not negative. *)
Lemma select_policy_ok d s :
  (∀ a, auto_select (cfg s) = Some a → (0 ≤ a)%Z) →
  ∃ s', select_policy d s = (s', Ok tt)
        ∧ dropdowns s' = dropdowns s ∧ widgets s' = widgets s.
Proof.
  intros Hauto. unfold select_policy. rewrite bind_run. simpl.
  destruct (match selection s with Some w => _ | None => _ end).
  { by exists s. }
  destruct (auto_select (cfg s)) as [a|] eqn:Ha; [|by eexists].
  destruct (Z.leb_spec (Z.of_nat (length (children_of d s))) a) as [Hge|Hlt];
    [by eexists|].
  pose proof (Hauto a eq_refl) as H0.
  rewrite py_index_from_end by lia.
  destruct (children_of d s !! _) as [w|] eqn:Hw; [by eexists|].
  apply lookup_ge_None in Hw. lia.
Qed.

Section PoolReuse.
Variable Factory_get : string → option class_id.
Variable setattr_ok : class_id → string → value → bool.

Local Abbreviation setup := (main_setup Factory_get setattr_ok).
Local Abbreviation start := (start_main Factory_get setattr_ok).
Local Abbreviation restart := (_restart Factory_get setattr_ok).

Lemma start_run s sp f :
  setup (set_trace (trace s ++ [EStart]) s) = (sp, Ok (Some f)) →
  start s = (set_trace (trace sp ++ [EBindSelect (f_dd f)])
               (upd_dropdown (f_dd f) (λ D, set_dd_on_select (S (dd_on_select D)) D) sp),
             Ok (TAwaitRelease (f_dd f) (f_sync_height f))).
Proof.
  intros H. unfold start_main. rewrite bind_run. simpl.
  by rewrite (bind_ok _ _ _ _ _ H).
Qed.

(** The setup on a pool as the cleanup leaves it: a pooled dropdown that is
    in the store and empty, pooled widgets of one class that are addable. *)
Lemma setup_on_clean_pool s pool c0 c cd :
  (∀ d, res_dropdown s = Some d →
        is_Some (dropdowns s !! d) ∧ children_of d s = []) →
  res_option_widgets s = Some pool →
  pool ≠ [] →
  NoDup pool →
  (∀ w, w ∈ pool → addable c0 s w) →
  resolve Factory_get (dropdown_cls (cfg s)) = Ok (Some cd) →
  resolve Factory_get (option_cls (cfg s)) = Ok (Some c) →
  accepted setattr_ok c (option_data (cfg s)) →
  (∀ a, auto_select (cfg s) = Some a → (0 ≤ a)%Z) →
  ∃ sp f i,
    setup s = (sp, Ok (Some f))
    ∧ children_of (f_dd f) sp = rev (f_widgets f)
    ∧ next_id s ≤ i
    ∧ f_widgets f
      = (let src := if bool_decide (c0 = c) then pool else [] in
         take (length (option_data (cfg s))) src
           ++ seq i (length (option_data (cfg s)) - length src))
    ∧ (∀ w, w ∈ f_widgets f → class_of sp w = Some c).
Proof.
  intros Hdd Hres Hne Hnd Hadd Hcd Hc Hacc Hauto.
  destruct (prepare_dropdown_ok Factory_get s cd Hcd) as (sA & d & Hprep).
  { intros d0 Hd0. by apply Hdd. }
  pose proof (prepare_dropdown_frame Factory_get s) as FA.
  rewrite Hprep in FA. simpl in FA. destruct FA as [HcfgA _ _ HresA _ HnA _].
  assert (HA : widgets sA = widgets s ∧ children_of d sA = []
               ∧ is_Some (dropdowns sA !! d)).
  { pose proof Hprep as Hinv.
    apply prepare_dropdown_inv in Hinv as [(-> & Hrd & Hsome)|(c1 & Hb & Hd)].
    - split; [done|]. split; [by apply Hdd | done].
    - destruct (build_dropdown_run c1 s) as (sb & Hrun & Hch & Hcl & _ & Hw & _).
      rewrite Hrun in Hb. injection Hb as <- _. rewrite Hd.
      split; [done|]. split; [done|].
      destruct (dropdowns sb !! next_id s); [done | discriminate]. }
  destruct HA as (HwA & HchA & HsomeA).
  set (src := if bool_decide (c0 = c) then pool else []).
  assert (Hsrc : widget_source c sA = (sA, Ok src)).
  { unfold widget_source. rewrite bind_run. simpl. rewrite HresA, Hres.
    destruct pool as [|w0 ws]; [done|].
    destruct (Hadd w0 ltac:(by left)) as (W & HW & HcW & _).
    rewrite HwA, HW, HcW. subst src. by case_bool_decide. }
  assert (Hsrc_ok : NoDup src ∧ ∀ w, w ∈ src → addable c sA w).
  { subst src. case_bool_decide as Hcc.
    - split; [done|]. intros w Hw. destruct (Hadd w Hw) as (W & HW & HcW & Hp).
      exists W. rewrite HwA. by subst.
    - split; [constructor|]. intros w Hw. by apply elem_of_nil in Hw. }
  destruct Hsrc_ok as [Hnd' Hadd'].
  destruct (populate_ok setattr_ok c d src (option_data (cfg sA)) sA Hnd' Hadd')
    as (sB & ws & Hpop & Hws & Hcls).
  { by rewrite HcfgA. }
  pose proof (populate_inv _ _ _ _ _ _ _ _ Hpop) as [HdB _].
  pose proof (children_of_populated _ _ _ _ HdB HsomeA) as HchB.
  rewrite HchA, app_nil_r in HchB.
  pose proof (sf_cfg _ _ (populate_frame setattr_ok c d src (option_data (cfg sA)) sA))
    as HcfgB.
  rewrite Hpop in HcfgB. simpl in HcfgB.
  destruct (setup_sync_height_run d sB)
    as (sC & sh & Hsh & HdC & _ & HcfgC & _).
  pose proof (setup_sync_height_keeps_class c d sB) as HkC.
  rewrite Hsh in HkC. simpl in HkC.
  destruct (select_policy_ok d sC) as (sp & Hpol & Hdp & Hwp).
  { intros a Ha. apply Hauto. by rewrite <- HcfgA, <- HcfgB, <- HcfgC. }
  exists sp, {| f_dd := d; f_sync_height := sh; f_widgets := ws |}, (next_id sA).
  split.
  { unfold main_setup. rewrite (bind_ok _ _ _ _ _ Hprep).
    rewrite bind_run. simpl. rewrite bind_run. unfold lift. rewrite HcfgA, Hc.
    rewrite (bind_ok _ _ _ _ _ Hsrc). rewrite bind_run. simpl.
    rewrite (bind_ok _ _ _ _ _ Hpop). rewrite (bind_ok _ _ _ _ _ Hsh).
    by rewrite (bind_ok _ _ _ _ _ Hpol). }
  simpl.
  split.
  { rewrite (children_of_dropdowns _ _ _ Hdp), (children_of_dropdowns _ _ _ HdC). done. }
  split; [done|].
  split; [by rewrite Hws, HcfgA|].
  intros w Hw. unfold class_of. rewrite Hwp. by apply HkC, Hcls.
Qed.

(** C7, as the code has it.  That the widgets of the parked run are all of
    one class is assumed here; the code does not guarantee it after a setup
    that raised.  A restart while a run on one or more
    distinct widgets [cs], all of class [c0], is parked in its loop, the classes resolving, the descriptors being accepted and
    [auto_select] not negative: the restart goes through and a new run is
    parked.  When the option class is still [c0] and there are as many
    descriptors as there were widgets, the children of the dropdown are the
    very same widgets in the same order; when the option class is another
    one, none of the old widgets is among them; and in every case all the
    children are of the configured class. *)
Theorem pool_reuse s d sh cs c0 c cd :
  live_on s d sh →
  children_of d s = cs →
  cs ≠ [] →
  NoDup cs →
  (∀ w, w ∈ cs → class_of s w = Some c0) →
  Forall (λ w, w < next_id s) cs →
  resolve Factory_get (dropdown_cls (cfg s)) = Ok (Some cd) →
  resolve Factory_get (option_cls (cfg s)) = Ok (Some c) →
  accepted setattr_ok c (option_data (cfg s)) →
  (∀ a, auto_select (cfg s) = Some a → (0 ≤ a)%Z) →
  ∃ s' d' sh',
    restart s = (s', Ok tt)
    ∧ main_task s' = TAwaitRelease d' sh'
    ∧ (c = c0 → length (option_data (cfg s)) = length cs → children_of d' s' = cs)
    ∧ (c ≠ c0 → ∀ w, w ∈ children_of d' s' → w ∉ cs)
    ∧ (∀ w, w ∈ children_of d' s' → class_of s' w = Some c).
Proof.
  intros Hlive Hcs Hne Hnd Hcls Hids Hcd Hc Hacc Hauto.
  pose proof (cancel_live s d sh Hlive) as Hcancel.
  pose proof (cleanup_cleaned d sh (set_trace (trace s ++ [ECancel]) s)) as Hcl.
  pose proof (cleanup_widgets d sh (set_trace (trace s ++ [ECancel]) s)) as Hcw.
  pose proof (cleanup_dropdowns_dom d sh (set_trace (trace s ++ [ECancel]) s) d) as Hcd'.
  revert Hcancel Hcl Hcw Hcd'.
  generalize (cleanup d sh (set_trace (trace s ++ [ECancel]) s)).
  intros k Hcancel [_ Hkcfg _ _ _ _ _ _ Hkn Hkrd Hkrw Hkch] Hkw Hkd.
  change (children_of d (set_trace (trace s ++ [ECancel]) s))
    with (children_of d s) in *.
  change (cfg (set_trace (trace s ++ [ECancel]) s)) with (cfg s) in *.
  change (next_id (set_trace (trace s ++ [ECancel]) s)) with (next_id s) in *.
  change (widgets (set_trace (trace s ++ [ECancel]) s)) with (widgets s) in *.
  change (dropdowns (set_trace (trace s ++ [ECancel]) s)) with (dropdowns s) in *.
  rewrite Hcs in *.
  assert (Hdsome : is_Some (dropdowns k !! d)).
  { apply Hkd. unfold children_of in Hcs.
    destruct (dropdowns s !! d); [done | by subst cs]. }
  set (s1 := set_trace (trace (set_main_task TFinished k) ++ [EStart])
               (set_main_task TFinished k)).
  destruct (setup_on_clean_pool s1 (rev cs) c0 c cd) as (sp & f & i & Hsetup & Hch & Hi & Hws & Hwc).
  { intros d0 Hd0. change (res_dropdown s1) with (res_dropdown k) in Hd0.
    rewrite Hkrd in Hd0. injection Hd0 as <-. done. }
  { exact Hkrw. }
  { intros Hr. apply Hne. by rewrite <- (rev_involutive cs), Hr. }
  { apply NoDup_ListNoDup, NoDup_rev, NoDup_ListNoDup, Hnd. }
  { intros w Hw. apply list_elem_of_In, in_rev, list_elem_of_In in Hw.
    specialize (Hkw w). rewrite bool_decide_true in Hkw by done.
    pose proof (Hcls w Hw) as Hcw. unfold class_of in Hcw.
    destruct (widgets s !! w) as [W|]; [|discriminate].
    injection Hcw as HcW. exists (set_w_parent None W). done. }
  { change (cfg s1) with (cfg k). by rewrite Hkcfg. }
  { change (cfg s1) with (cfg k). by rewrite Hkcfg. }
  { change (cfg s1) with (cfg k). by rewrite Hkcfg. }
  { change (cfg s1) with (cfg k). by rewrite Hkcfg. }
  change (cfg s1) with (cfg k) in Hws. rewrite Hkcfg in Hws.
  change (next_id s1) with (next_id k) in Hi. rewrite Hkn in Hi.
  pose proof (start_run (set_main_task TFinished k) sp f Hsetup) as Hstart.
  set (t := TAwaitRelease (f_dd f) (f_sync_height f)) in *.
  set (s2 := set_trace _ (upd_dropdown _ _ sp)) in *.
  assert (Hch2 : children_of (f_dd f) (set_main_task t s2) = rev (f_widgets f)).
  { rewrite <- Hch. subst s2.
    apply (children_of_upd_dropdown (f_dd f) (f_dd f)
             (λ D, set_dd_on_select (S (dd_on_select D)) D) sp). done. }
  assert (Hcls2 : ∀ w, class_of (set_main_task t s2) w = class_of sp w).
  { intros w. subst s2. reflexivity. }
  exists (set_main_task t s2), (f_dd f), (f_sync_height f).
  split.
  { rewrite restart_unfold, Hcancel. by rewrite (bind_ok _ _ _ _ _ Hstart). }
  split; [done|].
  rewrite Hch2. clearbody s2 s1.
  split; [|split].
  - intros <- Hlen. rewrite Hws. simpl. rewrite bool_decide_true by done.
    rewrite length_rev, Hlen, Nat.sub_diag. simpl. rewrite app_nil_r.
    rewrite take_ge by (by rewrite length_rev). apply rev_involutive.
  - intros Hcc w Hw Hin.
    apply list_elem_of_In, in_rev, list_elem_of_In in Hw.
    rewrite Hws in Hw. simpl in Hw. rewrite bool_decide_false in Hw by congruence.
    rewrite take_nil in Hw. simpl in Hw.
    apply list_elem_of_In, in_seq in Hw.
    pose proof (proj1 (Forall_forall _ _) Hids w Hin). simpl in *. lia.
  - intros w Hw. apply list_elem_of_In, in_rev, list_elem_of_In in Hw.
    rewrite Hcls2. by apply Hwc.
Qed.

End PoolReuse.

Lemma NoDup_321 : NoDup [3; 2; 1].
Proof.
  repeat (apply NoDup_cons; split; [rewrite ?elem_of_cons, elem_of_nil; lia|]).
  apply NoDup_nil_2.
Qed.

Lemma demo_live_children : children_of 0 demo_live = [3; 2; 1].
Proof. vm_compute. reflexivity. Qed.

Lemma demo_live_classes w :
  w ∈ [3; 2; 1] → class_of demo_live w = Some "SpinnerOption".
Proof.
  intros Hw. rewrite !elem_of_cons, elem_of_nil in Hw.
  destruct Hw as [-> | [-> | [-> | []]]]; vm_compute; reflexivity.
Qed.

Lemma demo_live_ids : Forall (λ w, w < next_id demo_live) [3; 2; 1].
Proof.
  assert (Hn : next_id demo_live = 5) by (vm_compute; reflexivity).
  rewrite Hn. repeat (apply Forall_cons; split; [lia|]). apply Forall_nil_2.
Qed.

Lemma demo_live_resolves :
  resolve demo_factory (dropdown_cls (cfg demo_live)) = Ok (Some "DropDown")
  ∧ resolve demo_factory (option_cls (cfg demo_live)) = Ok (Some "SpinnerOption")
  ∧ auto_select (cfg demo_live) = None
  ∧ length (option_data (cfg demo_live)) = 3.
Proof. vm_compute. done. Qed.

Lemma pool_reuse_witness :
  ∃ s' d' sh',
    _restart demo_factory accept_all demo_live = (s', Ok tt)
    ∧ main_task s' = TAwaitRelease d' sh'
    ∧ children_of d' s' = [3; 2; 1].
Proof.
  destruct demo_live_resolves as (Hcd & Hc & Hauto & Hlen).
  assert (Hacc : accepted accept_all "SpinnerOption" (option_data (cfg demo_live)))
    by (intros ? ? ? ? ?; reflexivity).
  assert (Ha : ∀ a, auto_select (cfg demo_live) = Some a → (0 ≤ a)%Z)
    by (intros a Ha; rewrite Hauto in Ha; discriminate).
  assert (Hne : [3; 2; 1] ≠ @nil nat) by discriminate.
  pose proof (pool_reuse demo_factory accept_all demo_live 0 None [3; 2; 1]
                "SpinnerOption" "SpinnerOption" "DropDown"
                demo_live_is_live demo_live_children Hne NoDup_321
                demo_live_classes demo_live_ids Hcd Hc Hacc Ha) as H.
  destruct H as (s' & d' & sh' & Hr & Ht & Hsame & _).
  exists s', d', sh'. split; [exact Hr|]. split; [exact Ht|].
  apply Hsame; [reflexivity | exact Hlen].
Defined.

(** The two cases on the scenario: the same class gives the same three
    widgets, another class gives three new ones. *)
Lemma pool_reuse_examples :
  children_of 0 demo_live = [3; 2; 1]
  ∧ children_of 0 (_restart demo_factory accept_all demo_live).1 = [3; 2; 1]
  ∧ children_of 0 (_restart demo_factory accept_all demo_other_cls).1 = [7; 6; 5]
  ∧ class_of (_restart demo_factory accept_all demo_other_cls).1 5 = Some "Other".
Proof. vm_compute. done. Qed.

(** Outside the theorem: a setup that raised has left widget 1 in the pooled
    dropdown, and no cleanup has removed it; a run with another option class
    then adds its own widgets next to it. *)
Lemma children_after_aborted_setup :
  main_task strict_other = TAwaitRelease 0 None
  ∧ children_of 0 strict_other = [5; 4; 1]
  ∧ class_of strict_other 1 = Some "SpinnerOption"
  ∧ class_of strict_other 4 = Some "Other".
Proof. vm_compute. done. Qed.

(** C7 as stated fails: the children of a parked run can be of two classes.
    [strict_other] is parked on dropdown 0 with [option_cls] [Other], two
    descriptors and the children [[5; 4; 1]]: widget 1, of class
    [SpinnerOption], was left in the dropdown by the setup that raised.
    The cleanup pools [[1; 4; 5]], and line 109 looks at the first pooled
    widget only.  Restarted with the class and the number of descriptors
    unchanged, nothing is re-used; restarted with [option_cls] changed to
    [SpinnerOption], the old widgets 1 and 4 are re-used, widget 4 being of
    class [Other]. *)
Lemma mixed_class_pool_defeats_reuse :
  main_task strict_other = TAwaitRelease 0 None
  ∧ option_cls (cfg strict_other) = CClass "Other"
  ∧ length (option_data (cfg strict_other)) = 2
  ∧ children_of 0 strict_other = [5; 4; 1]
  ∧ class_of strict_other 1 = Some "SpinnerOption"
  ∧ class_of strict_other 4 = Some "Other"
  ∧ class_of strict_other 5 = Some "Other"
  ∧ res_option_widgets (cancel strict_other) = Some [1; 4; 5]
  ∧ (_restart demo_factory text_only strict_other).2 = Ok tt
  ∧ children_of 0 (_restart demo_factory text_only strict_other).1 = [8; 7]
  ∧ (_restart demo_factory text_only
       (mutate (SetOptionCls (CClass "SpinnerOption")) strict_other)).2 = Ok tt
  ∧ children_of 0
      (_restart demo_factory text_only
         (mutate (SetOptionCls (CClass "SpinnerOption")) strict_other)).1 = [4; 1]
  ∧ class_of
      (_restart demo_factory text_only
         (mutate (SetOptionCls (CClass "SpinnerOption")) strict_other)).1 4
    = Some "Other".
Proof. vm_compute. done. Qed.

(** The children a re-used dropdown was left with count for [auto_select]:
    in the frame after the setup that raised, with two new descriptors and
    [auto_select] 0, the widget selected is the stale child 1, not one of
    the two widgets of the descriptors. *)
Lemma auto_select_counts_stale_children :
  children_of 0 strict_aborted = [1]
  ∧ children_of 0
      (tick demo_factory text_only
         (mutate (SetAutoSelect (Some 0%Z))
            (mutate (SetOptionCls (CClass "Other"))
               (mutate (SetOptionData [opt_A; opt_B]) strict_aborted)))).1
    = [5; 4; 1]
  ∧ selection
      (tick demo_factory text_only
         (mutate (SetAutoSelect (Some 0%Z))
            (mutate (SetOptionCls (CClass "Other"))
               (mutate (SetOptionData [opt_A; opt_B]) strict_aborted)))).1
    = Some 1.
Proof. vm_compute. done. Qed.

(** * Further properties of the restart *)

Section RestartEdges.
Variable Factory_get : string → option class_id.
Variable setattr_ok : class_id → string → value → bool.

Local Abbreviation setup := (main_setup Factory_get setattr_ok).
Local Abbreviation start := (start_main Factory_get setattr_ok).
Local Abbreviation restart := (_restart Factory_get setattr_ok).

(** X2.  The pool is written by the cleanup only: whether [_main] parks,
    returns or raises, a start leaves the pool, the configuration, the
    trigger and [_main_task] as they are. *)
Theorem start_leaves_pool_and_config s :
  let s' := (start_main Factory_get setattr_ok s).1 in
  cfg s' = cfg s
  ∧ res_dropdown s' = res_dropdown s
  ∧ res_option_widgets s' = res_option_widgets s
  ∧ triggered s' = triggered s
  ∧ main_task s' = main_task s.
Proof.
  destruct (start_main_started Factory_get setattr_ok s) as [H1 H2 H3 H4 H5 _].
  cbv zeta. done.
Qed.

(** X3.  A dropdown class given by a name that the factory does not know:
    the start raises [FactoryException] before anything has been touched. *)
Theorem unknown_dropdown_name_raises s n :
  dropdown_cls (cfg s) = CName n →
  n ≠ EmptyString →
  Factory_get n = None →
  start s = (set_trace (trace s ++ [EStart]) s, Raise (FactoryException n)).
Proof.
  intros Hcls Hn Hf. unfold start_main. rewrite bind_run. simpl.
  unfold main_setup, prepare_dropdown. rewrite !bind_run. simpl.
  rewrite !bind_run. unfold lift, resolve. rewrite Hcls. simpl.
  rewrite bool_decide_false by done. by rewrite Hf.
Qed.

End RestartEdges.

Lemma unknown_dropdown_name_raises_witness :
  (start_main demo_factory accept_all
     (mutate (SetDropdownCls (CName "NoSuchDropDown")) (init default_config))).2
  = Raise (FactoryException "NoSuchDropDown").
Proof.
  rewrite (unknown_dropdown_name_raises demo_factory accept_all
             (mutate (SetDropdownCls (CName "NoSuchDropDown")) (init default_config))
             "NoSuchDropDown" eq_refl ltac:(discriminate) eq_refl).
  reflexivity.
Defined.

(** * Further properties of the selection policy *)

(** [l[k]] for an index that is not negative. *)
Lemma py_index_nonneg {A : Type} (l : list A) (k : Z) :
  (0 ≤ k)%Z → py_index l k = l !! Z.to_nat k.
Proof.
  intros Hk. unfold py_index.
  assert ((k <? 0)%Z = false) as -> by (apply Z.ltb_ge; lia).
  assert ((0 <=? k)%Z = true) as -> by (apply Z.leb_le; lia).
  simpl. destruct (Z.ltb_spec k (Z.of_nat (length l))) as [Hlt|Hge]; [done|].
  symmetry. apply lookup_ge_None. lia.
Qed.

Section PolicyEdges.
Variable Factory_get : string → option class_id.
Variable setattr_ok : class_id → string → value → bool.

Local Abbreviation setup := (main_setup Factory_get setattr_ok).

(** The world in which line 131 is reached by a setup that started with an
    empty dropdown. *)
Lemma setup_reaches_policy s s' f :
  setup s = (s', Ok (Some f)) →
  (∀ d, res_dropdown s = Some d → children_of d s = []) →
  ∃ s3,
    select_policy (f_dd f) s3 = (s', Ok tt)
    ∧ children_of (f_dd f) s3 = rev (f_widgets f)
    ∧ length (f_widgets f) = length (option_data (cfg s))
    ∧ selection s3 = selection s
    ∧ cfg s3 = cfg s.
Proof.
  intros H Hpool.
  apply main_setup_inv in H
    as (s1 & c & src & s2 & s3 & Hprep & Hc & Hsrc & Hpop & Hsh & Hpol).
  destruct (setup_selection_before_policy _ _ _ _ _ _ _ _ _ _ _ Hprep Hpop Hsh)
    as [Hsel3 Hcfg3].
  pose proof (sf_cfg _ _ (prepare_dropdown_frame Factory_get s)) as Hcfg1.
  rewrite Hprep in Hcfg1. simpl in Hcfg1.
  assert (Hd1 : children_of (f_dd f) s1 = [] ∧ is_Some (dropdowns s1 !! f_dd f)).
  { apply prepare_dropdown_inv in Hprep as [(-> & Hres & Hsome)|(c0 & Hb & Hd)].
    - split; [by apply Hpool | done].
    - destruct (build_dropdown_run c0 s) as (s1' & Hrun & Hch & Hcl & _).
      rewrite Hrun in Hb. injection Hb as <- Hdd. rewrite <- Hdd in *.
      split; [done|]. destruct (dropdowns s1' !! next_id s); [done|discriminate]. }
  destruct Hd1 as [Hch1 Hsome1].
  apply populate_inv in Hpop as [Hd2 Hlen]. rewrite Hcfg1 in Hlen.
  pose proof (children_of_populated _ _ _ _ Hd2 Hsome1) as Hch2.
  rewrite Hch1, app_nil_r in Hch2.
  destruct (setup_sync_height_run (f_dd f) s2) as (s3' & sh' & Hrun & Hd3 & _).
  rewrite Hrun in Hsh. injection Hsh as -> _.
  pose proof (children_of_dropdowns (f_dd f) _ _ Hd3) as Hch3. rewrite Hch2 in Hch3.
  exists s3. done.
Qed.

(** X4.  A negative [auto_select] counts from the end of the descriptors, as
    Python's indices do: with [n] options and no selection surviving, an
    index [i] with [-n <= i < 0] selects the widget of the descriptor at
    position [n + i]; [-1] is the last option. *)
Theorem auto_select_negative_indexing s s' f i :
  setup s = (s', Ok (Some f)) →
  (∀ d, res_dropdown s = Some d → children_of d s = []) →
  (∀ w, selection s = Some w → w ∉ f_widgets f) →
  auto_select (cfg s) = Some i →
  (- Z.of_nat (length (option_data (cfg s))) ≤ i < 0)%Z →
  selection s' = f_widgets f !! Z.to_nat (Z.of_nat (length (option_data (cfg s))) + i)
  ∧ is_Some (selection s').
Proof.
  intros H Hpool Hsel Hauto Hi.
  destruct (setup_reaches_policy s s' f H Hpool)
    as (s3 & Hpol & Hch & Hlen & Hsel3 & Hcfg3).
  set (n := length (option_data (cfg s))) in *.
  rewrite (select_policy_auto (f_dd f) s3 i) in Hpol; cycle 1.
  { intros w Hw. rewrite Hch. rewrite Hsel3 in Hw.
    intros Hin. apply (Hsel w Hw).
    apply list_elem_of_In, in_rev. by apply list_elem_of_In. }
  { by rewrite Hcfg3. }
  rewrite Hch, length_rev, Hlen in Hpol.
  destruct (Z.leb_spec (Z.of_nat n) i) as [Hge|_]; [lia|].
  rewrite py_index_nonneg in Hpol by lia.
  assert (Hlk : rev (f_widgets f) !! Z.to_nat (- (i + 1))
                = f_widgets f !! Z.to_nat (Z.of_nat n + i)).
  { replace (Z.to_nat (- (i + 1)))
      with (length (rev (f_widgets f)) - 1 - Z.to_nat (Z.of_nat n + i))
      by (rewrite length_rev, Hlen; lia).
    apply rev_lookup_from_end. lia. }
  rewrite Hlk in Hpol.
  destruct (f_widgets f !! Z.to_nat (Z.of_nat n + i)) as [w|] eqn:Hw.
  - injection Hpol as <-. done.
  - apply lookup_ge_None in Hw. lia.
Qed.

(** X5.  An [auto_select] below [-n], [n] being the number of children (so
    also [-1] with no option at all), is not caught by the range test of
    line 136, and line 139 raises [IndexError]; the selection is left as it
    was. *)
Theorem auto_select_below_range_raises d s a :
  (∀ w, selection s = Some w → w ∉ children_of d s) →
  auto_select (cfg s) = Some a →
  (a < - Z.of_nat (length (children_of d s)))%Z →
  select_policy d s = (s, Raise IndexError).
Proof.
  intros Hsel Hauto Ha.
  rewrite (select_policy_auto d s a Hsel Hauto).
  destruct (Z.leb_spec (Z.of_nat (length (children_of d s))) a) as [Hge|_]; [lia|].
  rewrite py_index_nonneg by lia.
  destruct (children_of d s !! _) as [w|] eqn:Hw; [|done].
  apply lookup_lt_Some in Hw. lia.
Qed.

End PolicyEdges.

Lemma auto_select_negative_indexing_witness :
  selection (demo_setup (Some (-1)%Z)).1 = Some 3.
Proof.
  assert (H : demo_setup (Some (-1)%Z)
              = ((demo_setup (Some (-1)%Z)).1, Ok (Some demo_frame)))
    by (vm_compute; reflexivity).
  assert (Hpool : ∀ d, res_dropdown (init (demo_cfg (Some (-1)%Z))) = Some d →
                       children_of d (init (demo_cfg (Some (-1)%Z))) = [])
    by (intros d; discriminate).
  assert (Hsel : ∀ w, selection (init (demo_cfg (Some (-1)%Z))) = Some w →
                      w ∉ f_widgets demo_frame)
    by (intros w; discriminate).
  destruct (auto_select_negative_indexing demo_factory accept_all _ _ _ (-1)%Z
              H Hpool Hsel eq_refl ltac:(simpl; lia)) as [-> _].
  reflexivity.
Defined.

Lemma auto_select_below_range_raises_witness :
  select_policy 0 (set_cfg (demo_cfg (Some (-4)%Z)) (init default_config))
  = (set_cfg (demo_cfg (Some (-4)%Z)) (init default_config), Raise IndexError).
Proof.
  apply (auto_select_below_range_raises 0 _ (-4)%Z).
  - intros w; discriminate.
  - reflexivity.
  - vm_compute. reflexivity.
Defined.

(** * Further properties of the population loop *)

Section PopulateEdges.
Variable setattr_ok : class_id → string → value → bool.

(** X6.  [zip] asks the widgets for their next element before it finds the
    descriptors used up.  When the pooled widgets do not outnumber the
    descriptors, that element comes from the factory: one widget more than
    there are descriptors left is constructed, and the last one is dropped as
    it was made, without attributes, callback or parent.  When the pool is
    larger, nothing is constructed. *)
Theorem populate_takes_one_more_widget c d src data s :
  NoDup src →
  (∀ w, w ∈ src → addable c s w) →
  accepted setattr_ok c data →
  let s' := (populate setattr_ok c d src data s).1 in
  let k := length data - length src in
  (length src ≤ length data →
   next_id s' = S (next_id s + k)
   ∧ widgets s' !! (next_id s + k)
     = Some {| w_class := c; w_attrs := ∅; w_on_release := []; w_parent := None |})
  ∧ (length data < length src → next_id s' = next_id s).
Proof.
  cbv zeta. revert src s.
  induction data as [|props data IH]; intros src s Hnd Hsrc Hacc.
  - destruct src as [|w src].
    + destruct (new_widget_run c s) as (s1 & Hrun & _ & Hw & Hn).
      assert (Hpop : populate setattr_ok c d [] [] s = (s1, Ok [])).
      { simpl. by rewrite (bind_ok _ _ _ _ _ (bind_ok _ _ _ _ _ Hrun)). }
      rewrite Hpop. simpl. split; [|lia]. intros _.
      rewrite Nat.add_0_r, Hn, Hw, lookup_insert_eq. done.
    + simpl. split; [lia|done].
  - assert (Hprops : ∀ name v, (name, v) ∈ props → setattr_ok c name v = true).
    { intros name v Hin. apply (Hacc props name v); [by left | done]. }
    assert (Hacc' : accepted setattr_ok c data).
    { intros p name v Hp Hin. apply (Hacc p name v); [by right | done]. }
    assert (Hnext : ∃ s1 w src',
              next_widget c src s = (s1, Ok (w, src'))
              ∧ addable c s1 w ∧ NoDup src'
              ∧ (∀ w', w' ∈ src' → addable c s1 w' ∧ w' ≠ w)
              ∧ length src' = pred (length src)
              ∧ next_id s1 = if src is [] then S (next_id s) else next_id s).
    { destruct src as [|w src'].
      - destruct (new_widget_run c s) as (s1 & Hrun & _ & Hw & Hn).
        exists s1, (next_id s), []. split.
        { simpl. by rewrite (bind_ok _ _ _ _ _ Hrun). }
        split.
        { eexists. rewrite Hw, lookup_insert_eq. done. }
        split; [constructor|]. split; [|done].
        intros w' Hw'. by apply elem_of_nil in Hw'.
      - exists s, w, src'. split; [done|].
        apply NoDup_cons in Hnd as [Hnotin Hnd'].
        split; [apply Hsrc; by left|]. split; [done|]. split; [|done].
        intros w' Hw'. split; [apply Hsrc; by right|].
        intros ->. done. }
    destruct Hnext as (s1 & w & src' & Hrun1 & Hadd & Hnd' & Hsrc' & Hlen & Hn1).
    destruct (populate_step_ok setattr_ok c d w props s1 Hadd Hprops)
      as (s2 & Hrun2 & _ & Hother & Hn2).
    assert (Hsrc2 : ∀ w', w' ∈ src' → addable c s2 w').
    { intros w' Hw'. destruct (Hsrc' w' Hw') as [(W & HW & Hc & Hp) Hne].
      exists W. by rewrite (Hother w' Hne). }
    destruct (IH src' s2 Hnd' Hsrc2 Hacc') as [IH1 IH2].
    assert (Hrun : (populate setattr_ok c d src (props :: data) s).1
                   = (populate setattr_ok c d src' data s2).1).
    { simpl. rewrite (bind_ok _ _ _ _ _ Hrun1). simpl. rewrite Hrun2.
      rewrite bind_run. by destruct (populate setattr_ok c d src' data s2) as [? []]. }
    rewrite Hrun. rewrite Hn2, Hn1 in IH1, IH2. simpl length.
    destruct src as [|w0 src0]; simpl in Hlen; rewrite Hlen in *; simpl length in *.
    + split; [|lia]. intros _. destruct IH1 as [E1 E2]; [lia|].
      rewrite Nat.sub_0_r in *.
      replace (next_id s + S (length data)) with (S (next_id s) + length data) by lia.
      done.
    + split.
      * intros Hle. destruct IH1 as [E1 E2]; [lia|]. done.
      * intros Hlt. apply IH2. lia.
Qed.

End PopulateEdges.

Lemma populate_takes_one_more_widget_witness :
  next_id (populate accept_all "SpinnerOption" 0 [] [opt_A; opt_B]
             (build_dropdown "DropDown" (init default_config)).1).1 = 4.
Proof.
  destruct (populate_takes_one_more_widget accept_all "SpinnerOption" 0 []
              [opt_A; opt_B] (build_dropdown "DropDown" (init default_config)).1)
    as [H _].
  - constructor.
  - intros w Hw. by apply elem_of_nil in Hw.
  - intros props name v _ _. reflexivity.
  - destruct H as [-> _]; [simpl; lia|]. reflexivity.
Defined.

(** * The callbacks outside the task *)

(** ** [_sync_height] *)

Lemma sync_height_widgets d h s w :
  widgets (_sync_height d h s) !! w
  = if bool_decide (w ∈ children_of d s)
    then (λ W, set_w_attrs (<["height" := VNum h]> (w_attrs W)) W) <$> widgets s !! w
    else widgets s !! w.
Proof.
  unfold _sync_height.
  change (widgets (set_trace ?t ?x)) with (widgets x).
  rewrite foldr_upd_widget_widgets. apply foldr_alter_lookup.
  intros [c a r p]. unfold set_w_attrs. simpl. by rewrite insert_insert_eq.
Qed.

Lemma foldl_sync_height v l s :
  let s' := foldl (λ s h, _sync_height (h_dd h) v s) s l in
  (∀ w, widgets s' !! w
        = if bool_decide (Exists (λ h, w ∈ children_of (h_dd h) s) l)
          then (λ W, set_w_attrs (<["height" := VNum v]> (w_attrs W)) W) <$> widgets s !! w
          else widgets s !! w)
  ∧ dropdowns s' = dropdowns s
  ∧ cfg s' = cfg s ∧ selection s' = selection s
  ∧ bound_spacing s' = bound_spacing s ∧ bound_padding s' = bound_padding s
  ∧ bound_height s' = bound_height s ∧ main_task s' = main_task s
  ∧ triggered s' = triggered s ∧ next_id s' = next_id s.
Proof.
  cbv zeta. revert s. induction l as [|h l IH]; intros s.
  - simpl foldl. split; [|done]. intros w. rewrite bool_decide_false; [done|].
    by intros ?%Exists_nil.
  - simpl foldl.
    destruct (sync_height_same_control (h_dd h) v s) as [Hc Hd].
    destruct (IH (_sync_height (h_dd h) v s))
      as (IHw & IHd & IH1 & IH2 & IH3 & IH4 & IH5 & IH6 & IH7 & IH8).
    split; [|split; [congruence|]].
    + intros w. rewrite IHw.
      assert (Hch : ∀ d, children_of d (_sync_height (h_dd h) v s) = children_of d s)
        by (intros d; by apply children_of_dropdowns).
      assert (Hex : Exists (λ h0, w ∈ children_of (h_dd h0) (_sync_height (h_dd h) v s)) l
                    ↔ Exists (λ h0, w ∈ children_of (h_dd h0) s) l).
      { rewrite !Exists_exists. by setoid_rewrite Hch. }
      rewrite (bool_decide_ext _ _ Hex), sync_height_widgets.
      destruct (decide (w ∈ children_of (h_dd h) s)) as [Hin|Hnin].
      * rewrite (bool_decide_true (w ∈ _)) by done.
        rewrite (bool_decide_true (Exists _ (h :: l))) by (by apply Exists_cons_hd).
        destruct (bool_decide _); [|done].
        destruct (widgets s !! w) as [[c a r p]|]; [|done].
        simpl. unfold set_w_attrs. simpl. by rewrite insert_insert_eq.
      * rewrite (bool_decide_false (w ∈ _)) by done.
        apply (f_equal (λ b : bool, if b then _ else _)).
        apply bool_decide_ext. rewrite Exists_cons. tauto.
    + rewrite IH1, IH2, IH3, IH4, IH5, IH6, IH7, IH8.
      rewrite (sc_cfg _ _ Hc), (sc_selection _ _ Hc), (sc_bound_spacing _ _ Hc),
        (sc_bound_padding _ _ Hc), (sc_bound_height _ _ Hc), (sc_main_task _ _ Hc),
        (sc_triggered _ _ Hc), (sc_next_id _ _ Hc).
      done.
Qed.

(** X7.  A change of the control's [height] runs the partials bound on line
    127: it reaches the children of the containers they close over, and only
    those, and it does not call the restart trigger. *)
Theorem height_change_reaches_children v s w W :
  widgets s !! w = Some W →
  let s' := mutate (SetHeight v) s in
  widgets s' !! w
  = Some (if bool_decide (height_synced s w)
          then set_w_attrs (<["height" := VNum v]> (w_attrs W)) W else W)
  ∧ dropdowns s' = dropdowns s
  ∧ triggered s' = triggered s
  ∧ main_task s' = main_task s.
Proof.
  intros HW. cbv zeta. unfold mutate.
  change (observed (SetHeight v)) with false. cbv iota. unfold forward.
  change (bound_height (set_cfg ?c s)) with (bound_height s).
  destruct (foldl_sync_height v (bound_height s) (set_cfg (store (SetHeight v) (cfg s)) s))
    as (Hw & Hd & _ & _ & _ & _ & _ & Hm & Ht & _).
  split; [|done].
  rewrite Hw. unfold height_synced.
  change (widgets (set_cfg ?c s)) with (widgets s). rewrite HW.
  assert (Hex : Exists (λ h, w ∈ children_of (h_dd h)
                                 (set_cfg (store (SetHeight v) (cfg s)) s)) (bound_height s)
                ↔ Exists (λ h, w ∈ children_of (h_dd h) s) (bound_height s)) by done.
  rewrite (bool_decide_ext _ _ Hex). by destruct (bool_decide _).
Qed.

(** ** [_on_release_item] and [_on_dropdown_select] *)

Lemma foldl_on_select w l s :
  foldl (λ s d,
           match dropdowns s !! d with
           | Some D => if dd_on_select D is O then s else set_selection (Some w) s
           | None => s
           end) s l
  = if bool_decide (Exists (λ d, on_select_of d s ≠ 0) l)
    then set_selection (Some w) s else s.
Proof.
  revert s. induction l as [|d l IH]; intros s.
  - simpl foldl. rewrite bool_decide_false; [done|]. by intros ?%Exists_nil.
  - simpl foldl.
    destruct (decide (on_select_of d s = 0)) as [Hz|Hnz].
    + assert (Hstep : match dropdowns s !! d with
                      | Some D => if dd_on_select D is O then s else set_selection (Some w) s
                      | None => s
                      end = s).
      { unfold on_select_of in Hz. destruct (dropdowns s !! d) as [D|]; [|done].
        by rewrite Hz. }
      rewrite Hstep, IH. apply (f_equal (λ b : bool, if b then _ else _)).
      apply bool_decide_ext. rewrite Exists_cons. tauto.
    + assert (Hstep : match dropdowns s !! d with
                      | Some D => if dd_on_select D is O then s else set_selection (Some w) s
                      | None => s
                      end = set_selection (Some w) s).
      { unfold on_select_of in Hnz. destruct (dropdowns s !! d) as [D|]; [|done].
        by destruct (dd_on_select D). }
      rewrite Hstep, IH.
      rewrite (bool_decide_true (Exists _ (d :: l))) by (by apply Exists_cons_hd).
      by destruct (bool_decide _).
Qed.

(** X8.  Releasing an option widget sets the selection to it when one of the
    dropdowns its [on_release] callbacks were made for has
    [_on_dropdown_select] bound, and does nothing otherwise: the callbacks of
    line 120 stay on a widget, but select through a dropdown only while a
    run is parked on it. *)
Theorem option_release_selects w s :
  option_released w s
  = if bool_decide (Exists (λ d, on_select_of d s ≠ 0) (on_release_of s w))
    then set_selection (Some w) s else s.
Proof.
  unfold option_released, on_release_of.
  destruct (widgets s !! w) as [W|].
  - apply foldl_on_select.
  - rewrite bool_decide_false; [done|]. by intros ?%Exists_nil.
Qed.

(** * Before the first change *)

Section Quiet.
Variable Factory_get : string → option class_id.
Variable setattr_ok : class_id → string → value → bool.

(** X9.  [__init__] binds the trigger but does not call it: until one of the
    five properties of line 69 changes, [_main] is not started, whatever else
    happens to the control; its releases open nothing. *)
Theorem no_run_before_first_change c evs :
  Forall (λ e, quiet e = true) evs →
  ∃ c', host_run Factory_get setattr_ok evs (init c) = init c'.
Proof.
  intros H. revert c. induction H as [|e evs He _ IH]; intros c.
  - by exists c.
  - unfold host_run. simpl foldl.
    assert (Hstep : ∃ c1, host_step Factory_get setattr_ok e (init c) = init c1).
    { destruct e as [m| | |d|w]; simpl.
      - exists (store m c). destruct m; try discriminate He; reflexivity.
      - by exists c.
      - by exists c.
      - by exists c.
      - exists c. unfold option_released. simpl. by rewrite lookup_empty. }
    destruct Hstep as [c1 ->]. apply IH.
Qed.

End Quiet.

Lemma sync_live_bound_height : bound_height sync_live = [{| h_id := 5; h_dd := 0 |}].
Proof. vm_compute. reflexivity. Qed.

Lemma sync_live_children : children_of 0 sync_live = [3; 2; 1].
Proof. vm_compute. reflexivity. Qed.

Lemma height_change_reaches_children_witness :
  attr_of "height" (mutate (SetHeight 55) sync_live) 1 = Some (VNum 55).
Proof.
  destruct (widgets sync_live !! 1) as [W|] eqn:HW; [|by vm_compute in HW].
  destruct (height_change_reaches_children 55 sync_live 1 W HW) as [H _].
  unfold attr_of. rewrite H. rewrite bool_decide_true.
  - simpl. apply lookup_insert_eq.
  - unfold height_synced. rewrite sync_live_bound_height.
    apply Exists_cons_hd. simpl. rewrite sync_live_children.
    rewrite !elem_of_cons. auto.
Defined.

Lemma no_run_before_first_change_witness :
  main_task (host_run demo_factory accept_all
               [HRelease; HMutate (SetHeight 55); HTick; HOptionRelease 1]
               (init default_config)) = TDummy.
Proof.
  destruct (no_run_before_first_change demo_factory accept_all default_config
              [HRelease; HMutate (SetHeight 55); HTick; HOptionRelease 1]) as [c' ->].
  - repeat constructor.
  - reflexivity.
Defined.

(** * The pool from one run to the next *)

Section PoolEdges.
Variable Factory_get : string → option class_id.
Variable setattr_ok : class_id → string → value → bool.

Local Abbreviation start := (start_main Factory_get setattr_ok).

(** X11.  A dropdown of another class than the one asked for is not re-used:
    a new one is built and is the run's dropdown.  The old one stays where it
    is, in the pool until the next cleanup and with its container setters
    bound, so a later change of [option_spacing] reaches both. *)
Theorem dropdown_class_change_builds_new s d D c :
  res_dropdown s = Some d →
  dropdowns s !! d = Some D →
  resolve Factory_get (dropdown_cls (cfg s)) = Ok (Some c) →
  c ≠ dd_class D →
  d ≠ next_id s →
  d ∈ bound_spacing s →
  ∃ s1,
    prepare_dropdown Factory_get s = (s1, Ok (Some (next_id s)))
    ∧ (dd_class <$> dropdowns s1 !! next_id s) = Some c
    ∧ children_of (next_id s) s1 = []
    ∧ dropdowns s1 !! d = Some D
    ∧ res_dropdown s1 = Some d
    ∧ bound_spacing s1 = bound_spacing s ++ [next_id s]
    ∧ ∀ v d', d' = d ∨ d' = next_id s →
        (dd_spacing <$> dropdowns (mutate (SetOptionSpacing v) s1) !! d') = Some v.
Proof.
  intros Hres HD Hc Hne Hfresh Hbound.
  destruct (build_dropdown_run c s)
    as (s1 & Hrun & Hch & Hcls & Hother & _ & _ & Hsp & _ & _ & _ & _ & Hrd & _).
  exists s1. split.
  { unfold prepare_dropdown. rewrite bind_run. simpl. rewrite bind_run.
    unfold lift. rewrite Hc. simpl. rewrite Hres, HD.
    rewrite bool_decide_false by congruence.
    by rewrite (bind_ok _ _ _ _ _ Hrun). }
  split; [done|]. split; [done|].
  assert (HD1 : dropdowns s1 !! d = Some D) by (by rewrite Hother).
  split; [done|]. split; [congruence|]. split; [done|].
  intros v d' Hd'.
  assert (Hin : d' ∈ bound_spacing s1).
  { rewrite Hsp, elem_of_app, elem_of_cons.
    destruct Hd' as [->| ->]; [by left | right; by left]. }
  assert (Hsome : is_Some (dropdowns s1 !! d')).
  { destruct Hd' as [->| ->]; [by rewrite HD1|].
    destruct (dropdowns s1 !! next_id s); [done|discriminate]. }
  unfold mutate. change (observed (SetOptionSpacing v)) with false. cbv iota.
  unfold forward.
  change (bound_spacing (set_cfg ?x s1)) with (bound_spacing s1).
  rewrite foldr_upd_dropdown_lookup by done.
  rewrite bool_decide_true by done.
  change (dropdowns (set_cfg ?x s1)) with (dropdowns s1).
  by destruct Hsome as [D' ->].
Qed.

End PoolEdges.

Lemma demo_other_dropdown_facts :
  res_dropdown demo_other_dropdown = Some 0
  ∧ (dd_class <$> dropdowns demo_other_dropdown !! 0) = Some "DropDown"
  ∧ resolve demo_factory (dropdown_cls (cfg demo_other_dropdown))
    = Ok (Some "OtherDropDown")
  ∧ next_id demo_other_dropdown = 5
  ∧ bound_spacing demo_other_dropdown = [0].
Proof. vm_compute. done. Qed.

Lemma dropdown_class_change_builds_new_witness :
  (prepare_dropdown demo_factory demo_other_dropdown).2
  = Ok (Some (next_id demo_other_dropdown)).
Proof.
  destruct demo_other_dropdown_facts as (Hres & Hcls & Hc & Hn & Hsp).
  destruct (dropdowns demo_other_dropdown !! 0) as [D|] eqn:HD;
    [|simpl in Hcls; discriminate Hcls].
  simpl in Hcls. injection Hcls as HclsD.
  assert (Hne : "OtherDropDown" ≠ dd_class D) by (rewrite HclsD; discriminate).
  assert (Hfresh : 0 ≠ next_id demo_other_dropdown) by (rewrite Hn; discriminate).
  assert (Hin : 0 ∈ bound_spacing demo_other_dropdown)
    by (rewrite Hsp, elem_of_cons; by left).
  pose proof (dropdown_class_change_builds_new demo_factory demo_other_dropdown 0 D
                "OtherDropDown" Hres HD Hc Hne Hfresh Hin) as H.
  destruct H as (s1 & H & _). rewrite H. reflexivity.
Defined.

(** * Invariants of the control *)

#[global] Instance stable_preorder : PreOrder stable.
Proof.
  split.
  - intros s H. done.
  - intros s1 s2 s3 H12 H23 H.
    destruct (H12 H) as [H2 E12]. destruct (H23 H2) as [H3 E23].
    split; [done|]. intros d. by rewrite E23.
Qed.

(** A step that only adds new objects and leaves the containers' spacing and
    padding alone keeps a good world good. *)
Lemma good_intro s s' :
  next_id s ≤ next_id s' →
  (∀ w, is_Some (widgets s' !! w) → is_Some (widgets s !! w) ∨ w < next_id s') →
  (∀ h, h ∈ bound_height s' → h ∈ bound_height s ∨ h_id h < next_id s') →
  (∀ d D', dropdowns s' !! d = Some D' →
     (∃ D, dropdowns s !! d = Some D
           ∧ dd_spacing D' = dd_spacing D ∧ dd_padding D' = dd_padding D)
     ∨ (d < next_id s' ∧ d ∈ bound_spacing s' ∧ d ∈ bound_padding s'
        ∧ dd_spacing D' = option_spacing (cfg s')
        ∧ dd_padding D' = option_padding (cfg s'))) →
  (∀ d, d ∈ bound_spacing s → d ∈ bound_spacing s') →
  (∀ d, d ∈ bound_padding s → d ∈ bound_padding s') →
  option_spacing (cfg s') = option_spacing (cfg s) →
  option_padding (cfg s') = option_padding (cfg s) →
  good s → good s'.
Proof.
  intros Hn Hw Hh Hd Hs Hp Hcs Hcp [[[Wd Wh] Ww] Hf].
  split; [split; [split|]|].
  - intros d [D' HD']. destruct (Hd d D' HD') as [(D & HD & _)|(Hlt & _)]; [|done].
    pose proof (Wd d ltac:(by rewrite HD)). lia.
  - intros h Hin. destruct (Hh h Hin) as [Hold|Hlt]; [|done].
    pose proof (Wh h Hold). lia.
  - intros w Hsome. destruct (Hw w Hsome) as [Hold|Hlt]; [|done].
    pose proof (Ww w Hold). lia.
  - intros d D' HD'. destruct (Hd d D' HD') as [(D & HD & E1 & E2)|(_ & Hnew)]; [|done].
    destruct (Hf d D HD) as (F1 & F2 & F3 & F4).
    split; [by apply Hs|]. split; [by apply Hp|]. split; congruence.
Qed.

Lemma stable_intro s s' :
  next_id s ≤ next_id s' →
  (∀ w, is_Some (widgets s' !! w) → is_Some (widgets s !! w) ∨ w < next_id s') →
  (∀ h, h ∈ bound_height s' → h ∈ bound_height s ∨ h_id h < next_id s') →
  (∀ d D', dropdowns s' !! d = Some D' →
     (∃ D, dropdowns s !! d = Some D
           ∧ dd_spacing D' = dd_spacing D ∧ dd_padding D' = dd_padding D
           ∧ dd_on_select D' = dd_on_select D)
     ∨ (next_id s ≤ d < next_id s' ∧ d ∈ bound_spacing s' ∧ d ∈ bound_padding s'
        ∧ dd_spacing D' = option_spacing (cfg s')
        ∧ dd_padding D' = option_padding (cfg s')
        ∧ dd_on_select D' = 0)) →
  (∀ d, is_Some (dropdowns s !! d) → is_Some (dropdowns s' !! d)) →
  (∀ d, d ∈ bound_spacing s → d ∈ bound_spacing s') →
  (∀ d, d ∈ bound_padding s → d ∈ bound_padding s') →
  option_spacing (cfg s') = option_spacing (cfg s) →
  option_padding (cfg s') = option_padding (cfg s) →
  stable s s'.
Proof.
  intros Hn Hw Hh Hd Hdom Hs Hp Hcs Hcp Hgood. split.
  - apply (good_intro s s'); try done.
    intros d D' HD'.
    destruct (Hd d D' HD') as [(D & HD & E1 & E2 & _)|(Hlt & F1 & F2 & F3 & F4 & _)].
    + left. by exists D.
    + right. repeat split; try done. lia.
  - intros d. unfold on_select_of.
    destruct Hgood as [[[Wd _] _] _].
    destruct (dropdowns s' !! d) as [D'|] eqn:HD'.
    + destruct (Hd d D' HD') as [(D & -> & _ & _ & E)|(Hlt & _ & _ & _ & _ & E)];
        [done|].
      destruct (dropdowns s !! d) as [D|] eqn:HD; [|done].
      pose proof (Wd d ltac:(by rewrite HD)). lia.
    + destruct (dropdowns s !! d) as [D|] eqn:HD; [|done].
      destruct (Hdom d ltac:(by rewrite HD)) as [D' HD'']. congruence.
Qed.

(** The same store, bindings and configuration; identities may have been
    handed out. *)
Lemma stable_same_store s s' :
  next_id s ≤ next_id s' →
  widgets s' = widgets s → dropdowns s' = dropdowns s →
  bound_height s' = bound_height s →
  bound_spacing s' = bound_spacing s → bound_padding s' = bound_padding s →
  option_spacing (cfg s') = option_spacing (cfg s) →
  option_padding (cfg s') = option_padding (cfg s) →
  stable s s'.
Proof.
  intros Hn Hw Hd Hh Hs Hp Hc1 Hc2.
  apply stable_intro; rewrite ?Hw, ?Hd, ?Hh, ?Hs, ?Hp; auto.
  intros d D' HD'. left. by exists D'.
Qed.

Lemma stable_upd_widget w f s : stable s (upd_widget w f s).
Proof.
  apply stable_intro; simpl; auto.
  - intros w'. rewrite lookup_alter_is_Some. auto.
  - intros d D' HD'. left. by exists D'.
Qed.

Lemma stable_upd_dropdown d f s :
  (∀ D, dd_spacing (f D) = dd_spacing D ∧ dd_padding (f D) = dd_padding D
        ∧ dd_on_select (f D) = dd_on_select D) →
  stable s (upd_dropdown d f s).
Proof.
  intros Hf. apply stable_intro; simpl; auto.
  - intros d' D' HD'. left.
    destruct (decide (d = d')) as [<-|Hne].
    + rewrite lookup_alter_eq in HD'.
      destruct (dropdowns s !! d) as [D|]; [|done].
      injection HD' as <-. exists D. destruct (Hf D) as (? & ? & ?). done.
    + rewrite lookup_alter_ne in HD' by done. by exists D'.
  - intros d'. by rewrite lookup_alter_is_Some.
Qed.

Ltac stable_modify :=
  first [ apply stable_upd_widget
        | by apply stable_upd_dropdown
        | by (apply stable_same_store; simpl; first [lia | reflexivity]) ].

Ltac stable_auto lemmas :=
  repeat first [ preserves_step | lemmas | stable_modify ].

Lemma log_stable e : preserves stable (log e).
Proof. unfold log. stable_auto fail. Qed.

Lemma fresh_stable : preserves stable fresh.
Proof. intros s. simpl. stable_modify. Qed.

Lemma new_widget_stable c : preserves stable (new_widget c).
Proof.
  intros s. destruct (new_widget_run c s) as (s' & Hrun & Hd & Hw & Hn).
  pose proof (new_widget_frame c s) as Hf.
  pose proof (new_widget_build (same_on bound_height) c s) as Hh.
  rewrite Hrun in *. simpl in Hf, Hh |- *. unfold same_on in Hh.
  assert (Hs : bound_spacing s' = bound_spacing s ∧ bound_padding s' = bound_padding s).
  { injection Hrun as <-. done. }
  destruct Hs as [Hs Hp].
  apply stable_intro; rewrite ?Hd, ?Hh, ?Hs, ?Hp, ?(sf_cfg _ _ Hf), ?Hn; auto.
  - intros w. rewrite Hw. destruct (decide (w = next_id s)) as [->|Hne]; [auto|].
    rewrite lookup_insert_ne by done. auto.
  - intros d D' HD'. left. by exists D'.
Qed.

Lemma bind_release_stable w d : preserves stable (bind_release w d).
Proof. unfold bind_release. stable_auto ltac:(apply log_stable). Qed.

Lemma add_widget_stable d w : preserves stable (add_widget d w).
Proof. unfold add_widget. stable_auto ltac:(apply log_stable). Qed.

Lemma sync_height_stable d h s : stable s (_sync_height d h s).
Proof.
  destruct (sync_height_same_control d h s) as [Hc Hd].
  pose proof (sc_next_id _ _ Hc) as Hn. pose proof (sc_bound_height _ _ Hc) as Hh.
  pose proof (sc_bound_spacing _ _ Hc) as Hs. pose proof (sc_bound_padding _ _ Hc) as Hp.
  pose proof (sc_cfg _ _ Hc) as Hcfg.
  pose proof (sync_height_widgets d h s) as Hw.
  generalize dependent (_sync_height d h s). intros s' _ Hd Hn Hh Hs Hp Hcfg Hw.
  simpl in Hn, Hh, Hs, Hp, Hcfg.
  apply stable_intro; rewrite ?Hd, ?Hn, ?Hh, ?Hs, ?Hp, ?Hcfg; auto.
  - intros w. rewrite Hw.
    destruct (bool_decide _); [|auto]. rewrite fmap_is_Some. auto.
  - intros d' D' HD'. left. by exists D'.
Qed.

Lemma setup_sync_height_stable d : preserves stable (setup_sync_height d).
Proof.
  intros s.
  assert (Hst : (setup_sync_height d s).1
                = if sync_height (cfg s)
                  then let s2 := _sync_height d (height (cfg s))
                                   (set_next_id (S (next_id s)) s) in
                       let h := {| h_id := next_id s; h_dd := d |} in
                       set_trace (trace s2 ++ [EBindHeight h])
                         (set_bound_height (bound_height s2 ++ [h]) s2)
                  else s).
  { unfold setup_sync_height. rewrite bind_run. simpl.
    by destruct (sync_height (cfg s)). }
  rewrite Hst. clear Hst. destruct (sync_height (cfg s)); [|reflexivity].
  cbv zeta.
  trans (set_next_id (S (next_id s)) s).
  { apply stable_same_store; simpl; auto. }
  trans (_sync_height d (height (cfg s)) (set_next_id (S (next_id s)) s)).
  { apply sync_height_stable. }
  destruct (sync_height_same_control d (height (cfg s)) (set_next_id (S (next_id s)) s))
    as [Hc _].
  assert (Hn : next_id (_sync_height d (height (cfg s)) (set_next_id (S (next_id s)) s))
               = S (next_id s)) by exact (sc_next_id _ _ Hc).
  clear Hc.
  generalize dependent (_sync_height d (height (cfg s)) (set_next_id (S (next_id s)) s)).
  intros s2 Hn.
  apply stable_intro; simpl; auto.
  - intros h. rewrite elem_of_app, elem_of_cons. intros [?|[->|[]%elem_of_nil]]; [auto|].
    right. simpl. lia.
  - intros d' D' HD'. left. by exists D'.
Qed.

Lemma select_policy_stable d : preserves stable (select_policy d).
Proof. unfold select_policy. stable_auto fail. Qed.

Section StableSetup.
Variable Factory_get : string → option class_id.
Variable setattr_ok : class_id → string → value → bool.

Lemma build_dropdown_stable c : preserves stable (build_dropdown c).
Proof.
  intros s.
  destruct (build_dropdown_run c s)
    as (s' & Hrun & _ & Hcls & Hother & Hw & Hn & Hs & Hp & Hh & _ & _ & _ & _ & Hos & _).
  destruct (build_dropdown_binds c s) as (_ & _ & _ & Hsp & Hpd).
  pose proof (build_dropdown_frame c s) as Hf.
  rewrite Hrun in *. simpl in Hsp, Hpd, Hf |- *.
  apply stable_intro; rewrite ?Hw, ?Hn, ?Hs, ?Hp, ?Hh, ?(sf_cfg _ _ Hf); auto.
  - intros d D' HD'. destruct (decide (d = next_id s)) as [->|Hne].
    + right. rewrite HD' in Hsp, Hpd, Hos. simpl in Hsp, Hpd, Hos.
      split; [lia|]. rewrite !elem_of_app, !elem_of_cons.
      repeat split; auto; congruence.
    + left. exists D'. by rewrite <- Hother.
  - intros d Hsome. destruct (decide (d = next_id s)) as [->|Hne].
    + destruct (dropdowns s' !! next_id s); [done|discriminate].
    + by rewrite Hother.
  - intros d Hin. rewrite elem_of_app. auto.
  - intros d Hin. rewrite elem_of_app. auto.
Qed.

Lemma prepare_dropdown_stable : preserves stable (prepare_dropdown Factory_get).
Proof. unfold prepare_dropdown. stable_auto ltac:(apply build_dropdown_stable). Qed.

Lemma widget_source_stable c : preserves stable (widget_source c).
Proof. unfold widget_source. stable_auto fail. Qed.

Lemma next_widget_stable c src : preserves stable (next_widget c src).
Proof. unfold next_widget. stable_auto ltac:(apply new_widget_stable). Qed.

Lemma setattr_stable w name v : preserves stable (setattr_ setattr_ok w name v).
Proof. unfold setattr_. stable_auto ltac:(apply log_stable). Qed.

Lemma apply_props_stable w props : preserves stable (apply_props setattr_ok w props).
Proof.
  induction props as [|[name v] props IH]; simpl.
  - stable_auto fail.
  - stable_auto ltac:(first [apply setattr_stable | apply IH]).
Qed.

Lemma populate_stable c d src data :
  preserves stable (populate setattr_ok c d src data).
Proof.
  revert src. induction data as [|props data IH]; intros src; simpl.
  - stable_auto ltac:(apply next_widget_stable).
  - stable_auto ltac:(first [ apply next_widget_stable | apply apply_props_stable
                            | apply bind_release_stable | apply add_widget_stable
                            | apply IH ]).
Qed.

Lemma main_setup_stable : preserves stable (main_setup Factory_get setattr_ok).
Proof.
  unfold main_setup.
  stable_auto ltac:(first [ apply prepare_dropdown_stable | apply widget_source_stable
                          | apply populate_stable | apply setup_sync_height_stable
                          | apply select_policy_stable ]).
Qed.

End StableSetup.

(** ** The cleanup and the events of the host *)

Lemma elem_of_remove_first {A : Type} `{EqDecision A} (x y : A) (l : list A) :
  y ∈ remove_first x l → y ∈ l.
Proof.
  induction l as [|a l IH]; simpl; [done|].
  destruct (decide (x = a)); rewrite ?elem_of_cons; [auto|].
  intros [->|H]; auto.
Qed.

Lemma good_stable s s' : stable s s' → good s → good s'.
Proof. intros H Hg. by destruct (H Hg). Qed.

Lemma stable_set_main_task t s : stable s (set_main_task t s).
Proof. by apply stable_same_store. Qed.

Lemma stable_set_trace t s : stable s (set_trace t s).
Proof. by apply stable_same_store. Qed.

Lemma cleanup_good d sh s : good s → good (cleanup d sh s).
Proof.
  pose proof (cleanup_cleaned d sh s) as Hcl.
  pose proof (cleanup_widgets d sh s) as Hw.
  pose proof (cleanup_dropdowns d sh s) as Hd.
  generalize dependent (cleanup d sh s). intros c Hcl Hw Hd.
  apply good_intro.
  - by rewrite (cl_next_id _ _ _ _ Hcl).
  - intros w. rewrite Hw. destruct (bool_decide _); [rewrite fmap_is_Some|]; auto.
  - intros h. rewrite (cl_bound_height _ _ _ _ Hcl).
    destruct sh; [intros ?%elem_of_remove_first|]; auto.
  - intros d' D'. rewrite Hd. intros HD'. left.
    destruct (decide (d = d')) as [<-|Hne].
    + rewrite !lookup_alter_eq in HD'.
      destruct (dropdowns s !! d) as [D|]; [|done].
      injection HD' as <-. by exists D.
    + rewrite !lookup_alter_ne in HD' by done. by exists D'.
  - by rewrite (cl_bound_spacing _ _ _ _ Hcl).
  - by rewrite (cl_bound_padding _ _ _ _ Hcl).
  - by rewrite (cl_cfg _ _ _ _ Hcl).
  - by rewrite (cl_cfg _ _ _ _ Hcl).
Qed.

Lemma cleanup_on_select_ne d sh s d' :
  d' ≠ d → on_select_of d' (cleanup d sh s) = on_select_of d' s.
Proof.
  intros Hne. unfold on_select_of.
  by rewrite cleanup_dropdowns, !lookup_alter_ne.
Qed.

Lemma inv_intro s s' :
  stable s s' → parked_dropdown s' = parked_dropdown s → inv s → inv s'.
Proof.
  intros Hst Hp [Hg Hsel]. destruct (Hst Hg) as [Hg' E].
  split; [done|]. intros d. rewrite E, Hp. apply Hsel.
Qed.

Lemma inv_init c : inv (init c).
Proof.
  split; [split; [split; [apply wf_ids_init|]|]|].
  - intros w [W HW]. simpl in HW. by rewrite lookup_empty in HW.
  - intros d D HD. simpl in HD. by rewrite lookup_empty in HD.
  - intros d. unfold on_select_of. simpl. by rewrite lookup_empty.
Qed.

(** After [cancel] no [on_select] callback is left and no run is parked. *)
Lemma cancel_inv s :
  inv s →
  good (cancel s) ∧ (∀ d, on_select_of d (cancel s) = 0)
  ∧ parked_dropdown (cancel s) = None.
Proof.
  intros [Hg Hsel].
  assert (Hz : parked_dropdown s = None → ∀ d, on_select_of d s = 0).
  { intros Hp d. by rewrite Hsel, Hp. }
  destruct (main_task s) as [| |d sh|d sh] eqn:Ht.
  1,2: rewrite not_parked_cancel by auto;
       (split; [by apply (good_stable _ _ (stable_set_trace _ s))|]);
       (split; [apply Hz; unfold parked_dropdown; by rewrite Ht
               | unfold parked_dropdown; simpl; by rewrite Ht]).
  all: assert (Hlive : live_on s d sh) by (unfold live_on; auto);
       rewrite (cancel_live _ _ _ Hlive);
       assert (Hone : ∀ d', on_select_of d' s = if bool_decide (d' = d) then 1 else 0)
         by (intros d'; rewrite Hsel; unfold parked_dropdown; rewrite Ht;
             destruct (decide (d' = d)) as [->|Hne];
             [by rewrite !bool_decide_true
             |rewrite !bool_decide_false; [done|done|congruence]]);
       assert (Hg0 : good (set_trace (trace s ++ [ECancel]) s))
         by (by apply (good_stable _ _ (stable_set_trace _ s)));
       pose proof (cleanup_good d sh _ Hg0) as Hgc;
       pose proof (cleanup_on_select d sh (set_trace (trace s ++ [ECancel]) s)) as Hsd;
       pose proof (λ d', cleanup_on_select_ne d sh (set_trace (trace s ++ [ECancel]) s) d')
         as Hso;
       generalize dependent (cleanup d sh (set_trace (trace s ++ [ECancel]) s));
       intros c Hgc Hsd Hso;
       (split; [by apply (good_stable _ _ (stable_set_main_task _ c))|]);
       (split; [|done]);
       intros d';
       change (on_select_of d' (set_main_task ?t c)) with (on_select_of d' c);
       change (on_select_of ?x (set_trace ?t s)) with (on_select_of x s) in *;
       (destruct (decide (d' = d)) as [->|Hne];
        [rewrite Hsd, Hone, bool_decide_true by done; done
        |rewrite Hso, Hone, bool_decide_false by done; done]).
Qed.

Section HostInvariant.
Variable Factory_get : string → option class_id.
Variable setattr_ok : class_id → string → value → bool.

Local Abbreviation setup := (main_setup Factory_get setattr_ok).
Local Abbreviation start := (start_main Factory_get setattr_ok).
Local Abbreviation restart := (_restart Factory_get setattr_ok).

(** [start] by the outcome of the setup. *)
Lemma start_cases s :
  start s
  = match setup (set_trace (trace s ++ [EStart]) s) with
    | (sp, Ok (Some f)) =>
        (set_trace (trace sp ++ [EBindSelect (f_dd f)])
           (upd_dropdown (f_dd f) (λ D, set_dd_on_select (S (dd_on_select D)) D) sp),
         Ok (TAwaitRelease (f_dd f) (f_sync_height f)))
    | (sp, Ok None) => (sp, Ok TFinished)
    | (sp, Raise e) => (sp, Raise e)
    end.
Proof.
  unfold start_main. rewrite bind_run. simpl. rewrite bind_run.
  by destruct (setup (set_trace (trace s ++ [EStart]) s)) as [sp [[f|]|e]].
Qed.

Lemma restart_inv s : inv s → inv (restart s).1.
Proof.
  intros Hinv. destruct (cancel_inv s Hinv) as (Hg1 & Hz1 & Hp1).
  rewrite restart_unfold. clear Hinv.
  generalize dependent (cancel s). intros s1 Hg1 Hz1 Hp1.
  rewrite bind_run, start_cases.
  set (s1' := set_trace (trace s1 ++ [EStart]) s1).
  assert (Hg1' : good s1') by (by apply (good_stable _ _ (stable_set_trace _ s1))).
  pose proof (main_setup_stable Factory_get setattr_ok s1') as Hstab.
  pose proof (main_setup_frame Factory_get setattr_ok s1') as Hfr.
  destruct (Hstab Hg1') as [Hgp Hzp].
  pose proof (sf_task _ _ Hfr) as Htask.
  assert (Hsb : ∀ sp f, setup s1' = (sp, Ok (Some f)) → is_Some (dropdowns sp !! f_dd f)).
  { intros sp f Hs. destruct Hg1' as [[[Wd _] _] _].
    by destruct (setup_bindings Factory_get setattr_ok s1' sp f Wd Hs) as (_ & ? & _). }
  destruct (setup s1') as [sp [[f|]|e]]; simpl in Hgp, Hzp, Htask |- *.
  - specialize (Hsb sp f eq_refl). destruct Hsb as [D HD].
    split.
    + apply (good_stable _ _ (stable_set_main_task _ _)).
      apply (good_stable _ _ (stable_set_trace _ _)).
      revert Hgp. apply good_intro; simpl; auto.
      intros d D' HD'. left.
      destruct (decide (f_dd f = d)) as [<-|Hne].
      * rewrite lookup_alter_eq, HD in HD'. simpl in HD'. injection HD' as <-.
        by exists D.
      * rewrite lookup_alter_ne in HD' by done. by exists D'.
    + intros d. unfold on_select_of, parked_dropdown. simpl.
      destruct (decide (d = f_dd f)) as [->|Hne].
      * rewrite lookup_alter_eq, HD, bool_decide_true by done. simpl.
        specialize (Hzp (f_dd f)). unfold on_select_of in Hzp. rewrite HD in Hzp.
        rewrite Hzp. apply (f_equal S). apply Hz1.
      * rewrite lookup_alter_ne by done. rewrite bool_decide_false by congruence.
        specialize (Hzp d). unfold on_select_of in Hzp. rewrite Hzp. apply Hz1.
  - split.
    + by apply (good_stable _ _ (stable_set_main_task _ sp)).
    + intros d. change (on_select_of d (set_main_task ?t sp)) with (on_select_of d sp).
      rewrite Hzp. unfold parked_dropdown. simpl. apply Hz1.
  - split; [done|]. intros d. rewrite Hzp.
    unfold parked_dropdown in *. rewrite Htask. simpl. rewrite Hp1. apply Hz1.
Qed.

End HostInvariant.

Lemma foldr_upd_dropdown_widgets (f : dropdown → dropdown) l s :
  widgets (foldr (λ d, upd_dropdown d f) s l) = widgets s.
Proof. induction l as [|d l IH]; [done|]. simpl. exact IH. Qed.

(** A change of [option_spacing] or [option_padding] reaches every dropdown
    there is, as each has its setters bound. *)
Lemma forward_inv (f : dropdown → dropdown) (c : config) (bound : world → list nat) s :
  (∀ D, f (f D) = f D) →
  (∀ D, dd_on_select (f D) = dd_on_select D) →
  (∀ d D, dropdowns s !! d = Some D →
          d ∈ bound s
          ∧ dd_spacing (f D) = option_spacing c ∧ dd_padding (f D) = option_padding c) →
  inv s →
  inv (foldr (λ d, upd_dropdown d f) (set_cfg c s) (bound s)).
Proof.
  intros Hidem Hos Hnew [[[[Wd Wh] Ww] Hf] Hsel].
  pose proof (foldr_upd_dropdown_same_control f (bound s) (set_cfg c s)) as Hc.
  pose proof (foldr_upd_dropdown_widgets f (bound s) (set_cfg c s)) as Hw.
  pose proof (λ d, foldr_upd_dropdown_lookup f (bound s) (set_cfg c s) d Hidem) as Hd.
  generalize dependent (foldr (λ d, upd_dropdown d f) (set_cfg c s) (bound s)).
  intros s' Hc Hw Hd.
  destruct Hc as [Hcfg _ Hbs Hbp Hbh Hmt _ _ _ Hn _].
  simpl in Hcfg, Hbs, Hbp, Hbh, Hmt, Hn, Hw, Hd.
  assert (Hlk : ∀ d, dropdowns s' !! d = f <$> dropdowns s !! d).
  { intros d. rewrite Hd. destruct (decide (d ∈ bound s)) as [Hin|Hnin].
    - by rewrite bool_decide_true.
    - rewrite bool_decide_false by done.
      destruct (dropdowns s !! d) as [D|] eqn:HD; [|done].
      by destruct (Hnew d D HD) as [? _]. }
  split; [split; [split; [split|]|]|].
  - intros d. rewrite Hlk, fmap_is_Some, Hn. apply Wd.
  - intros h. rewrite Hbh, Hn. apply Wh.
  - intros w. rewrite Hw, Hn. apply Ww.
  - intros d D'. rewrite Hlk, Hbs, Hbp, Hcfg.
    destruct (dropdowns s !! d) as [D|] eqn:HD; [|done].
    intros [= <-]. destruct (Hf d D HD) as (? & ? & _).
    destruct (Hnew d D HD) as (_ & ? & ?). done.
  - intros d. unfold on_select_of, parked_dropdown. rewrite Hlk, Hmt.
    specialize (Hsel d). unfold on_select_of, parked_dropdown in Hsel.
    destruct (dropdowns s !! d) as [D|]; simpl; [by rewrite Hos|done].
Qed.

Lemma mutate_inv m s : inv s → inv (mutate m s).
Proof.
  intros Hinv. destruct m as [v|v|v|v|v|v|v|v].
  1-5: apply (inv_intro s); [|done|done]; by apply stable_same_store.
  - unfold mutate. change (observed (SetOptionSpacing v)) with false. cbv iota.
    unfold forward. change (bound_spacing (set_cfg ?c s)) with (bound_spacing s).
    apply (forward_inv (set_dd_spacing v) _ bound_spacing); try done.
    intros d D HD. destruct Hinv as [[_ Hf] _].
    destruct (Hf d D HD) as (? & _ & _ & ?). done.
  - unfold mutate. change (observed (SetOptionPadding v)) with false. cbv iota.
    unfold forward. change (bound_padding (set_cfg ?c s)) with (bound_padding s).
    apply (forward_inv (set_dd_padding v) _ bound_padding); try done.
    intros d D HD. destruct Hinv as [[_ Hf] _].
    destruct (Hf d D HD) as (_ & ? & ? & _). done.
  - unfold mutate. change (observed (SetHeight v)) with false. cbv iota.
    unfold forward.
    change (bound_height (set_cfg ?c s)) with (bound_height s).
    destruct (foldl_sync_height v (bound_height s) (set_cfg (store (SetHeight v) (cfg s)) s))
      as (Hw & Hd & Hcfg & _ & Hbs & Hbp & Hbh & Hmt & _ & Hn).
    generalize dependent
      (foldl (λ s h, _sync_height (h_dd h) v s)
         (set_cfg (store (SetHeight v) (cfg s)) s) (bound_height s)).
    intros s' Hw Hd Hcfg Hbs Hbp Hbh Hmt Hn.
    simpl in Hw, Hd, Hcfg, Hbs, Hbp, Hbh, Hmt, Hn.
    apply (inv_intro s); [|by unfold parked_dropdown; rewrite Hmt|done].
    apply stable_intro; rewrite ?Hd, ?Hcfg, ?Hbs, ?Hbp, ?Hbh, ?Hn; auto.
    + intros w. rewrite Hw. destruct (bool_decide _); [rewrite fmap_is_Some|]; auto.
    + intros d D' HD'. left. by exists D'.
Qed.

Lemma released_inv s : inv s → inv (released s).
Proof.
  intros Hinv. destruct (main_task s) as [| |d sh|d sh] eqn:Ht.
  1,2,4: unfold released; by rewrite Ht.
  rewrite (released_awaiting _ _ _ Ht). unfold dd_open.
  apply (inv_intro s); [|by unfold parked_dropdown; simpl; rewrite Ht|done].
  trans (upd_dropdown d (set_dd_attached true) s).
  - by apply stable_upd_dropdown.
  - by apply stable_same_store.
Qed.

Lemma dismissed_inv d s : inv s → inv (dismissed d s).
Proof.
  intros Hinv. unfold dismissed. destruct (main_task s) as [| |d' sh|d' sh] eqn:Ht; try done.
  destruct (bool_decide (d = d')); [|done].
  apply (inv_intro s); [apply stable_set_main_task| |done].
  unfold parked_dropdown. simpl. by rewrite Ht.
Qed.

Lemma option_released_inv w s : inv s → inv (option_released w s).
Proof.
  intros Hinv. unfold option_released. destruct (widgets s !! w) as [W|]; [|done].
  rewrite foldl_on_select. destruct (bool_decide _); [|done].
  apply (inv_intro s); [|done|done]. by apply stable_same_store.
Qed.

Section Reachable.
Variable Factory_get : string → option class_id.
Variable setattr_ok : class_id → string → value → bool.

Local Abbreviation run := (host_run Factory_get setattr_ok).

Lemma host_step_inv e s : inv s → inv (host_step Factory_get setattr_ok e s).
Proof.
  intros Hinv. destruct e as [m| | |d|w]; simpl.
  - by apply mutate_inv.
  - unfold tick. destruct (triggered s); [|done].
    apply restart_inv. apply (inv_intro s); [|done|done]. by apply stable_same_store.
  - by apply released_inv.
  - by apply dismissed_inv.
  - by apply option_released_inv.
Qed.

Lemma host_run_inv evs s : inv s → inv (run evs s).
Proof.
  revert s. induction evs as [|e evs IH]; intros s Hinv; [done|].
  unfold host_run. simpl foldl. apply IH. by apply host_step_inv.
Qed.

(** X12.  Whatever happens to a control, [_on_dropdown_select] is bound once
    on the dropdown of the run that is parked in the loop and on no other
    dropdown; when no run is parked, also after a setup that raised, it is
    bound nowhere. *)
Theorem select_bound_only_on_parked_run c evs :
  select_bound_on_parked (run evs (init c)).
Proof. apply host_run_inv, inv_init. Qed.

(** X13.  The container setters of lines 91-94 are never unbound, so every
    dropdown that was ever built, in use or not, follows the control: its
    container has the control's [option_spacing] and [option_padding] at any
    time. *)
Theorem every_dropdown_follows_spacing c evs :
  forwarding_ok (run evs (init c)).
Proof. apply host_run_inv, inv_init. Qed.

(** X14.  In any state a control can be in, releasing an option widget
    selects it exactly when a run is parked on a dropdown that one of the
    widget's [on_release] callbacks was made for; a widget left over from an
    earlier dropdown, or released while no run is parked, selects nothing. *)
Theorem option_release_selects_on_parked_run c evs w :
  let s := run evs (init c) in
  option_released w s
  = match parked_dropdown s with
    | Some d => if bool_decide (d ∈ on_release_of s w)
                then set_selection (Some w) s else s
    | None => s
    end.
Proof.
  cbv zeta. destruct (host_run_inv evs (init c) (inv_init c)) as [_ Hsel].
  generalize dependent (run evs (init c)). intros s Hsel.
  assert (Hex : ∀ l, Exists (λ d, on_select_of d s ≠ 0) l
                     ↔ ∃ d, parked_dropdown s = Some d ∧ d ∈ l).
  { intros l. rewrite Exists_exists. split.
    - intros (d & Hin & Hne). exists d. split; [|done].
      rewrite Hsel in Hne. destruct (decide (parked_dropdown s = Some d)); [done|].
      by rewrite bool_decide_false in Hne.
    - intros (d & Hp & Hin). exists d. split; [done|].
      by rewrite Hsel, bool_decide_true. }
  unfold option_released, on_release_of.
  destruct (widgets s !! w) as [W|].
  - rewrite foldl_on_select.
    destruct (parked_dropdown s) as [d|] eqn:Hp.
    + apply (f_equal (λ b : bool, if b then _ else _)).
      apply bool_decide_ext. rewrite Hex. split.
      * by intros (d' & [= <-] & Hin).
      * intros Hin. by exists d.
    + rewrite bool_decide_false; [done|]. rewrite Hex. by intros (d & ? & _).
  - destruct (parked_dropdown s) as [d|]; [|done].
    rewrite bool_decide_false; [done|]. by intros ?%elem_of_nil.
Qed.

End Reachable.

(** * The attributes of an option widget *)

Lemma foldl_insert_lookup_ne (props : descriptor) (m : gmap string value) name :
  name ∉ props.*1 →
  foldl (λ m kv, <[kv.1 := kv.2]> m) m props !! name = m !! name.
Proof.
  revert m. induction props as [|[k v] props IH]; intros m Hnin; [done|].
  simpl in *. rewrite not_elem_of_cons in Hnin. destruct Hnin as [Hne Hnin].
  rewrite IH by done. by rewrite lookup_insert_ne.
Qed.

Lemma foldl_insert_lookup (props : descriptor) (m : gmap string value) name v :
  NoDup props.*1 → (name, v) ∈ props →
  foldl (λ m kv, <[kv.1 := kv.2]> m) m props !! name = Some v.
Proof.
  revert m. induction props as [|[k v0] props IH]; intros m Hnd Hin.
  - by apply elem_of_nil in Hin.
  - simpl in *. apply NoDup_cons in Hnd as [Hk Hnd].
    apply elem_of_cons in Hin as [[= <- <-]|Hin].
    + rewrite foldl_insert_lookup_ne by done. by rewrite lookup_insert_eq.
    + by apply IH.
Qed.

Section Attributes.
Variable setattr_ok : class_id → string → value → bool.

Lemma apply_props_widgets w props s s' :
  apply_props setattr_ok w props s = (s', Ok tt) →
  widgets s' = alter (λ W, set_w_attrs (foldl (λ m kv, <[kv.1 := kv.2]> m)
                                          (w_attrs W) props) W) w (widgets s)
  ∧ next_id s' = next_id s
  ∧ (props ≠ [] → is_Some (widgets s !! w)).
Proof.
  revert s. induction props as [|[name v] props IH]; intros s H.
  - simpl in H. injection H as <-. split; [|done].
    symmetry. apply alter_id. by intros [c a r p] _.
  - simpl in H. apply bind_ok_inv in H as (s1 & [] & Hset & Hrest).
    assert (Hsome : is_Some (widgets s !! w)).
    { unfold setattr_ in Hset. rewrite bind_run in Hset. simpl in Hset.
      by destruct (widgets s !! w). }
    apply setattr_inv in Hset as (_ & Hn1 & Hw1).
    apply IH in Hrest as (Hw & Hn & _).
    split; [|split; [congruence|done]].
    rewrite Hw, Hw1, alter_alter_eq. apply alter_ext. by intros [c a r p] _.
Qed.

(** X15.  The loop of lines 118-119 sets the fields of the descriptor and
    nothing else: a widget taken from the pool keeps every attribute that
    its new descriptor does not name, whatever an earlier descriptor set it
    to. *)
Theorem apply_props_sets_attributes w props s s' :
  apply_props setattr_ok w props s = (s', Ok tt) →
  NoDup props.*1 →
  (∀ name v, (name, v) ∈ props → attr_of name s' w = Some v)
  ∧ (∀ name, name ∉ props.*1 → attr_of name s' w = attr_of name s w)
  ∧ (∀ name w', w' ≠ w → attr_of name s' w' = attr_of name s w').
Proof.
  intros H Hnd. destruct (apply_props_widgets _ _ _ _ H) as (Hw & _ & Hsome).
  unfold attr_of. rewrite Hw. split; [|split].
  - intros name v Hin. rewrite lookup_alter_eq.
    destruct Hsome as [W ->]; [by intros ->; apply elem_of_nil in Hin|].
    simpl. by apply foldl_insert_lookup.
  - intros name Hnin. rewrite lookup_alter_eq.
    destruct (widgets s !! w) as [W|]; [|done].
    simpl. by apply foldl_insert_lookup_ne.
  - intros name w' Hne. by rewrite lookup_alter_ne.
Qed.

End Attributes.

Lemma apply_props_sets_attributes_witness :
  attr_of "text"
    (apply_props accept_all 1 [("height", VNum 7)] demo_live).1 1
  = Some (VStr "A").
Proof.
  assert (Hrun : apply_props accept_all 1 [("height", VNum 7)] demo_live
                 = ((apply_props accept_all 1 [("height", VNum 7)] demo_live).1, Ok tt))
    by (vm_compute; reflexivity).
  assert (Hnd : NoDup [("height", VNum 7)].*1)
    by (apply NoDup_singleton).
  pose proof (apply_props_sets_attributes accept_all 1 [("height", VNum 7)] _ _ Hrun Hnd)
    as H.
  destruct H as (_ & H & _). rewrite (H "text").
  - vm_compute. reflexivity.
  - simpl. rewrite elem_of_cons. intros [?|?%elem_of_nil]; [discriminate|done].
Defined.

(** * The callbacks of an option widget *)

Lemma next_widget_inv c src s s1 w src' :
  next_widget c src s = (s1, Ok (w, src')) →
  (∀ x, is_Some (widgets s !! x) → x < next_id s) →
  (∀ x, is_Some (widgets s1 !! x) → x < next_id s1)
  ∧ (∀ x, on_release_of s1 x = on_release_of s x)
  ∧ (∀ x, parent_of s1 x = parent_of s x).
Proof.
  intros H Hwf. destruct src as [|w0 src0]; simpl in H.
  - apply bind_ok_inv in H as (s1' & a & H1 & H2).
    destruct (new_widget_run c s) as (sn & Hrun & _ & Hw & Hn).
    rewrite Hrun in H1. injection H1 as <- <-. injection H2 as <- _ _.
    assert (Hnone : widgets s !! next_id s = None).
    { destruct (widgets s !! next_id s) as [W|] eqn:E; [|done].
      pose proof (Hwf (next_id s) ltac:(by rewrite E)). lia. }
    split; [|split].
    + intros x. rewrite Hw, Hn. destruct (decide (x = next_id s)) as [->|Hne]; [lia|].
      rewrite lookup_insert_ne by done. intros ?%Hwf. lia.
    + intros x. unfold on_release_of. rewrite Hw.
      destruct (decide (x = next_id s)) as [->|Hne].
      * by rewrite lookup_insert_eq, Hnone.
      * by rewrite lookup_insert_ne.
    + intros x. unfold parent_of. rewrite Hw.
      destruct (decide (x = next_id s)) as [->|Hne].
      * by rewrite lookup_insert_eq, Hnone.
      * by rewrite lookup_insert_ne.
  - injection H as <- _ _. done.
Qed.

Section Callbacks.
Variable setattr_ok : class_id → string → value → bool.

(** One round of the loop body, lines 118-121, on widget [w]. *)
Lemma populate_step_inv w d props s1 s2 s3 s4 :
  apply_props setattr_ok w props s1 = (s2, Ok tt) →
  bind_release w d s2 = (s3, Ok tt) →
  add_widget d w s3 = (s4, Ok tt) →
  next_id s1 ≤ next_id s4
  ∧ (∀ x, is_Some (widgets s4 !! x) ↔ is_Some (widgets s1 !! x))
  ∧ parent_of s1 w = None
  ∧ (∀ x, on_release_of s4 x
          = if decide (x = w) then on_release_of s1 w ++ [d] else on_release_of s1 x)
  ∧ (∀ x, parent_of s4 x = if decide (x = w) then Some d else parent_of s1 x).
Proof.
  intros H2 H3 H4.
  apply apply_props_widgets in H2 as (Hw2 & Hn2 & _).
  destruct (bind_release_run w d s2) as (s3' & Hb & _ & Hw3 & Hn3).
  rewrite Hb in H3. injection H3 as <-.
  pose proof (sf_next_id _ _ (add_widget_frame d w s3')) as Hn4.
  rewrite H4 in Hn4. simpl in Hn4.
  apply add_widget_inv in H4 as (_ & W3 & HW3 & Hp3 & Hw4).
  rewrite Hw3, Hw2, !lookup_alter_eq in HW3.
  destruct (widgets s1 !! w) as [[c a r p]|] eqn:HW1; [|done].
  simpl in HW3. injection HW3 as <-. simpl in Hp3.
  split; [lia|]. split; [|split; [|split]].
  - intros x. by rewrite Hw4, Hw3, Hw2, !lookup_alter_is_Some.
  - unfold parent_of. by rewrite HW1.
  - intros x. unfold on_release_of. rewrite Hw4, Hw3, Hw2.
    destruct (decide (x = w)) as [->|Hne].
    + by rewrite !lookup_alter_eq, HW1.
    + by rewrite !lookup_alter_ne.
  - intros x. unfold parent_of. rewrite Hw4, Hw3, Hw2.
    destruct (decide (x = w)) as [->|Hne].
    + by rewrite !lookup_alter_eq, HW1.
    + by rewrite !lookup_alter_ne.
Qed.

Lemma populate_release c d src data s s' ws :
  populate setattr_ok c d src data s = (s', Ok ws) →
  (∀ x, is_Some (widgets s !! x) → x < next_id s) →
  NoDup ws
  ∧ (∀ x, x ∈ ws → parent_of s x = None)
  ∧ (∀ x, on_release_of s' x
          = if bool_decide (x ∈ ws) then on_release_of s x ++ [d] else on_release_of s x).
Proof.
  revert src s s' ws. induction data as [|props data IH]; intros src s s' ws; simpl.
  - intros H Hwf. apply bind_ok_inv in H as (s1 & [w src'] & H1 & H2).
    injection H2 as <- <-.
    destruct (next_widget_inv _ _ _ _ _ _ H1 Hwf) as (_ & Hr & _).
    split; [constructor|]. split; [by intros x ?%elem_of_nil|].
    intros x. rewrite Hr, bool_decide_false; [done|]. by intros ?%elem_of_nil.
  - intros H Hwf. apply bind_ok_inv in H as (s1 & [w src'] & H1 & H).
    destruct (next_widget_inv _ _ _ _ _ _ H1 Hwf) as (Hwf1 & Hr1 & Hp1).
    apply bind_ok_inv in H as (s2 & [] & H2 & H).
    apply bind_ok_inv in H as (s3 & [] & H3 & H).
    apply bind_ok_inv in H as (s4 & [] & H4 & H).
    destruct (populate_step_inv _ _ _ _ _ _ _ H2 H3 H4) as (Hn4 & Hdom & Hpw & Hr4 & Hp4).
    apply bind_ok_inv in H as (s5 & ws' & H5 & H). injection H as <- <-.
    apply IH in H5 as (Hnd & Hpar & Hrel).
    2:{ intros x Hx. apply Hdom, Hwf1 in Hx. lia. }
    assert (Hnotin : w ∉ ws').
    { intros Hin. apply Hpar in Hin. rewrite Hp4 in Hin.
      by destruct (decide (w = w)). }
    split; [by constructor|]. split.
    + intros x [->|Hin]%elem_of_cons.
      * by rewrite <- Hp1.
      * pose proof (Hpar x Hin) as Hx. rewrite Hp4 in Hx.
        destruct (decide (x = w)) as [->|Hne]; [done|]. by rewrite <- Hp1.
    + intros x. rewrite Hrel, Hr4.
      destruct (decide (x = w)) as [->|Hne].
      * rewrite (bool_decide_false (w ∈ ws')) by done.
        rewrite bool_decide_true by (by left). by rewrite Hr1.
      * rewrite Hr1. apply (f_equal (λ b : bool, if b then _ else _)).
        apply bool_decide_ext. rewrite elem_of_cons. tauto.
Qed.

(** X16.  No widget is added twice by one run ([add_widget] would refuse
    it), and each widget the loop ran on has one more [on_release] callback
    than before: line 120 binds a new partial on every run and nothing
    unbinds it, the cleanup neither, so the callbacks of a pooled widget pile
    up from run to run. *)
Theorem release_callbacks_pile_up c d src data s s' ws :
  populate setattr_ok c d src data s = (s', Ok ws) →
  (∀ x, is_Some (widgets s !! x) → x < next_id s) →
  NoDup ws
  ∧ (∀ x, on_release_of s' x
          = if bool_decide (x ∈ ws) then on_release_of s x ++ [d] else on_release_of s x)
  ∧ (∀ sh x, on_release_of (cleanup d sh s') x = on_release_of s' x).
Proof.
  intros H Hwf. destruct (populate_release _ _ _ _ _ _ _ H Hwf) as (Hnd & _ & Hrel).
  split; [done|]. split; [done|].
  intros sh x. unfold on_release_of. rewrite cleanup_widgets.
  destruct (bool_decide _); [|done]. by destruct (widgets s' !! x).
Qed.

End Callbacks.

Lemma demo_live_run :
  demo_live
  = host_run demo_factory accept_all
      [HMutate (SetOptionData [opt_A; opt_B; opt_C]); HTick] (init default_config).
Proof. unfold demo_live, host_run. simpl foldl. unfold host_step. reflexivity. Qed.

Lemma inv_demo_live : inv demo_live.
Proof. rewrite demo_live_run. apply host_run_inv, inv_init. Qed.

Lemma release_callbacks_pile_up_witness :
  on_release_of
    (populate accept_all "SpinnerOption" 0 [1; 2; 3] [opt_A; opt_B] (cancel demo_live)).1 1
  = [0; 0].
Proof.
  assert (Hrun : populate accept_all "SpinnerOption" 0 [1; 2; 3] [opt_A; opt_B]
                   (cancel demo_live)
                 = ((populate accept_all "SpinnerOption" 0 [1; 2; 3] [opt_A; opt_B]
                       (cancel demo_live)).1, Ok [1; 2]))
    by (vm_compute; reflexivity).
  destruct (cancel_inv demo_live inv_demo_live) as ([[_ Hwf] _] & _).
  pose proof (release_callbacks_pile_up accept_all "SpinnerOption" 0 [1; 2; 3]
                [opt_A; opt_B] _ _ _ Hrun Hwf) as H.
  destruct H as (_ & H & _). rewrite H.
  rewrite bool_decide_true by (rewrite elem_of_cons; by left).
  vm_compute. reflexivity.
Defined.

(** * The height of the option widgets *)

Lemma setup_sync_height_state d s :
  setup_sync_height d s
  = if sync_height (cfg s)
    then let s2 := _sync_height d (height (cfg s)) (set_next_id (S (next_id s)) s) in
         let h := {| h_id := next_id s; h_dd := d |} in
         (set_trace (trace s2 ++ [EBindHeight h])
            (set_bound_height (bound_height s2 ++ [h]) s2), Ok (Some h))
    else (s, Ok None).
Proof.
  unfold setup_sync_height. rewrite bind_run. simpl.
  by destruct (sync_height (cfg s)).
Qed.

Section SyncHeight.
Variable Factory_get : string → option class_id.
Variable setattr_ok : class_id → string → value → bool.

Local Abbreviation setup := (main_setup Factory_get setattr_ok).

(** X17.  With [sync_height] on, every widget the run populated has the
    height of the control when the setup is over: line 126 runs after the
    descriptors were applied, so a [height] given in a descriptor is
    overwritten. *)
Theorem sync_height_overrides_descriptor s s' f w :
  setup s = (s', Ok (Some f)) →
  (∀ x, is_Some (widgets s !! x) → x < next_id s) →
  sync_height (cfg s) = true →
  w ∈ f_widgets f →
  attr_of "height" s' w = Some (VNum (height (cfg s))).
Proof.
  intros H Hwf Hsync Hin.
  apply main_setup_inv in H
    as (s1 & c & src & s2 & s3 & Hprep & Hc & Hsrc & Hpop & Hsh & Hpol).
  pose proof (sf_cfg _ _ (prepare_dropdown_frame Factory_get s)) as Hcfg1.
  rewrite Hprep in Hcfg1. simpl in Hcfg1.
  pose proof (sf_cfg _ _ (populate_frame setattr_ok c (f_dd f) src
                            (option_data (cfg s1)) s1)) as Hcfg2.
  rewrite Hpop in Hcfg2. simpl in Hcfg2.
  assert (H1 : (∀ x, is_Some (widgets s1 !! x) → x < next_id s1)
               ∧ is_Some (dropdowns s1 !! f_dd f)).
  { apply prepare_dropdown_inv in Hprep as [(-> & _ & Hsome)|(c0 & Hb & Hd)]; [done|].
    destruct (build_dropdown_run c0 s) as (s1' & Hrun & _ & Hcl & _ & Hw & Hn & _).
    rewrite Hrun in Hb. injection Hb as <- Hdd. rewrite <- Hdd in *. split.
    - intros x. rewrite Hw, Hn. intros ?%Hwf. lia.
    - destruct (dropdowns s1' !! next_id s); [done|discriminate]. }
  destruct H1 as [Hwf1 Hsome1].
  destruct (populate_release _ _ _ _ _ _ _ _ Hpop Hwf1) as (_ & _ & Hrel).
  assert (HW : is_Some (widgets s2 !! w)).
  { specialize (Hrel w). rewrite bool_decide_true in Hrel by done.
    unfold on_release_of in Hrel at 1.
    destruct (widgets s2 !! w); [done|].
    by destruct (on_release_of s1 w). }
  apply populate_inv in Hpop as [Hd2 _].
  pose proof (children_of_populated _ _ _ _ Hd2 Hsome1) as Hch2.
  assert (Hchild : w ∈ children_of (f_dd f) s2).
  { rewrite Hch2, elem_of_app. left.
    apply list_elem_of_In, in_rev. rewrite rev_involutive. by apply list_elem_of_In. }
  rewrite setup_sync_height_state, Hcfg2, Hcfg1, Hsync in Hsh. cbv zeta in Hsh.
  injection Hsh as <- _.
  apply select_policy_inv in Hpol as (_ & Hw' & _).
  unfold attr_of. rewrite Hw'.
  change (widgets (set_trace ?t (set_bound_height ?b ?x))) with (widgets x).
  rewrite sync_height_widgets.
  change (children_of ?d (set_next_id ?n s2)) with (children_of d s2).
  rewrite bool_decide_true by done.
  change (widgets (set_next_id ?n s2)) with (widgets s2).
  destruct HW as [W ->]. simpl. by rewrite lookup_insert_eq.
Qed.

End SyncHeight.

Lemma sync_height_overrides_descriptor_witness :
  attr_of "height"
    (main_setup demo_factory accept_all
       (init (set_sync_height true
                (set_option_data [[("text", VStr "A"); ("height", VNum 7)]]
                   default_config)))).1 1
  = Some (VNum 100).
Proof.
  assert (Hrun : main_setup demo_factory accept_all
                   (init (set_sync_height true
                            (set_option_data [[("text", VStr "A"); ("height", VNum 7)]]
                               default_config)))
                 = ((main_setup demo_factory accept_all
                       (init (set_sync_height true
                                (set_option_data
                                   [[("text", VStr "A"); ("height", VNum 7)]]
                                   default_config)))).1,
                    Ok (Some {| f_dd := 0;
                                f_sync_height := Some {| h_id := 3; h_dd := 0 |};
                                f_widgets := [1] |})))
    by (vm_compute; reflexivity).
  rewrite (sync_height_overrides_descriptor demo_factory accept_all _ _ _ 1 Hrun).
  - reflexivity.
  - intros x [W HW]. simpl in HW. by rewrite lookup_empty in HW.
  - reflexivity.
  - simpl. rewrite elem_of_cons. by left.
Defined.

(** * The pool from one run to the next *)

Section PoolRoundTrip.
Variable Factory_get : string → option class_id.
Variable setattr_ok : class_id → string → value → bool.

Local Abbreviation start := (start_main Factory_get setattr_ok).

(** One round of the loop body on widget [w]: the fields of the descriptor
    are its attributes, the attributes of the other widgets are as before. *)
Lemma populate_step_attrs w d props s1 s2 s3 s4 :
  apply_props setattr_ok w props s1 = (s2, Ok tt) →
  bind_release w d s2 = (s3, Ok tt) →
  add_widget d w s3 = (s4, Ok tt) →
  (∀ x name, x ≠ w → attr_of name s4 x = attr_of name s1 x)
  ∧ (NoDup props.*1 → ∀ name v, (name, v) ∈ props → attr_of name s4 w = Some v).
Proof.
  intros H2 H3 H4.
  apply apply_props_widgets in H2 as (Hw2 & _ & _).
  destruct (bind_release_run w d s2) as (s3' & Hb & _ & Hw3 & _).
  rewrite Hb in H3. injection H3 as <-.
  apply add_widget_inv in H4 as (_ & W3 & HW3 & _ & Hw4).
  rewrite Hw3, Hw2, !lookup_alter_eq in HW3.
  destruct (widgets s1 !! w) as [[c a r p]|] eqn:HW1; [|done].
  unfold attr_of. rewrite Hw4, Hw3, Hw2. split.
  - intros x name Hne. by rewrite !lookup_alter_ne.
  - intros Hnd name v Hin. rewrite !lookup_alter_eq, HW1. simpl.
    by apply foldl_insert_lookup.
Qed.

(** Lines 117-121: the widget the loop ran on for the descriptor at position
    [i] has the fields of that descriptor; the widgets it did not run on
    keep their attributes. *)
Lemma populate_attrs c d src data s s' ws :
  populate setattr_ok c d src data s = (s', Ok ws) →
  (∀ x, is_Some (widgets s !! x) → x < next_id s) →
  (∀ x name, x ∉ ws → is_Some (widgets s !! x) → attr_of name s' x = attr_of name s x)
  ∧ (∀ i w props name v,
       ws !! i = Some w → data !! i = Some props →
       NoDup props.*1 → (name, v) ∈ props →
       attr_of name s' w = Some v).
Proof.
  intros H Hwf.
  destruct (populate_release _ _ _ _ _ _ _ _ H Hwf) as (Hnd & _ & _).
  revert src s s' ws H Hwf Hnd.
  induction data as [|props data IH]; intros src s s' ws; simpl.
  - intros H Hwf _. apply bind_ok_inv in H as (s1 & [w src'] & H1 & H2).
    injection H2 as <- <-.
    split; [|intros i w0 props0 name v Hi; by rewrite lookup_nil in Hi].
    intros x name _ Hx. destruct src as [|w0 src0]; simpl in H1.
    + apply bind_ok_inv in H1 as (s1' & a & H1 & H2).
      destruct (new_widget_run c s) as (sn & Hrun & _ & Hw & _).
      rewrite Hrun in H1. injection H1 as <- <-. injection H2 as <- _ _.
      unfold attr_of. rewrite Hw, lookup_insert_ne; [done|].
      intros <-. apply Hwf in Hx. lia.
    + by injection H1 as <- _ _.
  - intros H Hwf Hnd. apply bind_ok_inv in H as (s1 & [w src'] & H1 & H).
    destruct (next_widget_inv _ _ _ _ _ _ H1 Hwf) as (Hwf1 & _ & _).
    assert (Ha1 : ∀ x name, is_Some (widgets s !! x) →
                            attr_of name s1 x = attr_of name s x
                            ∧ is_Some (widgets s1 !! x)).
    { intros x name Hx. destruct src as [|w0 src0]; simpl in H1.
      - apply bind_ok_inv in H1 as (s1' & a & H1 & H2).
        destruct (new_widget_run c s) as (sn & Hrun & _ & Hw & _).
        rewrite Hrun in H1. injection H1 as <- <-. injection H2 as <- _ _.
        unfold attr_of. rewrite Hw, lookup_insert_ne; [done|].
        intros <-. apply Hwf in Hx. lia.
      - by injection H1 as <- _ _. }
    apply bind_ok_inv in H as (s2 & [] & H2 & H).
    apply bind_ok_inv in H as (s3 & [] & H3 & H).
    apply bind_ok_inv in H as (s4 & [] & H4 & H).
    destruct (populate_step_inv _ _ _ _ _ _ _ _ H2 H3 H4) as (Hn4 & Hdom & _).
    destruct (populate_step_attrs _ _ _ _ _ _ _ H2 H3 H4) as (Hother & Hw).
    apply bind_ok_inv in H as (s5 & ws' & H5 & H). injection H as <- <-.
    apply NoDup_cons in Hnd as [Hnotin Hnd'].
    assert (Hwf4 : ∀ x, is_Some (widgets s4 !! x) → x < next_id s4).
    { intros x Hx. apply Hdom, Hwf1 in Hx. lia. }
    destruct (IH _ _ _ _ H5 Hwf4 Hnd') as (IHo & IHi).
    assert (Hw4 : is_Some (widgets s4 !! w)).
    { apply Hdom. apply apply_props_widgets in H2 as (Hw2 & _ & _).
      destruct (bind_release_run w d s2) as (s3' & Hb & _ & Hw3 & _).
      rewrite Hb in H3. injection H3 as <-.
      apply add_widget_inv in H4 as (_ & W3 & HW3 & _).
      rewrite Hw3, Hw2, !lookup_alter_eq in HW3.
      by destruct (widgets s1 !! w). }
    split.
    + intros x name Hx Hsome. rewrite not_elem_of_cons in Hx. destruct Hx as [Hne Hx].
      destruct (Ha1 x name Hsome) as [E1 Hs1].
      rewrite IHo, Hother, E1; [done|done|done|by apply Hdom].
    + intros i w0 props0 name v Hi Hd Hndp Hin. destruct i as [|i]; simpl in Hi, Hd.
      * injection Hi as <-. injection Hd as <-.
        rewrite IHo by done. by apply Hw.
      * by apply (IHi i w0 props0).
Qed.

(** X10.  Round trip through the pool.  A run that started with an empty
    dropdown has populated one widget per descriptor; [ws] lists them in the
    order of the descriptors: the widget at position [i] carries the fields
    of the descriptor at position [i] ([height] excepted when [sync_height]
    rewrites it).  The children of the dropdown are these widgets newest
    first, [rev ws]; line 156 reverses them, so that, however many times the
    dropdown was opened in between, the cancelled run leaves [ws] itself in
    the pool, in the order of the descriptors, with the dropdown empty and
    the widgets without a parent. *)
Theorem pool_round_trip s0 s1 d sh n opened :
  (∀ d0, res_dropdown s0 = Some d0 → children_of d0 s0 = []) →
  (∀ x, is_Some (widgets s0 !! x) → x < next_id s0) →
  start s0 = (s1, Ok (TAwaitRelease d sh)) →
  let s2 := cancel (parked_after n opened d (set_main_task (TAwaitRelease d sh) s1)) in
  ∃ ws,
    length ws = length (option_data (cfg s0))
    ∧ NoDup ws
    ∧ (∀ i w props name v,
         ws !! i = Some w → option_data (cfg s0) !! i = Some props →
         NoDup props.*1 → (name, v) ∈ props →
         sync_height (cfg s0) = false ∨ name ≠ "height" →
         attr_of name s1 w = Some v ∧ attr_of name s2 w = Some v)
    ∧ children_of d s1 = rev ws
    ∧ res_dropdown s2 = Some d
    ∧ res_option_widgets s2 = Some ws
    ∧ children_of d s2 = []
    ∧ ∀ w, w ∈ ws → parent_of s2 w = None.
Proof.
  intros Hpool Hwf Hstart. cbv zeta.
  apply start_inv in Hstart as (sp & f & Hsetup & <- & <- & ->).
  destruct (setup_reaches_policy Factory_get setattr_ok _ _ _ Hsetup Hpool)
    as (s3 & Hpol & Hch & Hlen & _ & _).
  apply select_policy_inv in Hpol as (Hdd & _).
  pose proof (children_of_dropdowns (f_dd f) _ _ Hdd) as Hchp. rewrite Hch in Hchp.
  clear s3 Hch Hdd.
  (* the attributes at the end of the setup *)
  assert (Hattr : NoDup (f_widgets f)
                  ∧ ∀ i w props name v,
                      f_widgets f !! i = Some w →
                      option_data (cfg s0) !! i = Some props →
                      NoDup props.*1 → (name, v) ∈ props →
                      sync_height (cfg s0) = false ∨ name ≠ "height" →
                      attr_of name sp w = Some v).
  { apply main_setup_inv in Hsetup
      as (sA & c & src & sB & sC & Hprep & Hc & Hsrc & Hpop & Hsh & Hpol).
    pose proof (sf_cfg _ _ (prepare_dropdown_frame Factory_get
                              (set_trace (trace s0 ++ [EStart]) s0))) as HcA.
    rewrite Hprep in HcA. simpl in HcA.
    pose proof (sf_cfg _ _ (populate_frame setattr_ok c (f_dd f) src
                              (option_data (cfg sA)) sA)) as HcB.
    rewrite Hpop in HcB. simpl in HcB.
    assert (HwfA : ∀ x, is_Some (widgets sA !! x) → x < next_id sA).
    { apply prepare_dropdown_inv in Hprep as [(-> & _ & _)|(c0 & Hb & _)]; [done|].
      destruct (build_dropdown_run c0 (set_trace (trace s0 ++ [EStart]) s0))
        as (sA' & Hrun & _ & _ & _ & Hw & Hn & _).
      rewrite Hrun in Hb. injection Hb as <- _.
      intros x. rewrite Hw, Hn. simpl. intros ?%Hwf. lia. }
    destruct (populate_release _ _ _ _ _ _ _ _ Hpop HwfA) as (Hnd & _ & _).
    destruct (populate_attrs _ _ _ _ _ _ _ Hpop HwfA) as (_ & Hfields).
    rewrite HcA in Hfields.
    split; [done|].
    intros i w props name v Hi Hd Hndp Hin Hsync.
    specialize (Hfields i w props name v Hi Hd Hndp Hin).
    apply select_policy_inv in Hpol as (_ & Hwp & _).
    rewrite setup_sync_height_state, HcB, HcA in Hsh.
    unfold attr_of in *. rewrite Hwp.
    destruct (sync_height (cfg s0)) eqn:Hs.
    - destruct Hsync as [|Hname]; [done|]. cbv zeta in Hsh. injection Hsh as <- _.
      change (widgets (set_trace ?t (set_bound_height ?b ?x))) with (widgets x).
      rewrite sync_height_widgets.
      change (widgets (set_next_id ?k sB)) with (widgets sB).
      destruct (bool_decide _); [|done].
      destruct (widgets sB !! w) as [W|]; [|done]. simpl in *.
      by rewrite lookup_insert_ne.
    - by injection Hsh as <- _. }
  destruct Hattr as [Hnd Hattr].
  set (s1 := set_trace (trace sp ++ [EBindSelect (f_dd f)])
               (upd_dropdown (f_dd f) (λ D, set_dd_on_select (S (dd_on_select D)) D) sp)).
  assert (Hch1 : children_of (f_dd f) s1 = rev (f_widgets f)).
  { unfold s1.
    change (children_of ?d (set_trace ?t ?x)) with (children_of d x).
    by rewrite children_of_upd_dropdown. }
  assert (Hw1 : widgets s1 = widgets sp) by done.
  destruct (parked_after_spec n opened (f_dd f) (f_sync_height f)
              (set_main_task (TAwaitRelease (f_dd f) (f_sync_height f)) s1) eq_refl)
    as [Hlive Hsame].
  pose proof (sb_children _ _ Hsame (f_dd f)) as Hchk.
  change (children_of ?d (set_main_task ?t ?x)) with (children_of d x) in Hchk.
  rewrite Hch1 in Hchk.
  pose proof (sb_widgets _ _ Hsame) as Hwk.
  change (widgets (set_main_task ?t ?x)) with (widgets x) in Hwk.
  rewrite Hw1 in Hwk.
  pose proof (cancel_live _ _ _ Hlive) as Hcancel.
  generalize dependent (parked_after n opened (f_dd f)
                          (set_main_task (TAwaitRelease (f_dd f) (f_sync_height f)) s1)).
  intros p _ _ Hchk Hwk Hcancel. rewrite Hcancel.
  pose proof (cleanup_cleaned (f_dd f) (f_sync_height f)
                (set_trace (trace p ++ [ECancel]) p)) as Hcl.
  pose proof (cleanup_widgets (f_dd f) (f_sync_height f)
                (set_trace (trace p ++ [ECancel]) p)) as Hw.
  generalize dependent (cleanup (f_dd f) (f_sync_height f)
                          (set_trace (trace p ++ [ECancel]) p)).
  intros c _ Hcl Hw.
  change (children_of ?d (set_trace ?t ?x)) with (children_of d x) in *.
  change (widgets (set_trace ?t ?x)) with (widgets x) in *.
  exists (f_widgets f).
  change (res_dropdown (set_main_task ?t ?x)) with (res_dropdown x).
  change (res_option_widgets (set_main_task ?t ?x)) with (res_option_widgets x).
  change (children_of ?d (set_main_task ?t ?x)) with (children_of d x).
  unfold parent_of, attr_of.
  change (widgets (set_main_task ?t ?x)) with (widgets x).
  split; [done|]. split; [done|]. split.
  { intros i w props name v Hi Hd Hndp Hin Hsync.
    pose proof (Hattr i w props name v Hi Hd Hndp Hin Hsync) as Hv.
    unfold attr_of in Hv. rewrite Hw1. split; [done|].
    rewrite Hw, Hwk. destruct (bool_decide _); [|done].
    by destruct (widgets sp !! w). }
  split; [done|]. split; [apply (cl_res_dropdown _ _ _ _ Hcl)|].
  split.
  { rewrite (cl_res_option_widgets _ _ _ _ Hcl).
    change (children_of ?d (set_trace ?t ?x)) with (children_of d x).
    by rewrite Hchk, rev_involutive. }
  split; [apply (cl_children _ _ _ _ Hcl)|].
  intros w Hin. rewrite Hw, Hchk, bool_decide_true.
  - by destruct (widgets p !! w).
  - apply list_elem_of_In, in_rev. rewrite rev_involutive. by apply list_elem_of_In.
Qed.

End PoolRoundTrip.

Lemma pool_round_trip_witness :
  ∃ ws,
    length ws = 3
    ∧ res_option_widgets
        (cancel (parked_after 1 true 0
                   (set_main_task (TAwaitRelease 0 None)
                      (start_main demo_factory accept_all (init (demo_cfg None))).1)))
      = Some ws
    ∧ ∀ w, ws !! 1 = Some w →
           attr_of "text"
             (cancel (parked_after 1 true 0
                        (set_main_task (TAwaitRelease 0 None)
                           (start_main demo_factory accept_all
                              (init (demo_cfg None))).1))) w
           = Some (VStr "B").
Proof.
  assert (Hs : start_main demo_factory accept_all (init (demo_cfg None))
               = ((start_main demo_factory accept_all (init (demo_cfg None))).1,
                  Ok (TAwaitRelease 0 None)))
    by (vm_compute; reflexivity).
  assert (Hempty : ∀ d0, res_dropdown (init (demo_cfg None)) = Some d0 →
                         children_of d0 (init (demo_cfg None)) = [])
    by (intros d0; discriminate).
  assert (Hwf : ∀ x, is_Some (widgets (init (demo_cfg None)) !! x) →
                     x < next_id (init (demo_cfg None))).
  { intros x [W HW]. simpl in HW. by rewrite lookup_empty in HW. }
  pose proof (pool_round_trip demo_factory accept_all _ _ 0 None 1 true Hempty Hwf Hs) as H.
  destruct H as (ws & Hlen & _ & Hfields & _ & _ & Hpool & _).
  exists ws. split; [exact Hlen|]. split; [exact Hpool|].
  intros w Hw.
  assert (Hnd : NoDup opt_B.*1) by (apply NoDup_singleton).
  assert (Hin : ("text", VStr "B") ∈ opt_B) by (apply elem_of_cons; by left).
  assert (Hname : sync_height (cfg (init (demo_cfg None))) = false ∨ "text" ≠ "height")
    by (by left).
  exact (proj2 (Hfields 1 w opt_B "text" (VStr "B") Hw eq_refl Hnd Hin Hname)).
Defined.

(** * Where an exception can come from *)

Section Never.
Context (e : exn).

Lemma never_ret {A : Type} (a : A) : never_raises e (mret a).
Proof. intros s. discriminate. Qed.

Lemma never_raise {A : Type} (e' : exn) : e' ≠ e → never_raises e (raise e' : M A).
Proof. intros Hne s. simpl. congruence. Qed.

Lemma never_lift {A : Type} (r : result A) : r ≠ Raise e → never_raises e (lift r).
Proof. intros Hne s. done. Qed.

Lemma never_get : never_raises e get.
Proof. intros s. discriminate. Qed.

Lemma never_modify (f : world → world) : never_raises e (modify f).
Proof. intros s. discriminate. Qed.

Lemma never_bind {A B : Type} (m : M A) (f : A → M B) :
  never_raises e m → (∀ a, never_raises e (f a)) → never_raises e (m ≫= f).
Proof.
  intros Hm Hf s. rewrite bind_run. specialize (Hm s).
  destruct (m s) as [s1 [a|e']]; simpl in *; [apply Hf|].
  intros [= ->]. by apply Hm.
Qed.

End Never.

Ltac never_step :=
  lazymatch goal with
  | |- never_raises _ (mret _) => apply never_ret
  | |- never_raises _ (raise _) => apply never_raise; discriminate
  | |- never_raises _ get => apply never_get
  | |- never_raises _ (modify _) => apply never_modify
  | |- never_raises _ (log _) => apply never_modify
  | |- never_raises _ fresh => intros ?; discriminate
  | |- never_raises _ (_ ≫= _) => apply never_bind; [| intros ?]
  | |- never_raises _ (match ?x with _ => _ end) => destruct x
  end.

Ltac never_auto lemmas := repeat first [ never_step | lemmas ].

Section NoIndexError.
Variable Factory_get : string → option class_id.
Variable setattr_ok : class_id → string → value → bool.

Local Abbreviation setup := (main_setup Factory_get setattr_ok).
Local Abbreviation restart := (_restart Factory_get setattr_ok).

Lemma resolve_not_index r : resolve Factory_get r ≠ Raise IndexError.
Proof.
  unfold resolve. destruct (falsy r); [done|].
  destruct r as [n|c]; [|done]. by destruct (Factory_get n).
Qed.

Lemma build_dropdown_no_index c : never_raises IndexError (build_dropdown c).
Proof. unfold build_dropdown, new_dropdown. never_auto fail. Qed.

Lemma prepare_dropdown_no_index : never_raises IndexError (prepare_dropdown Factory_get).
Proof.
  unfold prepare_dropdown.
  never_auto ltac:(first [ apply build_dropdown_no_index
                         | apply never_lift, resolve_not_index ]).
Qed.

Lemma widget_source_no_index c : never_raises IndexError (widget_source c).
Proof. unfold widget_source. never_auto fail. Qed.

Lemma next_widget_no_index c src : never_raises IndexError (next_widget c src).
Proof. unfold next_widget, new_widget. never_auto fail. Qed.

Lemma apply_props_no_index w props :
  never_raises IndexError (apply_props setattr_ok w props).
Proof.
  induction props as [|[name v] props IH]; simpl.
  - never_auto fail.
  - unfold setattr_. never_auto ltac:(apply IH).
Qed.

Lemma populate_no_index c d src data :
  never_raises IndexError (populate setattr_ok c d src data).
Proof.
  revert src. induction data as [|props data IH]; intros src; simpl.
  - never_auto ltac:(apply next_widget_no_index).
  - unfold bind_release, add_widget.
    never_auto ltac:(first [ apply next_widget_no_index | apply apply_props_no_index
                           | apply IH ]).
Qed.

(** An [IndexError] comes from line 139, after everything else was set up. *)
Lemma setup_index_error s s' :
  setup s = (s', Raise IndexError) →
  ∃ s1 c src s2 ws s3 sh d,
    prepare_dropdown Factory_get s = (s1, Ok (Some d))
    ∧ populate setattr_ok c d src (option_data (cfg s1)) s1 = (s2, Ok ws)
    ∧ setup_sync_height d s2 = (s3, Ok sh)
    ∧ select_policy d s3 = (s', Raise IndexError).
Proof.
  unfold main_setup. rewrite bind_run.
  pose proof (prepare_dropdown_no_index s) as N1.
  destruct (prepare_dropdown Factory_get s) as [s1 [[d|]|e]] eqn:Hprep;
    [|discriminate|by intros [= -> ->]].
  rewrite bind_run. simpl. rewrite bind_run. unfold lift.
  pose proof (resolve_not_index (option_cls (cfg s1))) as N2.
  destruct (resolve Factory_get (option_cls (cfg s1))) as [[c|]|e];
    [|discriminate|by intros [= -> ->]].
  rewrite bind_run.
  pose proof (widget_source_no_index c s1) as N3.
  destruct (widget_source c s1) as [s1' [src|e]] eqn:Hsrc; [|by intros [= -> ->]].
  apply widget_source_state in Hsrc as ->.
  rewrite bind_run. simpl. rewrite bind_run.
  pose proof (populate_no_index c d src (option_data (cfg s1)) s1) as N4.
  destruct (populate setattr_ok c d src (option_data (cfg s1)) s1) as [s2 [ws|e]] eqn:Hpop;
    [|by intros [= -> ->]].
  rewrite bind_run.
  destruct (setup_sync_height_run d s2) as (s3 & sh & Hsh & _).
  rewrite Hsh. rewrite bind_run.
  destruct (select_policy d s3) as [s4 [[]|e]] eqn:Hpol; [discriminate|].
  intros [= -> ->]. by exists s1, c, src, s2, ws, s3, sh, d.
Qed.

(** X18.  An [IndexError] of line 139 is raised after the height partial
    was bound on line 127, and before the [try]: the restart leaves the
    partial bound with no task that would unbind it.  It happens only for
    a negative [auto_select]. *)
Theorem index_error_leaves_height_bound s s' :
  restart s = (s', Raise IndexError) →
  sync_height (cfg s) = true →
  (∃ a, auto_select (cfg s) = Some a ∧ (a < 0)%Z)
  ∧ (∃ h, bound_height s' = bound_height (cancel s) ++ [h])
  ∧ cancel s' = set_trace (trace s' ++ [ECancel]) s'.
Proof.
  intros H Hsync.
  assert (Hcfg : cfg (cancel s) = cfg s).
  { destruct (cancel_cases s) as [->|(d & sh & c & _ & -> & Hcl)]; [done|].
    exact (cl_cfg _ _ _ _ Hcl). }
  pose proof (cancel_not_parked s) as Hnp.
  rewrite restart_unfold, bind_run, start_cases in H.
  rewrite <- Hcfg in Hsync. rewrite <- Hcfg. clear Hcfg.
  generalize dependent (cancel s). intros s1 H Hsync Hnp.
  pose proof (main_setup_frame Factory_get setattr_ok
                (set_trace (trace s1 ++ [EStart]) s1)) as Hfr.
  destruct (setup (set_trace (trace s1 ++ [EStart]) s1)) as [sp [[f|]|e]] eqn:Hsetup;
    simpl in H; [discriminate H|discriminate H|].
  injection H as -> ->. simpl in Hfr.
  apply setup_index_error in Hsetup
    as (sA & c & src & sB & ws & sC & sh & d & Hprep & Hpop & Hsh & Hpol).
  pose proof (sf_cfg _ _ (prepare_dropdown_frame Factory_get
                            (set_trace (trace s1 ++ [EStart]) s1))) as HcA.
  pose proof (prepare_dropdown_build (same_on bound_height) Factory_get
                (set_trace (trace s1 ++ [EStart]) s1)) as HhA.
  rewrite Hprep in HcA, HhA. unfold same_on in HhA. simpl in HcA, HhA.
  pose proof (sf_cfg _ _ (populate_frame setattr_ok c d src (option_data (cfg sA)) sA))
    as HcB.
  pose proof (populate_build (same_on bound_height) setattr_ok c d src
                (option_data (cfg sA)) sA) as HhB.
  rewrite Hpop in HcB, HhB. unfold same_on in HhB. simpl in HcB, HhB.
  destruct (setup_sync_height_run d sB) as (sC' & sh' & Hrun & _ & _ & HcC & _ & _ & _ & Hh).
  rewrite Hrun in Hsh. injection Hsh as -> ->.
  rewrite HcB, HcA, Hsync in Hh. destruct Hh as [_ HhC].
  assert (Hpol' : s' = sC ∧ ∃ a, auto_select (cfg sC) = Some a ∧ (a < 0)%Z).
  { unfold select_policy in Hpol. rewrite bind_run in Hpol. simpl in Hpol.
    destruct (match selection sC with
              | Some w => bool_decide (w ∈ children_of d sC)
              | None => false
              end); [discriminate|].
    destruct (auto_select (cfg sC)) as [a|]; [|discriminate].
    destruct (Z.leb_spec (Z.of_nat (length (children_of d sC))) a) as [|Hlt];
      [discriminate|].
    destruct (py_index (children_of d sC) (- (a + 1))) as [w|] eqn:Hpy; [discriminate|].
    injection Hpol as <-. split; [done|]. exists a. split; [done|].
    destruct (Z.lt_ge_cases a 0) as [|Hge]; [done|].
    rewrite py_index_from_end in Hpy by lia.
    apply lookup_ge_None in Hpy. lia. }
  destruct Hpol' as [-> (a & Ha & Hneg)].
  split; [exists a; split; [congruence|done]|].
  split.
  - eexists. rewrite HhC, HhB. exact (f_equal (λ l, l ++ _) HhA).
  - apply not_parked_cancel. by rewrite (sf_task _ _ Hfr).
Qed.

End NoIndexError.

Lemma index_error_leaves_height_bound_witness :
  bound_height
    (_restart demo_factory accept_all
       (mutate (SetAutoSelect (Some (-1)%Z)) (init (set_sync_height true default_config)))).1
  ≠ [].
Proof.
  assert (Hrun : _restart demo_factory accept_all
                   (mutate (SetAutoSelect (Some (-1)%Z))
                      (init (set_sync_height true default_config)))
                 = ((_restart demo_factory accept_all
                       (mutate (SetAutoSelect (Some (-1)%Z))
                          (init (set_sync_height true default_config)))).1,
                    Raise IndexError))
    by (vm_compute; reflexivity).
  pose proof (index_error_leaves_height_bound demo_factory accept_all _ _ Hrun eq_refl)
    as H.
  destruct H as (_ & [h ->] & _). by destruct (bound_height _).
Defined.
